(** * Unified scraper framework: the scrape-categorize-persist pipeline

    A shallow embedding of [core/compress.py], [core/categorize.py],
    [core/db.py], [adapters/__init__.py], [adapters/base.py],
    [adapters/example.py] and [main.py], followed by the properties of the
    pipeline proved over it.

    Conventions.
    - A Python [str] is the list of its code points ([pystr]); [len] is
      [length] and a slice [s[:n]] is [firstn n s].
    - [bytes] is a list of integers in [0, 256).
    - A statement that may raise returns a [result].
    - Code that talks to the database, the configuration files or an adapter
      runs in the monad [M] over a [World]. *)

From Stdlib Require Import String Ascii ZArith List Bool Lia Sorted.
From Stdlib Require DecimalString DecimalZ.
Import ListNotations.

Local Open Scope Z_scope.

(* ================================================================== *)
(** * Part I: the program                                              *)
(* ================================================================== *)

(** ** Python values *)

Definition pystr := list Z.
Definition bytes := list Z.

(** A literal of the source, read code point by code point. *)
Definition py (s : string) : pystr :=
  map (fun a => Z.of_N (N_of_ascii a)) (list_ascii_of_string s).

Fixpoint str_eqb (a b : pystr) : bool :=
  match a, b with
  | [], [] => true
  | x :: a', y :: b' => (x =? y) && str_eqb a' b'
  | _, _ => false
  end.

(** [s.startswith(p)] and [sub in s]. *)
Fixpoint startswith (s p : pystr) {struct p} : bool :=
  match p, s with
  | [], _ => true
  | y :: p', x :: s' => (x =? y) && startswith s' p'
  | _ :: _, [] => false
  end.

Fixpoint contains (s sub : pystr) : bool :=
  startswith s sub ||
  match s with
  | [] => false
  | _ :: s' => contains s' sub
  end.

(** [str(n)] of an [int], as an f-string formats it. *)
Definition str_of_int (n : Z) : pystr :=
  py (DecimalString.NilEmpty.string_of_int (Z.to_int n)).

(** [c.isspace()]: the white space of the Unicode database. *)
Definition isspace (c : Z) : bool :=
  ((0x09 <=? c) && (c <=? 0x0D)) || ((0x1C <=? c) && (c <=? 0x20))
  || (c =? 0x85) || (c =? 0xA0) || (c =? 0x1680)
  || ((0x2000 <=? c) && (c <=? 0x200A))
  || (c =? 0x2028) || (c =? 0x2029) || (c =? 0x202F) || (c =? 0x205F)
  || (c =? 0x3000).

(** [s.lstrip(chars)] and [s.rstrip(chars)], the characters to drop given by
    a test; [s.strip()] drops white space at both ends. *)
Fixpoint lstrip (drop : Z -> bool) (s : pystr) : pystr :=
  match s with
  | [] => []
  | c :: s' => if drop c then lstrip drop s' else s
  end.

Definition rstrip (drop : Z -> bool) (s : pystr) : pystr :=
  rev (lstrip drop (rev s)).

Definition strip (s : pystr) : pystr := rstrip isspace (lstrip isspace s).

Definition is_slash (c : Z) : bool := c =? 47.

(** [f"{s:<width}"] *)
Definition ljust (width : nat) (s : pystr) : pystr :=
  s ++ repeat 32 (width - length s).

(** ** Exceptions

    Every class below derives from [Exception]; the ones [except ValueError]
    catches are singled out by [is_ValueError]. *)

Inductive exn_class :=
| ValueError
| UnicodeEncodeError      (* subclass of ValueError *)
| UnicodeDecodeError      (* subclass of ValueError *)
| BinasciiError           (* binascii.Error, subclass of ValueError *)
| FileNotFoundError
| Psycopg2Error           (* psycopg2.Error *)
| RuntimeError.           (* lz4, playwright and other library failures *)

Record exn := Exn { exn_cls : exn_class; exn_msg : pystr }.

Definition is_ValueError (e : exn) : bool :=
  match exn_cls e with
  | ValueError | UnicodeEncodeError | UnicodeDecodeError | BinasciiError => true
  | _ => false
  end.

Inductive result (A : Type) :=
| Ok (a : A)
| Raise (e : exn).
Arguments Ok {A} a.
Arguments Raise {A} e.

Definition bindR {A B} (r : result A) (k : A -> result B) : result B :=
  match r with
  | Ok a => k a
  | Raise e => Raise e
  end.

Notation "x <~ r ;; k" := (bindR r (fun x => k))
  (at level 61, r at next level, right associativity).

(** ** The codecs of the standard library used by [core/compress.py] *)

(** *** [str.encode('utf-8')] and [bytes.decode('utf-8')] (strict) *)

Definition is_surrogate (c : Z) : bool := (0xD800 <=? c) && (c <=? 0xDFFF).

Definition utf8_encode_char (c : Z) : option bytes :=
  if c <? 0 then None
  else if c <? 0x80 then Some [c]
  else if c <? 0x800 then Some [0xC0 + c / 64; 0x80 + c mod 64]
  else if c <? 0x10000 then
    if is_surrogate c then None
    else Some [0xE0 + c / 4096; 0x80 + (c / 64) mod 64; 0x80 + c mod 64]
  else if c <? 0x110000 then
    Some [0xF0 + c / 262144; 0x80 + (c / 4096) mod 64;
          0x80 + (c / 64) mod 64; 0x80 + c mod 64]
  else None.

Fixpoint str_encode (s : pystr) : result bytes :=
  match s with
  | [] => Ok []
  | c :: s' =>
      match utf8_encode_char c with
      | None => Raise (Exn UnicodeEncodeError (py "surrogates not allowed"))
      | Some bs => rest <~ str_encode s' ;; Ok (bs ++ rest)
      end
  end.

Definition is_cont (b : Z) : bool := (0x80 <=? b) && (b <=? 0xBF).

Definition invalid_utf8 : exn := Exn UnicodeDecodeError (py "invalid utf-8").

Fixpoint bytes_decode (bs : bytes) : result pystr :=
  match bs with
  | [] => Ok []
  | b0 :: r0 =>
      if (0 <=? b0) && (b0 <? 0x80) then
        rest <~ bytes_decode r0 ;; Ok (b0 :: rest)
      else if (0xC2 <=? b0) && (b0 <=? 0xDF) then
        match r0 with
        | b1 :: r1 =>
            if is_cont b1 then
              rest <~ bytes_decode r1 ;;
              Ok ((b0 - 0xC0) * 64 + (b1 - 0x80) :: rest)
            else Raise invalid_utf8
        | _ => Raise invalid_utf8
        end
      else if (0xE0 <=? b0) && (b0 <=? 0xEF) then
        match r0 with
        | b1 :: b2 :: r2 =>
            let c := (b0 - 0xE0) * 4096 + (b1 - 0x80) * 64 + (b2 - 0x80) in
            if is_cont b1 && is_cont b2 && (0x800 <=? c) && negb (is_surrogate c) then
              rest <~ bytes_decode r2 ;; Ok (c :: rest)
            else Raise invalid_utf8
        | _ => Raise invalid_utf8
        end
      else if (0xF0 <=? b0) && (b0 <=? 0xF4) then
        match r0 with
        | b1 :: b2 :: b3 :: r3 =>
            let c := (b0 - 0xF0) * 262144 + (b1 - 0x80) * 4096
                     + (b2 - 0x80) * 64 + (b3 - 0x80) in
            if is_cont b1 && is_cont b2 && is_cont b3
               && (0x10000 <=? c) && (c <? 0x110000) then
              rest <~ bytes_decode r3 ;; Ok (c :: rest)
            else Raise invalid_utf8
        | _ => Raise invalid_utf8
        end
      else Raise invalid_utf8
  end.

(** *** [base64.b64encode] and [base64.b64decode] (not validating) *)

Definition b64_char (n : Z) : Z :=
  if n <? 26 then 65 + n
  else if n <? 52 then 97 + (n - 26)
  else if n <? 62 then 48 + (n - 52)
  else if n =? 62 then 43
  else 47.

Definition b64_pad : Z := 61.

Fixpoint b64encode (bs : bytes) : bytes :=
  match bs with
  | [] => []
  | [a] => [b64_char (a / 4); b64_char ((a mod 4) * 16); b64_pad; b64_pad]
  | [a; b] =>
      [b64_char (a / 4); b64_char ((a mod 4) * 16 + b / 16);
       b64_char ((b mod 16) * 4); b64_pad]
  | a :: b :: c :: rest =>
      b64_char (a / 4) :: b64_char ((a mod 4) * 16 + b / 16)
      :: b64_char ((b mod 16) * 4 + c / 64) :: b64_char (c mod 64)
      :: b64encode rest
  end.

Definition b64_index (ch : Z) : option Z :=
  if (65 <=? ch) && (ch <=? 90) then Some (ch - 65)
  else if (97 <=? ch) && (ch <=? 122) then Some (ch - 71)
  else if (48 <=? ch) && (ch <=? 57) then Some (ch + 4)
  else if ch =? 43 then Some 62
  else if ch =? 47 then Some 63
  else None.

Definition incorrect_padding : exn := Exn BinasciiError (py "Incorrect padding").

(** The scanning loop of [binascii.a2b_base64]: [quad_pos] is the position in
    the current group of four, [leftchar] the bits not yet written, [pads]
    the padding characters seen since the last data character. Characters
    outside the alphabet are skipped. *)
Fixpoint a2b_base64 (chars : bytes) (quad_pos : nat) (leftchar : Z) (pads : nat)
  : result bytes :=
  match chars with
  | [] =>
      match quad_pos with
      | O => Ok []
      | _ => Raise incorrect_padding
      end
  | ch :: rest =>
      if ch =? b64_pad then
        if Nat.leb 2 quad_pos then
          if Nat.leb 4 (quad_pos + S pads) then Ok []
          else a2b_base64 rest quad_pos leftchar (S pads)
        else a2b_base64 rest quad_pos leftchar pads
      else
        match b64_index ch with
        | None => a2b_base64 rest quad_pos leftchar pads
        | Some v =>
            match quad_pos with
            | 0%nat => a2b_base64 rest 1 v 0
            | 1%nat =>
                out <~ a2b_base64 rest 2 (v mod 16) 0 ;;
                Ok (leftchar * 4 + v / 16 :: out)
            | 2%nat =>
                out <~ a2b_base64 rest 3 (v mod 4) 0 ;;
                Ok (leftchar * 16 + v / 4 :: out)
            | _ =>
                out <~ a2b_base64 rest 0 0 0 ;;
                Ok (leftchar * 64 + v :: out)
            end
        end
  end.

Definition b64decode (s : bytes) : result bytes := a2b_base64 s 0 0 0.

(** ** core/compress.py *)

Section Compress.

(** [lz4.frame.compress] and [lz4.frame.decompress]: the LZ4 library is not
    part of the repository. *)
Variable lz4_frame_compress : bytes -> bytes.
Variable lz4_frame_decompress : bytes -> result bytes.

Definition compress_text (text : pystr) : result pystr :=
  match text with
  | [] => Ok []
  | _ =>
      raw <~ str_encode text ;;
      let compressed := lz4_frame_compress raw in
      bytes_decode (b64encode compressed)
  end.

Definition decompress_text (compressed : pystr) : result pystr :=
  match compressed with
  | [] => Ok []
  | _ =>
      raw <~ str_encode compressed ;;
      decoded <~ b64decode raw ;;
      decompressed <~ lz4_frame_decompress decoded ;;
      bytes_decode decompressed
  end.

End Compress.

(** ** core/categorize.py *)

(** [CATEGORY_KEYWORDS]: a dict literal, kept in its insertion order. *)
Definition CATEGORY_KEYWORDS : list (pystr * list pystr) :=
  [ (py "documentation",
      map py ["docs"; "documentation"; "guide"; "tutorial"; "manual"; "reference"]%string);
    (py "news",
      map py ["news"; "article"; "update"; "announcement"; "press"; "release"]%string);
    (py "product",
      map py ["product"; "feature"; "pricing"; "plan"; "subscription"; "service"]%string);
    (py "support",
      map py ["help"; "support"; "faq"; "troubleshoot"; "issue"; "contact"]%string);
    (py "legal",
      map py ["terms"; "privacy"; "policy"; "legal"; "agreement"; "disclaimer"]%string);
    (py "general", []) ].

(** [[kw for kw in keywords if kw in combined]] *)
Definition keyword_matches (combined : pystr) (keywords : list pystr) : list pystr :=
  filter (fun kw => contains combined kw) keywords.

(** The body of the [for category, keywords in ...items()] loop, over the
    entries still to visit; [tags], [best_category] and [max_matches] are the
    loop's variables. *)
Fixpoint categorize_loop (entries : list (pystr * list pystr)) (combined : pystr)
    (tags : list pystr) (best_category : pystr) (max_matches : nat)
  : pystr * list pystr :=
  match entries with
  | [] => (best_category, tags)
  | (category, keywords) :: rest =>
      if str_eqb category (py "general") then
        categorize_loop rest combined tags best_category max_matches
      else
        let matches := keyword_matches combined keywords in
        match matches with
        | [] => categorize_loop rest combined tags best_category max_matches
        | _ :: _ =>
            if Nat.ltb max_matches (length matches) then
              categorize_loop rest combined (tags ++ firstn 3 matches)
                category (length matches)
            else
              categorize_loop rest combined (tags ++ firstn 3 matches)
                best_category max_matches
        end
  end.

(** [list(set(tags))]: the tags without repetition; Python leaves their order
    unspecified. *)
Fixpoint list_set (tags : list pystr) : list pystr :=
  match tags with
  | [] => []
  | t :: rest => if existsb (str_eqb t) rest then list_set rest else t :: list_set rest
  end.

Section Categorize.

(** [str.lower], which follows the Unicode case tables. *)
Variable lower : pystr -> pystr.

(** [categorize_content] over a keyword table ([CATEGORY_KEYWORDS] is meant
    to be customised). *)
Definition categorize_with (table : list (pystr * list pystr))
    (title text : pystr) : pystr * list pystr :=
  let combined := lower (title ++ py " " ++ firstn 2000 text) in
  let '(best_category, tags) :=
    categorize_loop table combined [] (py "general") 0 in
  (best_category, list_set tags).

Definition categorize_content (title text : pystr) : pystr * list pystr :=
  categorize_with CATEGORY_KEYWORDS title text.

End Categorize.

(** [str.lower] on the ASCII letters, the identity elsewhere. *)
Definition ascii_lower (s : pystr) : pystr :=
  map (fun c => if (65 <=? c) && (c <=? 90) then c + 32 else c) s.

(** ** The store behind core/db.py *)

Definition Uuid := Z.
Definition Timestamp := Z.

Local Unset Elimination Schemes.
Inductive Json :=
| JNull
| JBool (b : bool)
| JNum (n : Z)
| JStr (s : pystr)
| JArr (l : list Json)
| JObj (l : list (pystr * Json)).
Local Set Elimination Schemes.

(** The tables, with the columns the statements of [db.py] name. *)
Record SourceRow := mkSourceRow {
  Source_id : Uuid;
  Source_createdAt : Timestamp;
  Source_updatedAt : Timestamp;
  Source_name : pystr;
  Source_slug : pystr;
  Source_category : pystr;
  Source_metadata : Json;
  Source_sourceUrl : pystr;
  Source_adapter : pystr;
  Source_lastScraped : Timestamp
}.

Record ItemRow := mkItemRow {
  Item_id : Uuid;
  Item_sourceId : Uuid;
  Item_number : pystr;
  Item_title : pystr;
  Item_category : pystr;
  Item_summary : pystr;
  Item_tags : list pystr;
  Item_fullText : pystr;
  Item_sourceUrl : pystr;
  Item_metadata : Json;
  Item_scrapedAt : Timestamp
}.

Record Database := mkDatabase {
  Source : list SourceRow;
  Item : list ItemRow
}.

(** The unique constraints the [ON CONFLICT] clauses rely on. *)
Definition Source_name_unique (db : Database) : Prop :=
  NoDup (map Source_name (Source db)).

Definition Item_key (r : ItemRow) : Uuid * pystr := (Item_sourceId r, Item_number r).

Definition Item_key_unique (db : Database) : Prop :=
  NoDup (map Item_key (Item db)).

Definition has_name (name : pystr) (r : SourceRow) : bool :=
  str_eqb (Source_name r) name.

Definition has_key (source_id : Uuid) (number : pystr) (r : ItemRow) : bool :=
  (Item_sourceId r =? source_id) && str_eqb (Item_number r) number.

(** What a statement reads from the server besides the tables. *)
Inductive db_fault :=
| ConnectFails (msg : pystr)     (* psycopg2.connect raises *)
| ExecuteFails (msg : pystr).    (* cursor.execute raises; nothing is committed *)

Record DbEnv := mkDbEnv {
  env_fault : option db_fault;
  env_now : Timestamp;           (* NOW() *)
  env_uuid : Uuid                (* gen_random_uuid() *)
}.

(** [SELECT id FROM "Source" WHERE name = %s], first row. *)
Definition select_source_id (name : pystr) (db : Database) : option Uuid :=
  option_map Source_id (find (has_name name) (Source db)).

(** [INSERT INTO "Source" ... ON CONFLICT (name) DO UPDATE
     SET "lastScraped" = NOW(), "updatedAt" = NOW() RETURNING id] *)
Definition refresh_source (now : Timestamp) (r : SourceRow) : SourceRow :=
  {| Source_id := Source_id r;
     Source_createdAt := Source_createdAt r;
     Source_updatedAt := now;
     Source_name := Source_name r;
     Source_slug := Source_slug r;
     Source_category := Source_category r;
     Source_metadata := Source_metadata r;
     Source_sourceUrl := Source_sourceUrl r;
     Source_adapter := Source_adapter r;
     Source_lastScraped := now |}.

Definition upsert_source (name slug category : pystr) (metadata : Json)
    (source_url adapter : pystr) (env : DbEnv) (db : Database)
  : Database * Uuid :=
  match select_source_id name db with
  | Some id =>
      ({| Source := map (fun r => if has_name name r
                                  then refresh_source (env_now env) r else r)
                        (Source db);
          Item := Item db |}, id)
  | None =>
      ({| Source := Source db ++
            [ {| Source_id := env_uuid env;
                 Source_createdAt := env_now env;
                 Source_updatedAt := env_now env;
                 Source_name := name;
                 Source_slug := slug;
                 Source_category := category;
                 Source_metadata := metadata;
                 Source_sourceUrl := source_url;
                 Source_adapter := adapter;
                 Source_lastScraped := env_now env |} ];
          Item := Item db |}, env_uuid env)
  end.

(** [INSERT INTO "Item" ... ON CONFLICT ("sourceId", number) DO UPDATE SET
     title, category, summary, tags, "fullText", metadata = EXCLUDED...,
     "scrapedAt" = NOW()] *)
Definition overwrite_item (title category summary : pystr) (tags : list pystr)
    (full_text : pystr) (metadata : Json) (now : Timestamp) (r : ItemRow)
  : ItemRow :=
  {| Item_id := Item_id r;
     Item_sourceId := Item_sourceId r;
     Item_number := Item_number r;
     Item_title := title;
     Item_category := category;
     Item_summary := summary;
     Item_tags := tags;
     Item_fullText := full_text;
     Item_sourceUrl := Item_sourceUrl r;
     Item_metadata := metadata;
     Item_scrapedAt := now |}.

Definition upsert_item (source_id : Uuid) (number title category summary : pystr)
    (tags : list pystr) (full_text source_url : pystr) (metadata : Json)
    (env : DbEnv) (db : Database) : Database * unit :=
  if existsb (has_key source_id number) (Item db) then
    ({| Source := Source db;
        Item := map (fun r => if has_key source_id number r
                              then overwrite_item title category summary tags
                                     full_text metadata (env_now env) r
                              else r)
                    (Item db) |}, tt)
  else
    ({| Source := Source db;
        Item := Item db ++
          [ {| Item_id := env_uuid env;
               Item_sourceId := source_id;
               Item_number := number;
               Item_title := title;
               Item_category := category;
               Item_summary := summary;
               Item_tags := tags;
               Item_fullText := full_text;
               Item_sourceUrl := source_url;
               Item_metadata := metadata;
               Item_scrapedAt := env_now env |} ] |}, tt).

(** [SELECT COUNT( * ) FROM "Item" WHERE "sourceId" = %s]; a [None] parameter
    is SQL NULL, which equals nothing. *)
Definition count_items (source_id : option Uuid) (db : Database) : Z :=
  match source_id with
  | None => 0
  | Some id => Z.of_nat (length (filter (fun r => Item_sourceId r =? id) (Item db)))
  end.

(** ** adapters/base.py, adapters/example.py, adapters/__init__.py *)

(** One entry of [config['targets']]; [metadata], [source] and [enabled] are
    read with [.get] and may be absent. *)
Record TargetConfig := mkTargetConfig {
  cfg_id : pystr;
  cfg_name : pystr;
  cfg_slug : pystr;
  cfg_category : pystr;
  cfg_metadata : option Json;
  cfg_url : pystr;
  cfg_source : option pystr;
  cfg_enabled : option bool
}.

(** [target.get('metadata', {})] and [target.get('source', 'example')] *)
Definition target_metadata (target : TargetConfig) : Json :=
  match cfg_metadata target with
  | Some metadata => metadata
  | None => JObj []
  end.

Definition target_source (target : TargetConfig) : pystr :=
  match cfg_source target with
  | Some source => source
  | None => py "example"
  end.

(** The item dicts [extract_items] returns. *)
Record RawItem := mkRawItem {
  raw_number : pystr;
  raw_title : pystr;
  raw_text : pystr;
  raw_url : pystr
}.

(** [BaseAdapter]: the two abstract methods and the class attributes. An
    adapter reads the web and returns its items or raises; it has no access
    to the store. *)
Record BaseAdapter := mkBaseAdapter {
  SOURCE_NAME : pystr;
  DISPLAY_NAME : pystr;
  validate_url : pystr -> bool;
  extract_items : pystr -> TargetConfig -> result (list RawItem)
}.

(** What the headless browser does for a URL, as far as
    [ExampleAdapter.extract_items] tells the cases apart. Which elements the
    page has, and which of them give an item (selectors, the length filter,
    the resolution of the links), is the browser's answer. *)
Inductive BrowserSession :=
| Browser_fails (e : exn)        (* starting or closing the browser raises:
                                    outside the [try], or in its [finally] *)
| Page_fails (e : exn)           (* loading or querying the page raises, inside
                                    the [try]: logged, no item was appended *)
| Page_items (items : list RawItem).   (* the items appended, element by element *)

Section Adapters.

Variable sync_playwright : pystr -> BrowserSession.

Definition ExampleAdapter : BaseAdapter :=
  {| SOURCE_NAME := py "example";
     DISPLAY_NAME := py "Example.com";
     validate_url := fun url => contains url (py "example.com");
     extract_items := fun url _ =>
       match sync_playwright url with
       | Browser_fails e => Raise e
       | Page_fails _ => Ok []
       | Page_items items => Ok items
       end |}.

Definition ADAPTERS : list (pystr * BaseAdapter) :=
  [ (py "example", ExampleAdapter) ].

End Adapters.

(** ** adapters/example.py: the element loop of [extract_items] *)

(** What the page answers for one element of
    [query_selector_all('.item, article, .post')]: the inner text of its
    title element and of its content element, and the [href] of its link,
    each [None] when the selector finds nothing; a query may raise. *)
Record Element := mkElement {
  title_el : result (option pystr);       (* 'h1, h2, h3, .title', inner_text() *)
  content_el : result (option pystr);     (* '.content, .body, p', inner_text() *)
  link_el : result (option (option pystr))
                                          (* 'a', get_attribute('href'), which is
                                             None when the attribute is missing *)
}.

(** The outcome of the [try] body for one element. *)
Inductive Extracted :=
| Appended (item : RawItem)
| Passed_over                    (* no text, or 50 characters or fewer *)
| Warned (message : pystr).      (* a statement raised: [except Exception]
                                    logs the warning and the loop goes on *)

(** [item_url if item_url.startswith('http')
     else f"{url.rstrip('/')}/{item_url.lstrip('/')}"] *)
Definition resolve_url (url item_url : pystr) : pystr :=
  if startswith item_url (py "http") then item_url
  else rstrip is_slash url ++ py "/" ++ lstrip is_slash item_url.

Definition extract_element (url : pystr) (i : nat) (element : Element) : Extracted :=
  match title_el element with
  | Raise e => Warned (exn_msg e)
  | Ok title_el =>
      let title := match title_el with
                   | Some inner_text => strip inner_text
                   | None => py "Item " ++ str_of_int (Z.of_nat i + 1)
                   end in
      match content_el element with
      | Raise e => Warned (exn_msg e)
      | Ok content_el =>
          let text := match content_el with
                      | Some inner_text => strip inner_text
                      | None => []
                      end in
          match link_el element with
          | Raise e => Warned (exn_msg e)
          | Ok link_el =>
              let item_url := match link_el with
                              | Some href => href
                              | None => Some url
                              end in
              (* if text and len(text) > 50 *)
              if negb (Nat.eqb (length text) 0) && Nat.ltb 50 (length text) then
                match item_url with
                | None =>
                    Warned (py "'NoneType' object has no attribute 'startswith'")
                | Some item_url =>
                    Appended
                      {| raw_number := py "ITEM-" ++ str_of_int (Z.of_nat i + 1);
                         raw_title := title;
                         raw_text := text;
                         raw_url := resolve_url url item_url |}
                end
              else Passed_over
          end
      end
  end.

(** [for i, element in enumerate(elements)], from index [i] on, [items]
    being the list built so far. *)
Fixpoint extract_elements (url : pystr) (i : nat) (elements : list Element)
    (items : list RawItem) : list RawItem :=
  match elements with
  | [] => items
  | element :: rest =>
      match extract_element url i element with
      | Appended item => extract_elements url (S i) rest (items ++ [item])
      | Passed_over | Warned _ => extract_elements url (S i) rest items
      end
  end.

(** What loading a URL gives [extract_items] before the element loop. *)
Inductive Page :=
| Page_error (e : exn)           (* goto, wait_for_selector (other than by its
                                    timeout) or query_selector_all raises *)
| Page_elements (elements : list Element).

(** A browser: starting it (up to [new_page]), the pages it loads, and
    closing it in the [finally]. *)
Record Browser := mkBrowser {
  browser_launch : result unit;
  page_goto : pystr -> Page;
  browser_close : result unit
}.

(** One session of [extract_items] with a browser. *)
Definition browser_session (browser : Browser) (url : pystr) : BrowserSession :=
  match browser_launch browser with
  | Raise e => Browser_fails e
  | Ok _ =>
      let session := match page_goto browser url with
                     | Page_error e => Page_fails e
                     | Page_elements elements =>
                         Page_items (extract_elements url 0 elements [])
                     end in
      match browser_close browser with
      | Raise e => Browser_fails e
      | Ok _ => session
      end
  end.

(** [repr] of a [str] and of a list of [str]; code points above 127 are taken
    to be printable. *)
Definition hex_digit (n : Z) : Z := if n <? 10 then 48 + n else 87 + n.

Definition repr_char (quote c : Z) : pystr :=
  if c =? 92 then [92; 92]
  else if c =? quote then [92; quote]
  else if c =? 10 then [92; 110]
  else if c =? 13 then [92; 114]
  else if c =? 9 then [92; 116]
  else if (c <? 32) || (c =? 127) then [92; 120; hex_digit (c / 16); hex_digit (c mod 16)]
  else [c].

Definition repr_str (s : pystr) : pystr :=
  let quote := if existsb (Z.eqb 39) s && negb (existsb (Z.eqb 34) s) then 34 else 39 in
  [quote] ++ flat_map (repr_char quote) s ++ [quote].

Fixpoint join (sep : pystr) (parts : list pystr) : pystr :=
  match parts with
  | [] => []
  | [p] => p
  | p :: rest => p ++ sep ++ join sep rest
  end.

Definition repr_list (l : list pystr) : pystr :=
  py "[" ++ join (py ", ") (map repr_str l) ++ py "]".

Section Registry.

(** The module-level mapping, in insertion order. *)
Variable registry : list (pystr * BaseAdapter).

Definition registry_lookup (source : pystr) : option BaseAdapter :=
  option_map snd (find (fun kv => str_eqb (fst kv) source) registry).

Definition get_adapter (source : pystr) : result BaseAdapter :=
  match registry_lookup source with
  | None =>
      Raise (Exn ValueError
               (py "Unknown source: " ++ source ++ py ". Available: "
                ++ repr_list (map fst registry)))
  | Some cls => Ok cls
  end.

End Registry.

(** ** The world of a run, and the monad of main.py and core/db.py *)

Inductive Event :=
| Call_source_exists (name : pystr)
| Call_get_source_id (name : pystr)
| Call_get_item_count (source_id : option Uuid)
| Call_insert_source (name : pystr)
| Call_insert_item (source_id : Uuid) (number : pystr)
| Call_get_adapter (source : pystr)
| Call_validate_url (adapter url : pystr)
| Call_extract_items (adapter url : pystr).

Definition is_write (ev : Event) : bool :=
  match ev with
  | Call_insert_source _ | Call_insert_item _ _ => true
  | _ => false
  end.

Definition is_adapter_call (ev : Event) : bool :=
  match ev with
  | Call_get_adapter _ | Call_validate_url _ _ | Call_extract_items _ _ => true
  | _ => false
  end.

Record ConfigFile := mkConfigFile {
  region_name : pystr;
  targets : list TargetConfig
}.

Record World := mkWorld {
  w_db : Database;
  w_DATABASE_URL : option pystr;       (* os.getenv('DATABASE_URL') *)
  w_db_env : nat -> DbEnv;             (* what the n-th connection meets *)
  w_db_calls : nat;                    (* connections opened so far *)
  w_main_dir : pystr;                  (* Path(__file__).parent *)
  w_config : pystr -> option ConfigFile;   (* config/<region>.json *)
  w_trace : list Event                 (* calls made so far, oldest first *)
}.

Definition set_db (db : Database) (w : World) : World :=
  {| w_db := db; w_DATABASE_URL := w_DATABASE_URL w; w_db_env := w_db_env w;
     w_db_calls := w_db_calls w; w_main_dir := w_main_dir w;
     w_config := w_config w; w_trace := w_trace w |}.

Definition set_db_calls (n : nat) (w : World) : World :=
  {| w_db := w_db w; w_DATABASE_URL := w_DATABASE_URL w; w_db_env := w_db_env w;
     w_db_calls := n; w_main_dir := w_main_dir w;
     w_config := w_config w; w_trace := w_trace w |}.

Definition log (ev : Event) (w : World) : World :=
  {| w_db := w_db w; w_DATABASE_URL := w_DATABASE_URL w; w_db_env := w_db_env w;
     w_db_calls := w_db_calls w; w_main_dir := w_main_dir w;
     w_config := w_config w; w_trace := w_trace w ++ [ev] |}.

Definition M (A : Type) : Type := World -> result A * World.

Definition ret {A} (a : A) : M A := fun w => (Ok a, w).

Definition raise {A} (e : exn) : M A := fun w => (Raise e, w).

(** A statement that touches nothing of the world: it returns or raises. *)
Definition lift {A} (r : result A) : M A := fun w => (r, w).

Definition bind {A B} (m : M A) (k : A -> M B) : M B :=
  fun w =>
    match m w with
    | (Ok a, w') => k a w'
    | (Raise e, w') => (Raise e, w')
    end.

Notation "x <- c ;; k" := (bind c (fun x => k))
  (at level 61, c at next level, right associativity).
Notation "c ;; k" := (bind c (fun _ => k))
  (at level 61, right associativity).

(** [try: body except <catches> as e: handler e] *)
Definition try_except {A} (body : M A) (catches : exn -> bool) (handler : exn -> M A)
  : M A :=
  fun w =>
    match body w with
    | (Ok a, w') => (Ok a, w')
    | (Raise e, w') => if catches e then handler e w' else (Raise e, w')
    end.

Definition any_Exception (e : exn) : bool := true.

(** A call that leaves the store alone: it is recorded, and returns or raises. *)
Definition call {A} (ev : Event) (r : result A) : M A :=
  fun w => (r, log ev w).

Definition trace (ev : Event) : M unit := call ev (Ok tt).

(** ** core/db.py *)

Definition get_db_connection : M DbEnv :=
  fun w =>
    match w_DATABASE_URL w with
    | None | Some [] =>
        (Raise (Exn ValueError (py "DATABASE_URL environment variable not set")), w)
    | Some (_ :: _) =>
        let env := w_db_env w (w_db_calls w) in
        let w' := set_db_calls (S (w_db_calls w)) w in
        match env_fault env with
        | Some (ConnectFails msg) => (Raise (Exn Psycopg2Error msg), w')
        | _ => (Ok env, w')
        end
    end.

(** [cur.execute(...)] followed, for a writing statement, by [conn.commit()]:
    a statement that raises commits nothing. *)
Definition execute {A} (conn : DbEnv) (stmt : DbEnv -> Database -> Database * A)
  : M A :=
  fun w =>
    match env_fault conn with
    | Some (ExecuteFails msg) => (Raise (Exn Psycopg2Error msg), w)
    | _ => let '(db', a) := stmt conn (w_db w) in (Ok a, set_db db' w)
    end.

Definition source_exists (name : pystr) : M bool :=
  trace (Call_source_exists name) ;;
  conn <- get_db_connection ;;
  row <- execute conn (fun _ db => (db, select_source_id name db)) ;;
  ret (match row with Some _ => true | None => false end).

Definition get_source_id (name : pystr) : M (option Uuid) :=
  trace (Call_get_source_id name) ;;
  conn <- get_db_connection ;;
  execute conn (fun _ db => (db, select_source_id name db)).

Definition insert_source (name slug category : pystr) (metadata : Json)
    (source_url adapter : pystr) : M Uuid :=
  trace (Call_insert_source name) ;;
  conn <- get_db_connection ;;
  execute conn (upsert_source name slug category metadata source_url adapter).

Definition insert_item (source_id : Uuid) (number title category summary : pystr)
    (full_text_compressed : pystr) (tags : list pystr) (source_url adapter : pystr)
  : M unit :=
  trace (Call_insert_item source_id number) ;;
  conn <- get_db_connection ;;
  let metadata := JObj [(py "adapter", JStr adapter)] in
  execute conn (upsert_item source_id number title category summary tags
                  full_text_compressed source_url metadata).

Definition get_item_count (source_id : option Uuid) : M Z :=
  trace (Call_get_item_count source_id) ;;
  conn <- get_db_connection ;;
  execute conn (fun _ db => (db, count_items source_id db)).

(** ** main.py *)

Inductive pyval :=
| VStr (s : pystr)
| VInt (n : Z).

Definition pydict := list (pystr * pyval).

Definition load_config (region : pystr) : M ConfigFile :=
  fun w =>
    match w_config w region with
    | None =>
        (Raise (Exn FileNotFoundError
                  (py "Config not found: " ++ w_main_dir w ++ py "/config/"
                   ++ region ++ py ".json")), w)
    | Some config => (Ok config, w)
    end.

Definition get_target_config (target_id region : pystr) : M TargetConfig :=
  config <- load_config region ;;
  match find (fun target => str_eqb (cfg_id target) target_id) (targets config) with
  | Some target => ret target
  | None =>
      raise (Exn ValueError
               (py "Target '" ++ target_id ++ py "' not found in " ++ region
                ++ py " config"))
  end.

(** [text[:200] + "..." if len(text) > 200 else text] *)
Definition make_summary (text : pystr) : pystr :=
  if Nat.ltb 200 (length text) then firstn 200 text ++ py "..." else text.

Section Main.

Variable lower : pystr -> pystr.
Variable lz4_frame_compress : bytes -> bytes.
Variable registry : list (pystr * BaseAdapter).

(** The body of the [try] inside the item loop. *)
Definition process_item (source_id : Uuid) (adapter_name : pystr) (item : RawItem)
  : M unit :=
  let '(item_category, tags) :=
    categorize_content lower (raw_title item) (raw_text item) in
  let summary := make_summary (raw_text item) in
  compressed_text <- lift (compress_text lz4_frame_compress (raw_text item)) ;;
  insert_item source_id (raw_number item) (raw_title item) item_category
    summary compressed_text tags (raw_url item) adapter_name.

(** [for item in items: try: ... success_count += 1
     except Exception: error_count += 1] *)
Fixpoint process_items (source_id : Uuid) (adapter_name : pystr)
    (items : list RawItem) (success_count error_count : Z) : M (Z * Z) :=
  match items with
  | [] => ret (success_count, error_count)
  | item :: rest =>
      counts <- try_except
                  (process_item source_id adapter_name item ;;
                   ret (success_count + 1, error_count))
                  any_Exception
                  (fun _ => ret (success_count, error_count + 1)) ;;
      process_items source_id adapter_name rest (fst counts) (snd counts)
  end.

Definition scrape_target (target_id : pystr) (force : bool) (region : pystr)
  : M pydict :=
  target <- get_target_config target_id region ;;
  let target_name := cfg_name target in
  let target_slug := cfg_slug target in
  let category := cfg_category target in
  let metadata := target_metadata target in
  let source_url := cfg_url target in
  let adapter_name := target_source target in
  (* not force and source_exists(target_name) *)
  already <- (if force then ret false else source_exists target_name) ;;
  if already then
    existing_id <- get_source_id target_name ;;
    existing_count <- get_item_count existing_id ;;
    ret [ (py "status", VStr (py "skipped"));
          (py "target", VStr target_name);
          (py "items", VInt existing_count) ]
  else
    resolved <- try_except
                  (adapter <- call (Call_get_adapter adapter_name)
                                (get_adapter registry adapter_name) ;;
                   ret (inl adapter))
                  is_ValueError
                  (fun e => ret (inr [ (py "status", VStr (py "error"));
                                       (py "target", VStr target_name);
                                       (py "error", VStr (exn_msg e)) ])) ;;
    match resolved with
    | inr error_result => ret error_result
    | inl adapter =>
        valid <- call (Call_validate_url (SOURCE_NAME adapter) source_url)
                   (Ok (validate_url adapter source_url)) ;;
        if negb valid then
          ret [ (py "status", VStr (py "error"));
                (py "target", VStr target_name);
                (py "error", VStr (py "URL validation failed")) ]
        else
          items <- call (Call_extract_items (SOURCE_NAME adapter) source_url)
                     (extract_items adapter source_url target) ;;
          match items with
          | [] =>
              ret [ (py "status", VStr (py "empty"));
                    (py "target", VStr target_name);
                    (py "items", VInt 0) ]
          | _ :: _ =>
              source_id <- insert_source target_name target_slug category
                             metadata source_url adapter_name ;;
              counts <- process_items source_id adapter_name items 0 0 ;;
              ret [ (py "status", VStr (py "success"));
                    (py "target", VStr target_name);
                    (py "items", VInt (fst counts));
                    (py "errors", VInt (snd counts));
                    (py "adapter", VStr adapter_name) ]
          end
    end.

(** The number of items of a run whose [try] body raises, from the world
    the loop starts in. *)
Fixpoint item_failures (source_id : Uuid) (adapter_name : pystr)
    (items : list RawItem) (w : World) : nat :=
  match items with
  | [] => 0%nat
  | item :: rest =>
      match process_item source_id adapter_name item w with
      | (Ok _, w') => item_failures source_id adapter_name rest w'
      | (Raise _, w') => S (item_failures source_id adapter_name rest w')
      end
  end.

End Main.

(** ** main.py: [list_targets] and [main] *)

(** [d[key]] and [d.get(key, default)] on a result dict. *)
Definition dict_lookup (key : pystr) (d : pydict) : option pyval :=
  option_map snd (find (fun kv => str_eqb (fst kv) key) d).

Definition dict_get (key : pystr) (default : pyval) (d : pydict) : pyval :=
  match dict_lookup key d with
  | Some v => v
  | None => default
  end.

(** A value in an f-string. *)
Definition format_value (v : pyval) : pystr :=
  match v with
  | VStr s => s
  | VInt n => str_of_int n
  end.

Definition pyval_eqb (a b : pyval) : bool :=
  match a, b with
  | VStr s, VStr t => str_eqb s t
  | VInt n, VInt m => n =? m
  | _, _ => false
  end.

(** One line of the listing:
    [f"  {enabled} {target['id']:<25} [{adapter}] {target['name']}"] *)
Definition target_line (target : TargetConfig) : pystr :=
  let adapter := target_source target in
  let enabled := match cfg_enabled target with
                 | Some false => py "-"
                 | _ => py "+"
                 end in
  py "  " ++ enabled ++ py " " ++ ljust 25 (cfg_id target)
  ++ py " [" ++ adapter ++ py "] " ++ cfg_name target.

Section Entry.

Variable lower : pystr -> pystr.
Variable lz4_frame_compress : bytes -> bytes.
Variable registry : list (pystr * BaseAdapter).

(** [list_targets] returns nothing; the value here is what it prints, one
    string for each [print]. *)
Definition list_targets (region : pystr) : M (list pystr) :=
  config <- load_config region ;;
  ret ([ [10] ++ region_name config ++ py " Targets ("
         ++ str_of_int (Z.of_nat (length (targets config))) ++ py " total):" ++ [10] ]
       ++ map target_line (targets config)
       ++ [ [10] ++ py "Available adapters: " ++ join (py ", ") (map fst registry) ]).

(** The parsed command line. *)
Record Namespace := mkNamespace {
  args_target : option pystr;
  args_force : bool;
  args_verbose : bool;
  args_list : bool;
  args_region : pystr
}.

(** How a call of [main] ends. [sys.exit] raises [SystemExit], which is no
    [Exception] and passes the [except Exception] of [main]. *)
Inductive Outcome :=
| Returns
| SystemExit (code : Z)
| Uncaught (e : exn).

(** The exit status of [python main.py]. *)
Definition exit_status (o : Outcome) : Z :=
  match o with
  | Returns => 0
  | SystemExit code => code
  | Uncaught _ => 1
  end.

(** [parser.print_help()], and the statements that make the logs directory
    and attach the log file of the run, which touch the file system only. *)
Variable print_help : pystr.
Variable add_file_handler : pystr -> result unit.

(** [print(f"::error::Scraper failed for {args.target}: {e}")] *)
Definition error_line (target message : pystr) : pystr :=
  py "::error::Scraper failed for " ++ target ++ py ": " ++ message.

(** The body of the [try] of [main] once [scrape_target] has returned:
    what is printed and how it ends; a key that is missing is a [KeyError],
    which the [except Exception] catches. *)
Definition report (target : pystr) (result : pydict) : Outcome * list pystr :=
  match dict_lookup (py "target") result with
  | None => (SystemExit 1, [error_line target (repr_str (py "target"))])
  | Some name =>
      let notice :=
        [10] ++ py "::notice::Scraped " ++ format_value name ++ py ": "
        ++ format_value (dict_get (py "items") (VInt 0) result) ++ py " items ["
        ++ format_value (dict_get (py "adapter") (VStr (py "unknown")) result)
        ++ py "]" in
      match dict_lookup (py "status") result with
      | None => (SystemExit 1, [notice; error_line target (repr_str (py "status"))])
      | Some status =>
          if pyval_eqb status (VStr (py "success")) then (SystemExit 0, [notice])
          else if pyval_eqb status (VStr (py "skipped")) then (SystemExit 0, [notice])
          else (SystemExit 1, [notice])
      end
  end.

(** [main], from the parsed arguments on: how it ends and what it prints. *)
Definition main (args : Namespace) : World -> (Outcome * list pystr) * World :=
  fun w =>
    if args_list args then
      match list_targets (args_region args) w with
      | (Ok printed, w') => ((Returns, printed), w')
      | (Raise e, w') => ((Uncaught e, []), w')
      end
    else
      match args_target args with
      | None | Some [] =>
          ((SystemExit 1,
            [ print_help;
              [10]
              ++ py "Error: Target ID required (or use --list to see available targets)" ]),
           w)
      | Some target =>
          match add_file_handler target with
          | Raise e => ((Uncaught e, []), w)
          | Ok _ =>
              match scrape_target lower lz4_frame_compress registry target
                      (args_force args) (args_region args) w with
              | (Ok result, w') => (report target result, w')
              | (Raise e, w') => ((SystemExit 1, [error_line target (exn_msg e)]), w')
              end
          end
      end.

End Entry.

(** ** Vocabulary of the statements *)

Definition is_bytes (bs : bytes) : Prop := Forall (fun b => 0 <= b < 256) bs.

Definition is_ascii (s : list Z) : Prop := Forall (fun c => 0 <= c < 128) s.

(** A Unicode scalar value: a code point that is no surrogate. Text is a
    string of scalar values. *)
Definition scalar_value (c : Z) : Prop :=
  0 <= c < 0x110000 /\ is_surrogate c = false.

Definition well_formed_text (s : pystr) : Prop := Forall scalar_value s.

(** [len(matches)] for one category. *)
Definition match_count (combined : pystr) (keywords : list pystr) : nat :=
  length (keyword_matches combined keywords).

(** The next connection is opened and its statement runs. *)
Definition db_available (w : World) : Prop :=
  (exists c url, w_DATABASE_URL w = Some (c :: url))
  /\ env_fault (w_db_env w (w_db_calls w)) = None.

(** The next [n] connections are opened and their statements run. *)
Definition db_available_for (n : nat) (w : World) : Prop :=
  (exists c url, w_DATABASE_URL w = Some (c :: url))
  /\ forall i, (i < n)%nat -> env_fault (w_db_env w (w_db_calls w + i)) = None.

(** The calls [scrape_target] makes on the adapter of a target, in order. *)
Definition adapter_calls (adapter_name : pystr) (adapter : BaseAdapter) (url : pystr)
  : list Event :=
  [ Call_get_adapter adapter_name;
    Call_validate_url (SOURCE_NAME adapter) url;
    Call_extract_items (SOURCE_NAME adapter) url ].

Definition log_all (evs : list Event) (w : World) : World :=
  fold_left (fun w ev => log ev w) evs w.

(** The outcome of [not force and source_exists(name)] is [False] in [w],
    leaving the world [w']. *)
Definition not_skipped (force : bool) (name : pystr) (w w' : World) : Prop :=
  (if force then ret false else source_exists name) w = (Ok false, w').

(** [compress_text] returns on the text of the item. *)
Definition text_encodes (lz4_frame_compress : bytes -> bytes) (item : RawItem) : bool :=
  match compress_text lz4_frame_compress (raw_text item) with
  | Ok _ => true
  | Raise _ => false
  end.

(** Both unique constraints of the schema. *)
Definition constraints_hold (db : Database) : Prop :=
  Source_name_unique db /\ Item_key_unique db.

(** A computation that keeps a property of the tables, however it ends. *)
Definition preserves {A} (P : Database -> Prop) (m : M A) : Prop :=
  forall w, P (w_db w) -> P (w_db (snd (m w))).

Definition is_read (ev : Event) : bool :=
  match ev with
  | Call_source_exists _ | Call_get_source_id _ | Call_get_item_count _ => true
  | _ => false
  end.

Definition is_insert_item (ev : Event) : bool :=
  match ev with
  | Call_insert_item _ _ => true
  | _ => false
  end.

(** The calls of [insert_item] the item loop makes: one for each item whose
    text encodes, in the order of the items. *)
Definition insert_item_calls (lz4_frame_compress : bytes -> bytes) (source_id : Uuid)
    (items : list RawItem) : list Event :=
  map (fun item => Call_insert_item source_id (raw_number item))
      (filter (text_encodes lz4_frame_compress) items).

(** The configuration files of [w'] are those of [w]. *)
Definition same_files (w w' : World) : Prop :=
  w_config w' = w_config w /\ w_main_dir w' = w_main_dir w.

(** A character of the base64 alphabet, or the padding sign. *)
Definition is_base64_char (c : Z) : bool :=
  match b64_index c with
  | Some _ => true
  | None => c =? b64_pad
  end.

(** A target with its [enabled] entry replaced. *)
Definition with_enabled (enabled : option bool) (target : TargetConfig) : TargetConfig :=
  {| cfg_id := cfg_id target;
     cfg_name := cfg_name target;
     cfg_slug := cfg_slug target;
     cfg_category := cfg_category target;
     cfg_metadata := cfg_metadata target;
     cfg_url := cfg_url target;
     cfg_source := cfg_source target;
     cfg_enabled := enabled |}.

(** Two worlds with the same tables, the same store server and the same
    calls recorded: they differ in their configuration files at most. *)
Definition same_state (w w2 : World) : Prop :=
  w_db w2 = w_db w /\ w_DATABASE_URL w2 = w_DATABASE_URL w
  /\ w_db_env w2 = w_db_env w /\ w_db_calls w2 = w_db_calls w
  /\ w_trace w2 = w_trace w.

(** Two computations that go the same way from worlds in the same state,
    up to the relation [Q] on what they return. *)
Definition alike {A} (Q : A -> A -> Prop) (m m2 : M A) : Prop :=
  forall w w2,
    same_state w w2 ->
    match m w, m2 w2 with
    | (Ok a, w'), (Ok a2, w2') => Q a a2 /\ same_state w' w2'
    | (Raise e, w'), (Raise e2, w2') => e = e2 /\ same_state w' w2'
    | _, _ => False
    end.

(** The results of [scrape_target] for a target: the four dicts it builds. *)
Definition returned_result (registry : list (pystr * BaseAdapter)) (force : bool)
    (target : TargetConfig) (result : pydict) : Prop :=
  (exists count,
      force = false
      /\ result = [ (py "status", VStr (py "skipped"));
                    (py "target", VStr (cfg_name target));
                    (py "items", VInt count) ])
  \/ (exists message,
        result = [ (py "status", VStr (py "error"));
                   (py "target", VStr (cfg_name target));
                   (py "error", VStr message) ])
  \/ result = [ (py "status", VStr (py "empty"));
                (py "target", VStr (cfg_name target));
                (py "items", VInt 0) ]
  \/ (exists adapter items stored failed,
        get_adapter registry (target_source target) = Ok adapter
        /\ extract_items adapter (cfg_url target) target = Ok items
        /\ items <> []
        /\ 0 <= stored /\ 0 <= failed
        /\ stored + failed = Z.of_nat (length items)
        /\ result = [ (py "status", VStr (py "success"));
                      (py "target", VStr (cfg_name target));
                      (py "items", VInt stored);
                      (py "errors", VInt failed);
                      (py "adapter", VStr (target_source target)) ]).

(** The number of the item of the element at position [k], counted from 0. *)
Definition item_number (k : nat) : pystr := py "ITEM-" ++ str_of_int (Z.of_nat k + 1).

(** ** Instances for the examples *)

(** A frame codec that meets the contract of the LZ4 one: the magic number
    of an LZ4 frame, then the data as they are. *)
Definition lz4_magic : bytes := [0x04; 0x22; 0x4D; 0x18].

Definition stored_frame_compress (data : bytes) : bytes := lz4_magic ++ data.

Definition stored_frame_decompress (frame : bytes) : result bytes :=
  if startswith frame lz4_magic then Ok (skipn 4 frame)
  else Raise (Exn RuntimeError (py "LZ4F_decompress failed")).

(** A configuration with two targets, a store that is up, and the store's
    answers: the [n]-th connection reads the clock and draws its UUID from
    [n], and meets the fault [faults n] if any. *)
Definition example_target : TargetConfig :=
  {| cfg_id := py "target-a";
     cfg_name := py "Target A";
     cfg_slug := py "target-a";
     cfg_category := py "docs";
     cfg_metadata := None;
     cfg_url := py "https://example.com/a";
     cfg_source := None;
     cfg_enabled := None |}.

(** A target whose adapter is not registered. *)
Definition mysite_target : TargetConfig :=
  {| cfg_id := py "target-b";
     cfg_name := py "Target B";
     cfg_slug := py "target-b";
     cfg_category := py "news";
     cfg_metadata := Some (JObj [(py "lang", JStr (py "en"))]);
     cfg_url := py "https://mysite.test/b";
     cfg_source := Some (py "mysite");
     cfg_enabled := Some true |}.

Definition example_config : ConfigFile :=
  {| region_name := py "Example"; targets := [example_target; mysite_target] |}.

Definition example_env (faults : nat -> option db_fault) (n : nat) : DbEnv :=
  {| env_fault := faults n;
     env_now := Z.of_nat n + 1700000000;
     env_uuid := Z.of_nat n + 1000 |}.

Definition no_fault (n : nat) : option db_fault := None.

Definition fault_at (k : nat) (n : nat) : option db_fault :=
  if Nat.eqb n k then Some (ExecuteFails (py "server closed the connection"))
  else None.

Definition example_world (db : Database) (faults : nat -> option db_fault) : World :=
  {| w_db := db;
     w_DATABASE_URL := Some (py "postgresql://localhost/scraper");
     w_db_env := example_env faults;
     w_db_calls := 0;
     w_main_dir := py "/app";
     w_config := fun region =>
                   if str_eqb region (py "example") then Some example_config else None;
     w_trace := [] |}.

Definition empty_db : Database := {| Source := []; Item := [] |}.

(** A store that holds "Target A" and five of its items. *)
Definition stored_source : SourceRow :=
  {| Source_id := 1;
     Source_createdAt := 1600000000;
     Source_updatedAt := 1600000000;
     Source_name := py "Target A";
     Source_slug := py "target-a";
     Source_category := py "docs";
     Source_metadata := JObj [];
     Source_sourceUrl := py "https://example.com/a";
     Source_adapter := py "example";
     Source_lastScraped := 1600000000 |}.

Definition stored_item (n : Z) : ItemRow :=
  {| Item_id := 100 + n;
     Item_sourceId := 1;
     Item_number := py "ITEM-" ++ [48 + n];
     Item_title := py "Old title";
     Item_category := py "general";
     Item_summary := py "Old summary";
     Item_tags := [];
     Item_fullText := [];
     Item_sourceUrl := py "https://example.com/a/old";
     Item_metadata := JObj [(py "adapter", JStr (py "example"))];
     Item_scrapedAt := 1600000000 |}.

Definition stored_db : Database :=
  {| Source := [stored_source]; Item := map stored_item [1; 2; 3; 4; 5] |}.

(** What an adapter finds: ten numbered items with one text for all. *)
Definition example_item (text : pystr) (number : string) : RawItem :=
  {| raw_number := py "ITEM-" ++ py number;
     raw_title := py "Release notes";
     raw_text := text;
     raw_url := py "https://example.com/a/" ++ py number |}.

Definition ten_items : list RawItem :=
  map (example_item (py "The guide to this release."))
      ["1"; "2"; "3"; "4"; "5"; "6"; "7"; "8"; "9"; "10"]%string.

Definition browser_down : exn := Exn RuntimeError (py "BrowserType.launch failed").

(** A world with other configuration files, and one without
    [DATABASE_URL]. *)
Definition with_config (config : pystr -> option ConfigFile) (w : World) : World :=
  {| w_db := w_db w; w_DATABASE_URL := w_DATABASE_URL w; w_db_env := w_db_env w;
     w_db_calls := w_db_calls w; w_main_dir := w_main_dir w;
     w_config := config; w_trace := w_trace w |}.

Definition without_DATABASE_URL (w : World) : World :=
  {| w_db := w_db w; w_DATABASE_URL := None; w_db_env := w_db_env w;
     w_db_calls := w_db_calls w; w_main_dir := w_main_dir w;
     w_config := w_config w; w_trace := w_trace w |}.

(** The one region of the examples, with another configuration file. *)
Definition example_region (config : ConfigFile) (region : pystr) : option ConfigFile :=
  if str_eqb region (py "example") then Some config else None.

(** A target of the example adapter on a site the adapter does not accept,
    and a second target with the id of "Target A". *)
Definition other_site_target : TargetConfig :=
  {| cfg_id := py "target-c";
     cfg_name := py "Target C";
     cfg_slug := py "target-c";
     cfg_category := py "news";
     cfg_metadata := None;
     cfg_url := py "https://other.test/c";
     cfg_source := Some (py "example");
     cfg_enabled := None |}.

Definition shadowed_target : TargetConfig :=
  {| cfg_id := py "target-a";
     cfg_name := py "Target A, again";
     cfg_slug := py "target-a-2";
     cfg_category := py "docs";
     cfg_metadata := None;
     cfg_url := py "https://example.com/a2";
     cfg_source := None;
     cfg_enabled := None |}.

Definition wider_config : ConfigFile :=
  {| region_name := py "Example";
     targets := [mysite_target; example_target; other_site_target; shadowed_target] |}.

(** The example configuration with "Target A" disabled. *)
Definition disabled_config : ConfigFile :=
  {| region_name := py "Example";
     targets := [with_enabled (Some false) example_target; mysite_target] |}.

(** The store failing every statement from the [k]-th connection on. *)
Definition fault_from (k : nat) (n : nat) : option db_fault :=
  if Nat.leb k n then Some (ExecuteFails (py "server closed the connection"))
  else None.

(** Three items, the second with a text that does not encode. *)
Definition three_items : list RawItem :=
  [ example_item (py "The guide to this release.") "1";
    example_item [0xD800] "2";
    example_item (py "Pricing of the new plan.") "3" ].

(** Elements of a page: texts of 60 and of 20 characters, with a link that
    is absolute, relative, without [href], or missing. *)
Definition example_element (title : option string) (text_length : nat)
    (link : option (option string)) : Element :=
  {| title_el := Ok (option_map py title);
     content_el := Ok (Some (py "  " ++ repeat 97 text_length ++ [10]));
     link_el := Ok (option_map (option_map py) link) |}.

Definition example_elements : list Element :=
  [ example_element (Some " First ") 60 (Some (Some "https://example.com/a/first"));
    example_element (Some "Short") 20 (Some (Some "/a/short"));
    example_element (Some "No href") 60 (Some None);
    example_element None 60 (Some (Some "//a/fourth"));
    {| title_el := Raise (Exn RuntimeError (py "Element is not attached to the DOM"));
         content_el := Ok None;
       link_el := Ok None |};
    example_element (Some "Sixth") 60 None ]%string.

(** A browser that starts and closes, and gives one page for every URL. *)
Definition example_browser (page : Page) : Browser :=
  {| browser_launch := Ok tt; page_goto := fun _ => page; browser_close := Ok tt |}.

Definition page_timeout : exn := Exn RuntimeError (py "Timeout 60000ms exceeded.").

(** A command line for "Target A". *)
Definition example_args (force list : bool) : Namespace :=
  {| args_target := Some (py "target-a");
     args_force := force;
     args_verbose := false;
     args_list := list;
     args_region := py "example" |}.

(** ** Proof automation *)

(** Case analysis on an integer test of the goal: [test_on cmp spec] finds an
    application of the comparison [cmp] and splits on it by its
    specification [spec]. *)
Ltac test_on cmp spec :=
  match goal with
  | |- context [cmp ?x ?y] => destruct (spec x y)
  end.

Ltac split_test :=
  first [ test_on Z.leb Z.leb_spec
        | test_on Z.ltb Z.ltb_spec
        | test_on Z.eqb Z.eqb_spec ].

(** Settle every integer test of the goal, closing the impossible cases by
    linear arithmetic. *)
Ltac settle_tests :=
  repeat (split_test; cbv beta iota delta [andb orb negb]; try (exfalso; lia)).

(** Linear arithmetic with division and remainder by constants. *)
Ltac arith := Z.div_mod_to_equations; lia.

(** The fields of a world that a computation step reads or writes. *)
Ltac world_fields :=
  cbn [w_DATABASE_URL log w_db_env w_db_calls w_db set_db_calls].

(* ================================================================== *)
(** * Part II: properties                                             *)
(* ================================================================== *)

(** ** The codecs: UTF-8 and base64 round trips *)

(** One step of the decoder, without unfolding the rest of the input. *)
Lemma bytes_decode_eq bs :
  bytes_decode bs =
  match bs with
  | [] => Ok []
  | b0 :: r0 =>
      if (0 <=? b0) && (b0 <? 0x80) then
        rest <~ bytes_decode r0 ;; Ok (b0 :: rest)
      else if (0xC2 <=? b0) && (b0 <=? 0xDF) then
        match r0 with
        | b1 :: r1 =>
            if is_cont b1 then
              rest <~ bytes_decode r1 ;;
              Ok ((b0 - 0xC0) * 64 + (b1 - 0x80) :: rest)
            else Raise invalid_utf8
        | _ => Raise invalid_utf8
        end
      else if (0xE0 <=? b0) && (b0 <=? 0xEF) then
        match r0 with
        | b1 :: b2 :: r2 =>
            let c := (b0 - 0xE0) * 4096 + (b1 - 0x80) * 64 + (b2 - 0x80) in
            if is_cont b1 && is_cont b2 && (0x800 <=? c) && negb (is_surrogate c) then
              rest <~ bytes_decode r2 ;; Ok (c :: rest)
            else Raise invalid_utf8
        | _ => Raise invalid_utf8
        end
      else if (0xF0 <=? b0) && (b0 <=? 0xF4) then
        match r0 with
        | b1 :: b2 :: b3 :: r3 =>
            let c := (b0 - 0xF0) * 262144 + (b1 - 0x80) * 4096
                     + (b2 - 0x80) * 64 + (b3 - 0x80) in
            if is_cont b1 && is_cont b2 && is_cont b3
               && (0x10000 <=? c) && (c <? 0x110000) then
              rest <~ bytes_decode r3 ;; Ok (c :: rest)
            else Raise invalid_utf8
        | _ => Raise invalid_utf8
        end
      else Raise invalid_utf8
  end.
Proof. destruct bs; reflexivity. Qed.

(** The decoder on a well-formed sequence of one, two, three and four
    bytes. *)
Lemma decode_1 b0 r : 0 <= b0 < 0x80 ->
  bytes_decode (b0 :: r) = (rest <~ bytes_decode r ;; Ok (b0 :: rest)).
Proof.
  intros. rewrite bytes_decode_eq. settle_tests. reflexivity.
Qed.

Lemma decode_2 b0 b1 r : 0xC2 <= b0 <= 0xDF -> 0x80 <= b1 <= 0xBF ->
  bytes_decode (b0 :: b1 :: r) =
  (rest <~ bytes_decode r ;; Ok ((b0 - 0xC0) * 64 + (b1 - 0x80) :: rest)).
Proof.
  intros. rewrite bytes_decode_eq. unfold is_cont. settle_tests. reflexivity.
Qed.

Lemma decode_3 b0 b1 b2 r c :
  0xE0 <= b0 <= 0xEF -> 0x80 <= b1 <= 0xBF -> 0x80 <= b2 <= 0xBF ->
  c = (b0 - 0xE0) * 4096 + (b1 - 0x80) * 64 + (b2 - 0x80) ->
  0x800 <= c -> is_surrogate c = false ->
  bytes_decode (b0 :: b1 :: b2 :: r) = (rest <~ bytes_decode r ;; Ok (c :: rest)).
Proof.
  intros ? ? ? Hc ? Hs. rewrite bytes_decode_eq. cbv zeta. rewrite <- Hc, Hs.
  unfold is_cont. settle_tests. reflexivity.
Qed.

Lemma decode_4 b0 b1 b2 b3 r c :
  0xF0 <= b0 <= 0xF4 -> 0x80 <= b1 <= 0xBF -> 0x80 <= b2 <= 0xBF -> 0x80 <= b3 <= 0xBF ->
  c = (b0 - 0xF0) * 262144 + (b1 - 0x80) * 4096 + (b2 - 0x80) * 64 + (b3 - 0x80) ->
  0x10000 <= c < 0x110000 ->
  bytes_decode (b0 :: b1 :: b2 :: b3 :: r) = (rest <~ bytes_decode r ;; Ok (c :: rest)).
Proof.
  intros ? ? ? ? Hc ?. rewrite bytes_decode_eq. cbv zeta. rewrite <- Hc.
  unfold is_cont. settle_tests. reflexivity.
Qed.

Lemma Some_eq {A} (x y : A) : Some x = Some y -> x = y.
Proof. congruence. Qed.

(** Decoding what one code point encodes to gives the code point back. *)
Lemma utf8_char_roundtrip c bs rest :
  utf8_encode_char c = Some bs ->
  bytes_decode (bs ++ rest) = (r <~ bytes_decode rest ;; Ok (c :: r)).
Proof.
  unfold utf8_encode_char.
  destruct (Z.ltb_spec c 0); [discriminate|].
  destruct (Z.ltb_spec c 0x80).
  { intros E; apply Some_eq in E; subst bs. apply decode_1. lia. }
  destruct (Z.ltb_spec c 0x800).
  { intros E; apply Some_eq in E; subst bs. cbn [app]. rewrite decode_2 by arith.
    replace ((0xC0 + c / 64 - 0xC0) * 64 + (0x80 + c mod 64 - 0x80)) with c by arith.
    reflexivity. }
  destruct (Z.ltb_spec c 0x10000).
  { destruct (is_surrogate c) eqn:Hs; [discriminate|].
    intros E; apply Some_eq in E; subst bs. cbn [app]. apply decode_3; try assumption; arith. }
  destruct (Z.ltb_spec c 0x110000); [|discriminate].
  intros E; apply Some_eq in E; subst bs. cbn [app]. apply decode_4; arith.
Qed.

(** A scalar value encodes, to one byte at least and to bytes only. *)
Lemma utf8_encode_char_valid c :
  scalar_value c -> exists bs, utf8_encode_char c = Some bs /\ is_bytes bs /\ bs <> [].
Proof.
  intros [Hr Hs]. unfold utf8_encode_char. rewrite Hs.
  repeat (split_test; try (exfalso; lia)); eexists; (split; [reflexivity|]); (split; [|discriminate]);
    repeat constructor; arith.
Qed.

(** [bytes.decode] undoes [str.encode] on text. *)
Lemma str_encode_decode s :
  well_formed_text s ->
  exists bs, str_encode s = Ok bs /\ is_bytes bs /\ bytes_decode bs = Ok s
             /\ (s <> [] -> bs <> []).
Proof.
  induction 1 as [|c s Hc Hs IH].
  - exists []. repeat split; try constructor. congruence.
  - destruct IH as (bs & He & Hb & Hd & _).
    destruct (utf8_encode_char_valid c Hc) as (cb & Hcb & Hcv & Hne).
    exists (cb ++ bs). cbn [str_encode]. rewrite Hcb, He. cbn [bindR].
    repeat split.
    + apply Forall_app. split; assumption.
    + rewrite (utf8_char_roundtrip _ _ _ Hcb), Hd. reflexivity.
    + intros _ E. apply app_eq_nil in E. tauto.
Qed.

(** Only scalar values encode: surrogates and values out of range raise. *)
Lemma utf8_encode_char_scalar c bs :
  utf8_encode_char c = Some bs -> scalar_value c.
Proof.
  unfold utf8_encode_char, scalar_value.
  destruct (Z.ltb_spec c 0); [discriminate|].
  destruct (is_surrogate c) eqn:Hs.
  - unfold is_surrogate in Hs. apply andb_true_iff in Hs. destruct Hs as [H1 H2].
    apply Z.leb_le in H1. apply Z.leb_le in H2.
    repeat (split_test; try lia); discriminate.
  - destruct (Z.ltb_spec c 0x110000); [intros _; split; [lia | reflexivity]|].
    repeat (split_test; try lia); discriminate.
Qed.

Lemma str_encode_scalar s bs : str_encode s = Ok bs -> well_formed_text s.
Proof.
  revert bs. induction s as [|c s IH]; intros bs; [constructor|].
  cbn [str_encode].
  destruct (utf8_encode_char c) as [cb|] eqn:Hc; [|discriminate].
  destruct (str_encode s) as [rest|e]; [|discriminate].
  intros _. constructor; [exact (utf8_encode_char_scalar _ _ Hc) | exact (IH _ eq_refl)].
Qed.

(** On ASCII both directions of UTF-8 are the identity. *)
Lemma ascii_encode s : is_ascii s -> str_encode s = Ok s.
Proof.
  induction 1 as [|c s Hc Hs IH]; [reflexivity|].
  cbn [str_encode]. unfold utf8_encode_char.
  repeat (split_test; try (exfalso; lia)). rewrite IH. reflexivity.
Qed.

Lemma ascii_decode s : is_ascii s -> bytes_decode s = Ok s.
Proof.
  induction 1 as [|c s Hc Hs IH]; [reflexivity|].
  rewrite decode_1 by lia. rewrite IH. reflexivity.
Qed.

(** Induction on a byte string three bytes at a time, as base64 reads it. *)
Lemma list_ind3 {A} (P : list A -> Prop) :
  P [] -> (forall a, P [a]) -> (forall a b, P [a; b]) ->
  (forall a b c l, P l -> P (a :: b :: c :: l)) ->
  forall l, P l.
Proof.
  intros H0 H1 H2 H3.
  fix IH 1. intros [|a [|b [|c l]]].
  - exact H0.
  - apply H1.
  - apply H2.
  - apply H3, IH.
Qed.

(** The base64 alphabet: ASCII, without the padding sign, and read back by
    [b64_index]. *)
Lemma b64_char_range n : 0 <= n < 64 -> 0 <= b64_char n < 128 /\ b64_char n <> b64_pad.
Proof. intros. unfold b64_char, b64_pad. settle_tests; lia. Qed.

Lemma b64_index_char n : 0 <= n < 64 -> b64_index (b64_char n) = Some n.
Proof.
  intros. unfold b64_char. repeat split_test;
    unfold b64_index; settle_tests; f_equal; lia.
Qed.

(** One step of the scanning loop. *)
Lemma a2b_base64_eq chars quad_pos leftchar pads :
  a2b_base64 chars quad_pos leftchar pads =
  match chars with
  | [] =>
      match quad_pos with
      | O => Ok []
      | _ => Raise incorrect_padding
      end
  | ch :: rest =>
      if ch =? b64_pad then
        if Nat.leb 2 quad_pos then
          if Nat.leb 4 (quad_pos + S pads) then Ok []
          else a2b_base64 rest quad_pos leftchar (S pads)
        else a2b_base64 rest quad_pos leftchar pads
      else
        match b64_index ch with
        | None => a2b_base64 rest quad_pos leftchar pads
        | Some v =>
            match quad_pos with
            | 0%nat => a2b_base64 rest 1 v 0
            | 1%nat =>
                out <~ a2b_base64 rest 2 (v mod 16) 0 ;;
                Ok (leftchar * 4 + v / 16 :: out)
            | 2%nat =>
                out <~ a2b_base64 rest 3 (v mod 4) 0 ;;
                Ok (leftchar * 16 + v / 4 :: out)
            | _ =>
                out <~ a2b_base64 rest 0 0 0 ;;
                Ok (leftchar * 64 + v :: out)
            end
        end
  end.
Proof. destruct chars; reflexivity. Qed.

(** The loop on a character of the alphabet, and on the padding sign. *)
Lemma a2b_data n rest quad_pos leftchar pads :
  0 <= n < 64 ->
  a2b_base64 (b64_char n :: rest) quad_pos leftchar pads =
  match quad_pos with
  | 0%nat => a2b_base64 rest 1 n 0
  | 1%nat => out <~ a2b_base64 rest 2 (n mod 16) 0 ;; Ok (leftchar * 4 + n / 16 :: out)
  | 2%nat => out <~ a2b_base64 rest 3 (n mod 4) 0 ;; Ok (leftchar * 16 + n / 4 :: out)
  | _ => out <~ a2b_base64 rest 0 0 0 ;; Ok (leftchar * 64 + n :: out)
  end.
Proof.
  intros Hn. rewrite a2b_base64_eq.
  destruct (b64_char_range n Hn) as [_ Hp].
  destruct (Z.eqb_spec (b64_char n) b64_pad); [contradiction|].
  rewrite (b64_index_char n Hn). reflexivity.
Qed.

Lemma a2b_pad rest quad_pos leftchar pads :
  a2b_base64 (b64_pad :: rest) quad_pos leftchar pads =
  if Nat.leb 2 quad_pos then
    if Nat.leb 4 (quad_pos + S pads) then Ok []
    else a2b_base64 rest quad_pos leftchar (S pads)
  else a2b_base64 rest quad_pos leftchar pads.
Proof. rewrite a2b_base64_eq. rewrite Z.eqb_refl. reflexivity. Qed.

Lemma b64encode_3 a b c rest :
  b64encode (a :: b :: c :: rest) =
  b64_char (a / 4) :: b64_char ((a mod 4) * 16 + b / 16)
  :: b64_char ((b mod 16) * 4 + c / 64) :: b64_char (c mod 64) :: b64encode rest.
Proof. reflexivity. Qed.

(** [b64decode] undoes [b64encode] on every byte string. *)
Lemma b64_roundtrip bs : is_bytes bs -> b64decode (b64encode bs) = Ok bs.
Proof.
  unfold b64decode, is_bytes.
  induction bs as [|a|a b|a b c l IH] using list_ind3; intros Hb.
  - reflexivity.
  - inversion Hb as [|? ? Ha _]; subst.
    cbn [b64encode]. rewrite !a2b_data by arith. cbv beta iota.
    rewrite !a2b_pad. cbn [Nat.leb Nat.add bindR].
    f_equal. f_equal. arith.
  - inversion Hb as [|? ? Ha Hb']; subst. inversion Hb' as [|? ? Hb2 _]; subst.
    cbn [b64encode]. rewrite !a2b_data by arith. cbv beta iota.
    rewrite !a2b_pad. cbn [Nat.leb Nat.add bindR].
    f_equal. f_equal; [arith|]. f_equal. arith.
  - inversion Hb as [|? ? Ha Hb']; subst. inversion Hb' as [|? ? Hb2 Hb'']; subst.
    inversion Hb'' as [|? ? Hc Hl]; subst.
    rewrite b64encode_3. rewrite !a2b_data by arith. cbv beta iota.
    rewrite (IH Hl). cbn [bindR].
    f_equal. f_equal; [arith|]. f_equal; [arith|]. f_equal. arith.
Qed.

(** The encoding is ASCII, and empty for the empty byte string only. *)
Lemma b64encode_ascii bs : is_bytes bs -> is_ascii (b64encode bs).
Proof.
  unfold is_bytes, is_ascii.
  induction bs as [|a|a b|a b c l IH] using list_ind3; intros Hb.
  - constructor.
  - inversion Hb; subst. cbn [b64encode].
    repeat constructor; try (apply b64_char_range; arith); unfold b64_pad; lia.
  - inversion Hb as [|? ? Ha Hb']; subst. inversion Hb'; subst. cbn [b64encode].
    repeat constructor; try (apply b64_char_range; arith); unfold b64_pad; lia.
  - inversion Hb as [|? ? Ha Hb']; subst. inversion Hb' as [|? ? Hb2 Hb'']; subst.
    inversion Hb''; subst.
    rewrite b64encode_3. repeat (apply Forall_cons; [apply b64_char_range; arith|]).
    auto.
Qed.

Lemma b64encode_nonempty bs : bs <> [] -> b64encode bs <> [].
Proof. destruct bs as [|a [|b [|c l]]]; cbn [b64encode]; congruence. Qed.

(** Known answers: UTF-8 of the euro sign, the strictness of the decoder,
    the test vectors of RFC 4648, and the decoder skipping a character that
    is not of the alphabet. *)
Example utf8_euro : str_encode [0x20AC] = Ok [0xE2; 0x82; 0xAC].
Proof. reflexivity. Qed.

Example utf8_overlong_rejected : bytes_decode [0xC0; 0x80] = Raise invalid_utf8.
Proof. reflexivity. Qed.

Example utf8_surrogate_rejected : bytes_decode [0xED; 0xA0; 0x80] = Raise invalid_utf8.
Proof. reflexivity. Qed.

Example b64encode_rfc4648 :
  map (fun s => b64encode (py s)) ["f"; "fo"; "foo"; "foob"; "fooba"; "foobar"]%string
  = map py ["Zg=="; "Zm8="; "Zm9v"; "Zm9vYg=="; "Zm9vYmE="; "Zm9vYmFy"]%string.
Proof. reflexivity. Qed.

Example b64decode_skips_newline :
  b64decode (py "Zm9v" ++ [10] ++ py "YmFy") = Ok (py "foobar").
Proof. reflexivity. Qed.

Example b64decode_incorrect_padding : b64decode (py "Zm9vYg") = Raise incorrect_padding.
Proof. reflexivity. Qed.

(** ** core/compress.py: the round trip *)

(** The stand-in frame codec meets the contract asked of LZ4 below. *)
Lemma stored_frame_bytes b : is_bytes b -> is_bytes (stored_frame_compress b).
Proof.
  intros Hb. unfold stored_frame_compress, lz4_magic, is_bytes.
  repeat (apply Forall_cons; [lia|]). exact Hb.
Qed.

Lemma stored_frame_nonempty b : stored_frame_compress b <> [].
Proof. discriminate. Qed.

Lemma stored_frame_roundtrip b :
  is_bytes b -> stored_frame_decompress (stored_frame_compress b) = Ok b.
Proof. reflexivity. Qed.

Section CompressRoundTrip.

Variable lz4_frame_compress : bytes -> bytes.
Variable lz4_frame_decompress : bytes -> result bytes.

(** The contract of the LZ4 frame codec: a frame is a byte string, it is
    never empty (it starts with the magic number), and decompressing it
    gives the data back. *)
Hypothesis lz4_frame_bytes :
  forall b, is_bytes b -> is_bytes (lz4_frame_compress b).
Hypothesis lz4_frame_nonempty :
  forall b, lz4_frame_compress b <> [].
Hypothesis lz4_frame_roundtrip :
  forall b, is_bytes b -> lz4_frame_decompress (lz4_frame_compress b) = Ok b.

(** On text, that is on strings of Unicode scalar values, [compress_text]
    returns and [decompress_text] undoes it. *)
Lemma compress_text_roundtrip_text x :
  well_formed_text x ->
  exists c, compress_text lz4_frame_compress x = Ok c
            /\ decompress_text lz4_frame_decompress c = Ok x.
Proof.
  destruct x as [|c0 x]; intros Hx.
  { exists []. split; reflexivity. }
  destruct (str_encode_decode (c0 :: x) Hx) as (raw & He & Hb & Hd & Hne).
  pose (frame := lz4_frame_compress raw).
  assert (Hf : is_bytes frame) by (apply lz4_frame_bytes; exact Hb).
  assert (Ha : is_ascii (b64encode frame)) by (apply b64encode_ascii; exact Hf).
  exists (b64encode frame). split.
  - unfold compress_text. rewrite He. cbn [bindR]. apply ascii_decode. exact Ha.
  - unfold decompress_text.
    destruct (b64encode frame) as [|z zs] eqn:E.
    { exfalso. apply (b64encode_nonempty frame); [apply lz4_frame_nonempty | exact E]. }
    rewrite (ascii_encode _ Ha). cbn [bindR].
    rewrite <- E, (b64_roundtrip _ Hf). cbn [bindR].
    unfold frame. rewrite (lz4_frame_roundtrip _ Hb). cbn [bindR].
    exact Hd.
Qed.

(** What [compress_text] returns on is text. *)
Lemma compress_text_returns_on_text x c :
  compress_text lz4_frame_compress x = Ok c -> well_formed_text x.
Proof.
  destruct x as [|c0 x]; [constructor|].
  unfold compress_text.
  destruct (str_encode (c0 :: x)) as [raw|e] eqn:He; [|discriminate].
  intros _. exact (str_encode_scalar _ _ He).
Qed.

(** C1. For every string [x], what [compress_text] returns for [x] is
    turned back into [x] by [decompress_text]; [compress_text] returns for
    every text [x], empty, ASCII or multi-byte (a text is a string of Unicode
    scalar values); on the empty string both functions return the empty
    string. *)
Theorem compress_text_roundtrip :
  (forall x c,
      compress_text lz4_frame_compress x = Ok c ->
      decompress_text lz4_frame_decompress c = Ok x)
  /\ (forall x,
        well_formed_text x ->
        exists c, compress_text lz4_frame_compress x = Ok c
                  /\ decompress_text lz4_frame_decompress c = Ok x)
  /\ compress_text lz4_frame_compress [] = Ok []
  /\ decompress_text lz4_frame_decompress [] = Ok [].
Proof.
  split; [|split; [exact compress_text_roundtrip_text | split; reflexivity]].
  intros x c Hc.
  destruct (compress_text_roundtrip_text x (compress_text_returns_on_text x c Hc))
    as (c' & Hc' & Hd).
  rewrite Hc in Hc'. injection Hc' as ->. exact Hd.
Qed.

End CompressRoundTrip.

Lemma compress_text_roundtrip_witness :
  exists c,
    compress_text stored_frame_compress [0x20AC; 0x1F600; 0xE9; 65] = Ok c
    /\ decompress_text stored_frame_decompress c = Ok [0x20AC; 0x1F600; 0xE9; 65].
Proof.
  apply (proj1 (proj2 (compress_text_roundtrip stored_frame_compress
                         stored_frame_decompress stored_frame_bytes
                         stored_frame_nonempty stored_frame_roundtrip))).
  repeat constructor; try lia.
Defined.

(** A lone surrogate is a code point a [str] can hold and UTF-8 cannot:
    [compress_text] raises on it. *)
Lemma compress_text_lone_surrogate lz4_frame_compress :
  compress_text lz4_frame_compress [0xD800]
  = Raise (Exn UnicodeEncodeError (py "surrogates not allowed")).
Proof. reflexivity. Qed.

(** ** core/categorize.py: the winner of the keyword count *)

Lemma str_eqb_eq a b : str_eqb a b = true <-> a = b.
Proof.
  revert b. induction a as [|x a IH]; intros [|y b]; cbn [str_eqb];
    try (split; [discriminate | congruence]); [tauto|].
  rewrite andb_true_iff, Z.eqb_eq, IH. split; [intros [-> ->] | intros [= -> ->]]; auto.
Qed.

Lemma str_eqb_refl a : str_eqb a a = true.
Proof. apply str_eqb_eq. reflexivity. Qed.

(** Two splits of a dict's entries at the same key are the same split. *)
Lemma split_at_key_unique {A B} (l1 m1 : list (A * B)) c k k' l2 m2 :
  NoDup (map fst (l1 ++ (c, k) :: l2)) ->
  l1 ++ (c, k) :: l2 = m1 ++ (c, k') :: m2 ->
  l1 = m1 /\ k = k' /\ l2 = m2.
Proof.
  revert m1. induction l1 as [|x l1 IH]; intros [|y m1] Hnd E; cbn [app] in *.
  - inversion E. auto.
  - inversion E; subst. exfalso. cbn [map fst] in Hnd. inversion Hnd as [|? ? Hin _]; subst.
    apply Hin. rewrite map_app. apply in_or_app. right. left. reflexivity.
  - inversion E; subst. exfalso. cbn [map fst] in Hnd. inversion Hnd as [|? ? Hin _]; subst.
    apply Hin. rewrite map_app. apply in_or_app. right. left. reflexivity.
  - inversion E; subst. cbn [map] in Hnd. inversion Hnd as [|? ? _ Hnd']; subst.
    destruct (IH m1 Hnd' H1) as (-> & -> & ->). auto.
Qed.

Section CategorizeLoop.

Variable combined : pystr.

(** Where the loop ends: either no entry beat the running maximum and the
    running best stands, or the winner is the first entry whose count
    exceeds the running maximum and every count before it, and that no
    later count exceeds. *)
Lemma categorize_loop_winner entries :
  forall tags best max,
    let b := fst (categorize_loop entries combined tags best max) in
    (b = best
     /\ forall c k, In (c, k) entries -> c <> py "general" -> (match_count combined k <= max)%nat)
    \/ (exists l1 c k l2,
           entries = l1 ++ (c, k) :: l2 /\ c <> py "general" /\ b = c
           /\ (max < match_count combined k)%nat
           /\ (forall c' k', In (c', k') l1 -> c' <> py "general" -> (match_count combined k' < match_count combined k)%nat)
           /\ (forall c' k', In (c', k') l2 -> c' <> py "general" -> (match_count combined k' <= match_count combined k)%nat)).
Proof.
  induction entries as [|[c k] rest IH]; intros tags best max; cbn zeta.
  { left. split; [reflexivity|]. intros ? ? []. }
  cbn [categorize_loop].
  assert (Hskip : forall tags',
    (match_count combined k <= max)%nat \/ c = py "general" ->
    let b := fst (categorize_loop rest combined tags' best max) in
    (b = best
     /\ forall c0 k0, In (c0, k0) ((c, k) :: rest) -> c0 <> py "general" -> (match_count combined k0 <= max)%nat)
    \/ (exists l1 c0 k0 l2,
           (c, k) :: rest = l1 ++ (c0, k0) :: l2 /\ c0 <> py "general" /\ b = c0
           /\ (max < match_count combined k0)%nat
           /\ (forall c' k', In (c', k') l1 -> c' <> py "general" -> (match_count combined k' < match_count combined k0)%nat)
           /\ (forall c' k', In (c', k') l2 -> c' <> py "general" -> (match_count combined k' <= match_count combined k0)%nat))).
  { intros tags' Hk. cbn zeta.
    destruct (IH tags' best max) as [[Hb Hall] | (l1 & c0 & k0 & l2 & E & Hc0 & Hb & Hlt & Hl1 & Hl2)].
    - left. split; [exact Hb|]. intros c1 k1 [[= <- <-] | Hin] Hg.
      + destruct Hk; [assumption | contradiction].
      + eauto.
    - right. exists ((c, k) :: l1), c0, k0, l2.
      split; [rewrite E; reflexivity|].
      repeat split; auto.
      intros c1 k1 [[= <- <-] | Hin] Hg; [|eauto].
      destruct Hk; [lia | contradiction]. }
  destruct (str_eqb c (py "general")) eqn:Eg.
  { apply str_eqb_eq in Eg. apply Hskip. right. exact Eg. }
  assert (Hc : c <> py "general")
    by (intros ->; rewrite str_eqb_refl in Eg; discriminate).
  destruct (keyword_matches combined k) as [|m ms] eqn:Em.
  { apply Hskip. left. unfold match_count. rewrite Em. cbn [length]. lia. }
  replace (length (m :: ms)) with (match_count combined k)
    by (unfold match_count; rewrite Em; reflexivity).
  destruct (Nat.ltb_spec max (match_count combined k)) as [Hlt | Hge].
  - destruct (IH (tags ++ firstn 3 (m :: ms)) c (match_count combined k))
      as [[Hb Hall] | (l1 & c0 & k0 & l2 & E & Hc0 & Hb & Hlt' & Hl1 & Hl2)].
    + right. exists [], c, k, rest. repeat split; auto. intros ? ? [].
    + right. exists ((c, k) :: l1), c0, k0, l2.
      split; [rewrite E; reflexivity|].
      repeat split; auto; [lia|].
      intros c1 k1 [[= <- <-] | Hin] Hg; [lia | eauto].
  - apply Hskip. left. exact Hge.
Qed.

End CategorizeLoop.

Section CategorizeTieBreak.

Variable lower : pystr -> pystr.
Variable table : list (pystr * list pystr).

(** The keys of a dict are distinct. *)
Hypothesis table_keys : NoDup (map fst table).

(** C5. Let [c1] be declared before [c2] in the category table, neither
    the default category, with equal and nonzero keyword counts in the
    combined search string. Then [categorize_content] does not return [c2];
    and when no category has a larger count and none before [c1] has an
    equal one, it returns [c1]. *)
Theorem categorize_tie_first_wins title text l1 c1 k1 l2 c2 k2 l3 :
  let combined := lower (title ++ py " " ++ firstn 2000 text) in
  table = l1 ++ (c1, k1) :: l2 ++ (c2, k2) :: l3 ->
  c1 <> py "general" -> c2 <> py "general" ->
  match_count combined k1 = match_count combined k2 ->
  (0 < match_count combined k1)%nat ->
  fst (categorize_with lower table title text) <> c2
  /\ ((forall c k, In (c, k) table -> c <> py "general" ->
         (match_count combined k <= match_count combined k1)%nat) ->
      (forall c k, In (c, k) l1 -> c <> py "general" ->
         (match_count combined k < match_count combined k1)%nat) ->
      fst (categorize_with lower table title text) = c1).
Proof.
  intros combined Et Hc1 Hc2 Heq Hpos.
  unfold categorize_with. fold combined.
  pose proof (categorize_loop_winner combined table [] (py "general") 0) as Hw.
  cbn zeta in Hw.
  destruct (categorize_loop table combined [] (py "general") 0) as [b tags].
  cbn [fst] in *.
  assert (Hin1 : In (c1, k1) table)
    by (rewrite Et; apply in_or_app; right; left; reflexivity).
  destruct Hw as [[_ Hall] | (m1 & c & k & m2 & E & Hc & Hb & Hlt & Hm1 & Hm2)].
  { specialize (Hall c1 k1 Hin1 Hc1). lia. }
  subst b.
  assert (Hnd : NoDup (map fst (m1 ++ (c, k) :: m2))) by (rewrite <- E; exact table_keys).
  split.
  - intros ->.
    assert (E2 : m1 ++ (c2, k) :: m2 = (l1 ++ (c1, k1) :: l2) ++ (c2, k2) :: l3)
      by (rewrite <- E, Et, <- app_assoc; reflexivity).
    destruct (split_at_key_unique _ _ _ _ _ _ _ Hnd E2) as (-> & -> & _).
    assert (In (c1, k1) (l1 ++ (c1, k1) :: l2)) as Hin
      by (apply in_or_app; right; left; reflexivity).
    specialize (Hm1 c1 k1 Hin Hc1). lia.
  - intros Hmax Hfirst.
    assert (Hk : (match_count combined k <= match_count combined k1)%nat).
    { apply (Hmax c k); [|exact Hc]. rewrite E. apply in_or_app. right. left. reflexivity. }
    rewrite E in Hin1. apply in_app_or in Hin1. destruct Hin1 as [Hin | [Hin | Hin]].
    + specialize (Hm1 c1 k1 Hin Hc1). lia.
    + congruence.
    + specialize (Hm2 c1 k1 Hin Hc1).
      apply in_split in Hin. destruct Hin as (p & q & ->).
      assert (E2 : l1 ++ (c1, k1) :: l2 ++ (c2, k2) :: l3
                   = (m1 ++ (c, k) :: p) ++ (c1, k1) :: q)
        by (rewrite <- Et, E, <- app_assoc; reflexivity).
      assert (Hnd1 : NoDup (map fst (l1 ++ (c1, k1) :: l2 ++ (c2, k2) :: l3)))
        by (rewrite <- Et; exact table_keys).
      destruct (split_at_key_unique _ _ _ _ _ _ _ Hnd1 E2) as (-> & _ & _).
      assert (In (c, k) (m1 ++ (c, k) :: p)) as Hin
        by (apply in_or_app; right; left; reflexivity).
      specialize (Hfirst c k Hin Hc). lia.
Qed.

End CategorizeTieBreak.

(** One run of the classifier: three keywords of "product" against one of
    "news". *)
Example categorize_example :
  categorize_content ascii_lower (py "Pricing Plan update") (py "New subscription plan.")
  = (py "product", [py "update"; py "pricing"; py "plan"; py "subscription"]).
Proof. vm_compute. reflexivity. Qed.

Lemma CATEGORY_KEYWORDS_keys : NoDup (map fst CATEGORY_KEYWORDS).
Proof.
  cbn [map fst CATEGORY_KEYWORDS].
  repeat (apply NoDup_cons;
          [ intros Hin; cbn [In] in Hin;
            repeat (destruct Hin as [Hin | Hin]; [discriminate Hin|]); exact Hin | ]).
  apply NoDup_nil.
Qed.

(** A title with one keyword of "documentation" and one of "news": the
    category declared first is returned. *)
Lemma categorize_tie_first_wins_witness :
  fst (categorize_content ascii_lower (py "News about the Docs") (py "nothing else"))
  = py "documentation".
Proof.
  refine (proj2 (categorize_tie_first_wins ascii_lower CATEGORY_KEYWORDS CATEGORY_KEYWORDS_keys
            (py "News about the Docs") (py "nothing else")
            [] (py "documentation") _ [] (py "news") _ _ eq_refl _ _ eq_refl _) _ _).
  - discriminate.
  - discriminate.
  - vm_compute. lia.
  - intros c k Hin _. cbn [CATEGORY_KEYWORDS In] in Hin.
    repeat (destruct Hin as [Hin | Hin];
            [apply (f_equal snd) in Hin; cbn [snd] in Hin; subst k; vm_compute; lia|]).
    destruct Hin.
  - intros c k [].
Defined.

(** ** core/db.py: the upserts *)

(** *** A table with a unique key, split at one of its rows *)

Section UniqueKey.

Context {A K : Type} (key : A -> K).

Lemma unique_key_split (l : list A) (r : A) :
  NoDup (map key l) -> In r l ->
  exists l1 l2,
    l = l1 ++ r :: l2
    /\ Forall (fun x => key x <> key r) l1
    /\ Forall (fun x => key x <> key r) l2.
Proof.
  intros Hnd Hin. apply in_split in Hin. destruct Hin as (l1 & l2 & ->).
  exists l1, l2. split; [reflexivity|].
  rewrite map_app in Hnd. cbn [map] in Hnd. apply NoDup_remove_2 in Hnd.
  split; apply Forall_forall; intros x Hx E; apply Hnd, in_or_app;
    [left | right]; rewrite <- E; apply in_map; exact Hx.
Qed.

Variable p : A -> bool.

Lemma find_split l1 r l2 :
  Forall (fun x => p x = false) l1 -> p r = true ->
  find p (l1 ++ r :: l2) = Some r.
Proof.
  induction 1 as [|x l1 Hx _ IH]; intros Hr; cbn [app find].
  - rewrite Hr. reflexivity.
  - rewrite Hx. auto.
Qed.

Lemma existsb_split l1 r l2 : p r = true -> existsb p (l1 ++ r :: l2) = true.
Proof.
  intros Hr. rewrite existsb_app. cbn [existsb]. rewrite Hr.
  apply orb_true_iff. right. reflexivity.
Qed.

Lemma map_unchanged (g : A -> A) l :
  Forall (fun x => p x = false) l -> map (fun x => if p x then g x else x) l = l.
Proof.
  induction 1 as [|x l Hx _ IH]; cbn [map]; [reflexivity|]. rewrite Hx, IH. reflexivity.
Qed.

Lemma map_split (g : A -> A) l1 r l2 :
  Forall (fun x => p x = false) l1 -> Forall (fun x => p x = false) l2 -> p r = true ->
  map (fun x => if p x then g x else x) (l1 ++ r :: l2) = l1 ++ g r :: l2.
Proof.
  intros H1 H2 Hr. rewrite map_app. cbn [map].
  rewrite (map_unchanged g l1 H1), (map_unchanged g l2 H2), Hr. reflexivity.
Qed.

Lemma filter_none l : Forall (fun x => p x = false) l -> filter p l = [].
Proof.
  induction 1 as [|x l Hx _ IH]; cbn [filter]; [reflexivity|]. rewrite Hx. exact IH.
Qed.

Lemma filter_split l1 r l2 :
  Forall (fun x => p x = false) l1 -> Forall (fun x => p x = false) l2 -> p r = true ->
  filter p (l1 ++ r :: l2) = [r].
Proof.
  intros H1 H2 Hr. rewrite filter_app. cbn [filter].
  rewrite (filter_none l1 H1), (filter_none l2 H2), Hr. reflexivity.
Qed.

Lemma find_none_forall l : find p l = None -> Forall (fun x => p x = false) l.
Proof.
  induction l as [|x l IH]; cbn [find]; [constructor|].
  destruct (p x) eqn:E; [discriminate|]. auto.
Qed.

Lemma existsb_false_forall l : existsb p l = false -> Forall (fun x => p x = false) l.
Proof.
  induction l as [|x l IH]; cbn [existsb]; [constructor|].
  intros H. apply orb_false_iff in H. destruct H. auto.
Qed.

End UniqueKey.

Lemma has_name_iff name r : has_name name r = true <-> Source_name r = name.
Proof. apply str_eqb_eq. Qed.

Lemma has_key_iff source_id number r :
  has_key source_id number r = true <-> Item_key r = (source_id, number).
Proof.
  unfold has_key, Item_key. rewrite andb_true_iff, Z.eqb_eq, str_eqb_eq.
  split; [intros [-> ->]; reflexivity | intros [= -> ->]; auto].
Qed.

Lemma other_keys_false {A K} (key : A -> K) (p : A -> bool) (k : K) l :
  (forall x, p x = true <-> key x = k) ->
  Forall (fun x => key x <> k) l -> Forall (fun x => p x = false) l.
Proof.
  intros Hp. apply Forall_impl. intros x Hx.
  destruct (p x) eqn:E; [|reflexivity]. apply Hp in E. contradiction.
Qed.

(** *** Running one statement *)

Lemma run_statement {A} (ev : Event) (stmt : DbEnv -> Database -> Database * A) w :
  db_available w ->
  (trace ev ;; conn <- get_db_connection ;; execute conn stmt) w
  = (Ok (snd (stmt (w_db_env w (w_db_calls w)) (w_db w))),
     set_db (fst (stmt (w_db_env w (w_db_calls w)) (w_db w)))
       (set_db_calls (S (w_db_calls w)) (log ev w))).
Proof.
  intros [(c & url & Hurl) Hf].
  unfold bind, trace, call, get_db_connection, execute.
  world_fields.
  rewrite Hurl, Hf. world_fields.
  rewrite ?Hf.
  destruct (stmt (w_db_env w (w_db_calls w)) (w_db w)). reflexivity.
Qed.

(** Whatever a call meets, it either commits its statement or leaves the
    tables as they were. *)
Lemma run_statement_tables {A} (ev : Event) (stmt : DbEnv -> Database -> Database * A) w :
  let '(r, w') := (trace ev ;; conn <- get_db_connection ;; execute conn stmt) w in
  match r with
  | Ok a => exists env, (w_db w', a) = stmt env (w_db w)
  | Raise _ => w_db w' = w_db w
  end.
Proof.
  unfold bind, trace, call, get_db_connection, execute.
  world_fields.
  destruct (w_DATABASE_URL w) as [[|c url]|]; try reflexivity.
  destruct (env_fault (w_db_env w (w_db_calls w))) as [[msg|msg]|] eqn:Ef;
    world_fields;
    rewrite ?Ef; try reflexivity.
  destruct (stmt (w_db_env w (w_db_calls w)) (w_db w)) eqn:Es.
  cbn [w_db set_db]. eexists. rewrite Es. reflexivity.
Qed.

(** *** [insert_source] *)

Lemma find_refreshed name now l :
  find (has_name name)
       (map (fun r => if has_name name r then refresh_source now r else r) l)
  = option_map (refresh_source now) (find (has_name name) l).
Proof.
  induction l as [|x l IH]; cbn [map find option_map]; [reflexivity|].
  destruct (has_name name x) eqn:E.
  - change (has_name name (refresh_source now x)) with (has_name name x).
    rewrite E. reflexivity.
  - rewrite E. exact IH.
Qed.

(** After the statement, the first row named [name] has the returned id. *)
Lemma upsert_source_select name slug category metadata source_url adapter env db db' id :
  upsert_source name slug category metadata source_url adapter env db = (db', id) ->
  select_source_id name db' = Some id.
Proof.
  unfold upsert_source, select_source_id.
  destruct (find (has_name name) (Source db)) as [r|] eqn:Ef; cbn [option_map].
  - intros [= <- <-]. cbn [Source]. rewrite find_refreshed, Ef. reflexivity.
  - intros [= <- <-]. cbn [Source].
    rewrite (find_split _ (Source db) _ []); [reflexivity | |].
    + apply find_none_forall. exact Ef.
    + apply str_eqb_refl.
Qed.

(** C4. In a store that holds a Source row [r] named [name], a further
    [insert_source] with that name returns the id of [r], which is the id the
    call that created or last refreshed the row returned; the table holds
    exactly one row of that name afterwards; the row differs from [r] in
    [lastScraped] and [updatedAt] only, whatever slug, category, metadata,
    URL and adapter the call passes; no other row changes. *)
Theorem insert_source_idempotent w name slug category metadata source_url adapter r :
  Source_name_unique (w_db w) ->
  In r (Source (w_db w)) -> Source_name r = name ->
  db_available w ->
  exists w' l1 l2 r',
    insert_source name slug category metadata source_url adapter w
    = (Ok (Source_id r), w')
    /\ Source (w_db w) = l1 ++ r :: l2
    /\ Source (w_db w') = l1 ++ r' :: l2
    /\ length (filter (has_name name) (Source (w_db w'))) = 1%nat
    /\ Source_id r' = Source_id r
    /\ Source_name r' = Source_name r
    /\ Source_createdAt r' = Source_createdAt r
    /\ Source_slug r' = Source_slug r
    /\ Source_category r' = Source_category r
    /\ Source_metadata r' = Source_metadata r
    /\ Source_sourceUrl r' = Source_sourceUrl r
    /\ Source_adapter r' = Source_adapter r
    /\ Source_lastScraped r' = env_now (w_db_env w (w_db_calls w))
    /\ Source_updatedAt r' = env_now (w_db_env w (w_db_calls w))
    /\ Item (w_db w') = Item (w_db w)
    /\ (forall w0 slug0 category0 metadata0 source_url0 adapter0 id0,
          insert_source name slug0 category0 metadata0 source_url0 adapter0 w0
          = (Ok id0, w) ->
          id0 = Source_id r).
Proof.
  intros Hu Hin Hname Hav.
  destruct (unique_key_split Source_name _ r Hu Hin) as (l1 & l2 & El & H1 & H2).
  rewrite Hname in H1, H2.
  apply (other_keys_false Source_name (has_name name) name _ (has_name_iff name)) in H1.
  apply (other_keys_false Source_name (has_name name) name _ (has_name_iff name)) in H2.
  assert (Hr : has_name name r = true) by (apply has_name_iff; exact Hname).
  assert (Hfind : find (has_name name) (Source (w_db w)) = Some r)
    by (rewrite El; apply find_split; assumption).
  set (now := env_now (w_db_env w (w_db_calls w))).
  eexists _, l1, l2, (refresh_source now r).
  split.
  { unfold insert_source. rewrite run_statement by exact Hav.
    unfold upsert_source, select_source_id. rewrite Hfind. cbn [option_map fst snd].
    reflexivity. }
  cbn [w_db set_db Source Item].
  split; [exact El|].
  split; [rewrite El; apply map_split; assumption|].
  split.
  { rewrite El, (map_split _ _ l1 r l2 H1 H2 Hr).
    rewrite (filter_split _ l1 _ l2 H1 H2); [reflexivity | exact Hr]. }
  repeat (split; [reflexivity|]).
  intros w0 slug0 category0 metadata0 source_url0 adapter0 id0 Hfirst.
  pose proof (run_statement_tables (Call_insert_source name)
                (upsert_source name slug0 category0 metadata0 source_url0 adapter0) w0) as Ht.
  unfold insert_source in Hfirst. rewrite Hfirst in Ht.
  destruct Ht as [env Ht]. symmetry in Ht. apply upsert_source_select in Ht.
  unfold select_source_id in Ht. rewrite Hfind in Ht. cbn [option_map] in Ht.
  congruence.
Qed.

(** *** [insert_item] *)

Lemma upsert_item_stored source_id number title category summary tags full_text
    source_url metadata env db db' r :
  upsert_item source_id number title category summary tags full_text source_url
    metadata env db = (db', tt) ->
  In r (Item db') -> has_key source_id number r = true ->
  Item_title r = title /\ Item_category r = category /\ Item_summary r = summary
  /\ Item_tags r = tags /\ Item_fullText r = full_text /\ Item_metadata r = metadata
  /\ Item_scrapedAt r = env_now env.
Proof.
  unfold upsert_item.
  destruct (existsb (has_key source_id number) (Item db)) eqn:Ex; intros [= <-]; cbn [Item].
  - intros Hin Hk. apply in_map_iff in Hin. destruct Hin as (x & Hx & _).
    destruct (has_key source_id number x) eqn:Ekx.
    + subst r. repeat split.
    + subst r. congruence.
  - intros Hin Hk. apply in_app_or in Hin. destruct Hin as [Hin | [<- | []]].
    + apply existsb_false_forall in Ex. rewrite Forall_forall in Ex.
      rewrite (Ex r Hin) in Hk. discriminate.
    + repeat split.
Qed.

(** C3. In a store that holds an Item row [r] for [(source_id, number)],
    [insert_item] for the same pair puts the new title, category, summary,
    tags, full text, metadata and scrape time in that row and keeps its id,
    key and URL; the table holds exactly one row for the pair afterwards and
    no other row changes. When [r] was stored by an earlier [insert_item]
    with another title, it is that title the call replaces. *)
Theorem insert_item_overwrites w source_id number title category summary
    full_text_compressed tags source_url adapter r :
  Item_key_unique (w_db w) ->
  In r (Item (w_db w)) -> Item_key r = (source_id, number) ->
  db_available w ->
  exists w' l1 l2 r',
    insert_item source_id number title category summary full_text_compressed
      tags source_url adapter w = (Ok tt, w')
    /\ Item (w_db w) = l1 ++ r :: l2
    /\ Item (w_db w') = l1 ++ r' :: l2
    /\ length (filter (has_key source_id number) (Item (w_db w'))) = 1%nat
    /\ Item_title r' = title
    /\ Item_category r' = category
    /\ Item_summary r' = summary
    /\ Item_tags r' = tags
    /\ Item_fullText r' = full_text_compressed
    /\ Item_metadata r' = JObj [(py "adapter", JStr adapter)]
    /\ Item_scrapedAt r' = env_now (w_db_env w (w_db_calls w))
    /\ Item_id r' = Item_id r
    /\ Item_key r' = (source_id, number)
    /\ Item_sourceUrl r' = Item_sourceUrl r
    /\ Source (w_db w') = Source (w_db w)
    /\ (forall w0 title0 category0 summary0 full0 tags0 source_url0 adapter0,
          insert_item source_id number title0 category0 summary0 full0 tags0
            source_url0 adapter0 w0 = (Ok tt, w) ->
          Item_title r = title0).
Proof.
  intros Hu Hin Hkey Hav.
  destruct (unique_key_split Item_key _ r Hu Hin) as (l1 & l2 & El & H1 & H2).
  rewrite Hkey in H1, H2.
  apply (other_keys_false Item_key (has_key source_id number) _ _
           (has_key_iff source_id number)) in H1.
  apply (other_keys_false Item_key (has_key source_id number) _ _
           (has_key_iff source_id number)) in H2.
  assert (Hr : has_key source_id number r = true) by (apply has_key_iff; exact Hkey).
  assert (Hex : existsb (has_key source_id number) (Item (w_db w)) = true)
    by (rewrite El; apply existsb_split; exact Hr).
  set (now := env_now (w_db_env w (w_db_calls w))).
  set (metadata := JObj [(py "adapter", JStr adapter)]).
  eexists _, l1, l2,
    (overwrite_item title category summary tags full_text_compressed metadata now r).
  split.
  { unfold insert_item. rewrite run_statement by exact Hav.
    unfold upsert_item. rewrite Hex. cbn [fst snd]. reflexivity. }
  cbn [w_db set_db Source Item].
  split; [exact El|].
  split; [rewrite El; apply map_split; assumption|].
  split.
  { rewrite El, (map_split _ _ l1 r l2 H1 H2 Hr).
    rewrite (filter_split _ l1 _ l2 H1 H2); [reflexivity | exact Hr]. }
  repeat (split; [reflexivity|]).
  split; [exact Hkey|].
  repeat (split; [reflexivity|]).
  intros w0 title0 category0 summary0 full0 tags0 source_url0 adapter0 Hfirst.
  pose proof (run_statement_tables (Call_insert_item source_id number)
                (upsert_item source_id number title0 category0 summary0 tags0 full0
                   source_url0 (JObj [(py "adapter", JStr adapter0)])) w0) as Ht.
  unfold insert_item in Hfirst. rewrite Hfirst in Ht.
  destruct Ht as [env Ht]. symmetry in Ht.
  apply (upsert_item_stored _ _ _ _ _ _ _ _ _ _ _ _ r Ht Hin Hr).
Qed.

(** ** main.py: one run of [scrape_target] *)

(** Reading the configuration leaves the world as it is. *)
Lemma get_target_config_world target_id region w r w' :
  get_target_config target_id region w = (r, w') -> w' = w.
Proof.
  unfold get_target_config, bind, load_config, ret, raise.
  destruct (w_config w region) as [config|]; [|intros [= _ <-]; reflexivity].
  destruct (find _ (targets config)); intros [= _ <-]; reflexivity.
Qed.

Lemma db_available_for_S n w :
  db_available_for (S n) w -> db_available w.
Proof.
  intros [Hurl Hf]. split; [exact Hurl|].
  specialize (Hf 0%nat). rewrite Nat.add_0_r in Hf. apply Hf. lia.
Qed.

Lemma db_available_for_next n w w' :
  db_available_for (S n) w ->
  w_DATABASE_URL w' = w_DATABASE_URL w -> w_db_env w' = w_db_env w ->
  w_db_calls w' = S (w_db_calls w) ->
  db_available_for n w'.
Proof.
  intros [Hurl Hf] E1 E2 E3. split; [rewrite E1; exact Hurl|].
  intros i Hi. rewrite E2, E3. replace (S (w_db_calls w) + i)%nat with (w_db_calls w + S i)%nat by lia.
  apply Hf. lia.
Qed.

Lemma run_source_exists name w :
  db_available w ->
  source_exists name w
  = (Ok (match select_source_id name (w_db w) with Some _ => true | None => false end),
     set_db_calls (S (w_db_calls w)) (log (Call_source_exists name) w)).
Proof.
  intros [(c & url & Hurl) Hf].
  unfold source_exists, bind, trace, call, get_db_connection, execute, ret.
  world_fields.
  rewrite Hurl, Hf. world_fields.
  rewrite ?Hf. reflexivity.
Qed.

(** The skip check reads the store and nothing else. *)
Lemma not_skipped_frame force name w w' :
  not_skipped force name w w' ->
  w_db w' = w_db w
  /\ w_trace w' = w_trace w ++ (if force then [] else [Call_source_exists name]).
Proof.
  unfold not_skipped. destruct force.
  - intros [= <-]. split; [reflexivity | symmetry; apply app_nil_r].
  - unfold source_exists, bind, trace, call, get_db_connection, execute, ret.
    world_fields.
    destruct (w_DATABASE_URL w) as [[|c url]|]; try discriminate.
    destruct (env_fault (w_db_env w (w_db_calls w))) as [[msg|msg]|] eqn:Ef;
      world_fields; rewrite ?Ef; try discriminate.
    intros [= _ <-]. split; reflexivity.
Qed.

Section Run.

Variable lower : pystr -> pystr.
Variable lz4_frame_compress : bytes -> bytes.
Variable registry : list (pystr * BaseAdapter).

(** C7. When the configured target's name is the name of a Source row and
    [force] is false, the run returns status [skipped] with the number of
    Item rows of that Source; it makes three reads of the store, no call on
    an adapter and no write, and the tables are unchanged. *)
Theorem scrape_target_skips target_id region w target id :
  get_target_config target_id region w = (Ok target, w) ->
  select_source_id (cfg_name target) (w_db w) = Some id ->
  db_available_for 3 w ->
  exists w',
    scrape_target lower lz4_frame_compress registry target_id false region w
    = (Ok [ (py "status", VStr (py "skipped"));
            (py "target", VStr (cfg_name target));
            (py "items", VInt (count_items (Some id) (w_db w))) ], w')
    /\ w_db w' = w_db w
    /\ w_trace w'
       = w_trace w ++ [ Call_source_exists (cfg_name target);
                        Call_get_source_id (cfg_name target);
                        Call_get_item_count (Some id) ]
    /\ Forall (fun ev => is_write ev = false /\ is_adapter_call ev = false)
         [ Call_source_exists (cfg_name target);
           Call_get_source_id (cfg_name target);
           Call_get_item_count (Some id) ].
Proof.
  intros Hcfg Hsel Hav.
  pose (name := cfg_name target).
  set (w1 := set_db_calls (S (w_db_calls w)) (log (Call_source_exists name) w)).
  assert (Hav1 : db_available_for 2 w1) by (apply (db_available_for_next _ w); auto).
  set (w2 := set_db (w_db w1)
               (set_db_calls (S (w_db_calls w1)) (log (Call_get_source_id name) w1))).
  assert (Hav2 : db_available_for 1 w2) by (apply (db_available_for_next _ w1); auto).
  eexists. split.
  - unfold scrape_target. unfold bind at 1. rewrite Hcfg.
    unfold bind at 1. rewrite (run_source_exists _ w (db_available_for_S _ _ Hav)).
    rewrite Hsel. fold w1.
    unfold bind at 1. unfold get_source_id.
    rewrite (run_statement _ _ w1 (db_available_for_S _ _ Hav1)).
    cbn [fst snd]. fold w2. change (w_db w1) with (w_db w). rewrite Hsel.
    unfold bind at 1. unfold get_item_count.
    rewrite (run_statement _ _ w2 (db_available_for_S _ _ Hav2)).
    cbn [fst snd]. unfold ret. reflexivity.
  - subst w2 w1. cbn [w_db set_db]. split; [reflexivity|]. split.
    + cbn [w_trace set_db set_db_calls log]. rewrite <- !app_assoc. reflexivity.
    + repeat constructor.
Qed.

(** The run of a target that is not skipped, up to the extraction. *)
Lemma scrape_target_until_extraction target_id force region w w1 target adapter :
  get_target_config target_id region w = (Ok target, w) ->
  not_skipped force (cfg_name target) w w1 ->
  get_adapter registry (target_source target) = Ok adapter ->
  validate_url adapter (cfg_url target) = true ->
  let w3 := log_all (adapter_calls (target_source target) adapter (cfg_url target)) w1 in
  scrape_target lower lz4_frame_compress registry target_id force region w
  = match extract_items adapter (cfg_url target) target with
    | Raise e => (Raise e, w3)
    | Ok [] =>
        (Ok [ (py "status", VStr (py "empty"));
              (py "target", VStr (cfg_name target));
              (py "items", VInt 0) ], w3)
    | Ok (item :: rest) =>
        (source_id <- insert_source (cfg_name target) (cfg_slug target)
                        (cfg_category target) (target_metadata target)
                        (cfg_url target) (target_source target) ;;
         counts <- process_items lower lz4_frame_compress source_id
                     (target_source target) (item :: rest) 0 0 ;;
         ret [ (py "status", VStr (py "success"));
               (py "target", VStr (cfg_name target));
               (py "items", VInt (fst counts));
               (py "errors", VInt (snd counts));
               (py "adapter", VStr (target_source target)) ]) w3
    end.
Proof.
  intros Hcfg Hns Had Hval w3.
  unfold scrape_target. unfold bind at 1. rewrite Hcfg.
  unfold bind at 1. unfold not_skipped in Hns. rewrite Hns.
  unfold bind at 1. unfold try_except, call. unfold bind at 1. rewrite Had.
  unfold ret at 1. cbv beta iota.
  unfold bind at 1. rewrite Hval. cbn [negb].
  unfold bind at 1.
  change (log (Call_extract_items (SOURCE_NAME adapter) (cfg_url target))
            (log (Call_validate_url (SOURCE_NAME adapter) (cfg_url target))
               (log (Call_get_adapter (target_source target)) w1))) with w3.
  destruct (extract_items adapter (cfg_url target) target) as [[|item rest]|e];
    reflexivity.
Qed.

(** The item loop runs to its end, whatever the items meet: each item adds
    one to exactly one of the two counters. *)
Lemma process_items_counts source_id adapter_name items :
  forall success_count error_count w,
    exists w',
      process_items lower lz4_frame_compress source_id adapter_name items
        success_count error_count w
      = (Ok (success_count + (Z.of_nat (length items)
                              - Z.of_nat (item_failures lower lz4_frame_compress
                                            source_id adapter_name items w)),
             error_count + Z.of_nat (item_failures lower lz4_frame_compress
                                       source_id adapter_name items w)), w')
      /\ (item_failures lower lz4_frame_compress source_id adapter_name items w
          <= length items)%nat.
Proof.
  induction items as [|item rest IH]; intros s e w.
  - exists w. cbn [process_items item_failures length]. unfold ret.
    split; [|lia]. f_equal. f_equal. f_equal; lia.
  - cbn [process_items item_failures length].
    unfold bind at 1. unfold try_except. unfold bind at 1.
    destruct (process_item lower lz4_frame_compress source_id adapter_name item w)
      as [[[]|ex] w1].
    + unfold ret at 1. cbv beta iota. cbn [fst snd].
      destruct (IH (s + 1) e w1) as (w' & -> & Hle).
      exists w'. split; [|lia]. f_equal. f_equal. f_equal; lia.
    + unfold any_Exception. unfold ret at 1. cbv beta iota. cbn [fst snd].
      destruct (IH s (e + 1) w1) as (w' & -> & Hle).
      exists w'. split; [|lia]. f_equal. f_equal. f_equal; lia.
Qed.

Lemma log_all_frame evs w :
  w_db (log_all evs w) = w_db w /\ w_trace (log_all evs w) = w_trace w ++ evs.
Proof.
  revert w. induction evs as [|ev evs IH]; intros w; cbn [log_all fold_left].
  - split; [reflexivity | symmetry; apply app_nil_r].
  - fold (log_all evs (log ev w)). destruct (IH (log ev w)) as [-> ->].
    cbn [w_db w_trace log]. rewrite <- app_assoc. split; reflexivity.
Qed.

(** The run up to the extraction leaves the tables alone and writes nothing. *)
Lemma extraction_frame force name adapter_name adapter url w w1 :
  not_skipped force name w w1 ->
  let w3 := log_all (adapter_calls adapter_name adapter url) w1 in
  let evs := (if force then [] else [Call_source_exists name])
             ++ adapter_calls adapter_name adapter url in
  w_db w3 = w_db w
  /\ w_trace w3 = w_trace w ++ evs
  /\ Forall (fun ev => is_write ev = false) evs.
Proof.
  intros Hns w3 evs. apply not_skipped_frame in Hns. destruct Hns as [Hdb Htr].
  destruct (log_all_frame (adapter_calls adapter_name adapter url) w1) as [Hdb3 Htr3].
  split; [unfold w3; rewrite Hdb3; exact Hdb|].
  split; [unfold w3, evs; rewrite Htr3, Htr, <- app_assoc; reflexivity|].
  unfold evs. destruct force; repeat constructor.
Qed.

(** C10. When the adapter of a target returns no item, the run returns
    status [empty] with 0 items; [insert_source] and [insert_item] are not
    called, and the tables are as they were before the run. *)
Theorem scrape_target_empty target_id force region w w1 target adapter :
  get_target_config target_id region w = (Ok target, w) ->
  not_skipped force (cfg_name target) w w1 ->
  get_adapter registry (target_source target) = Ok adapter ->
  validate_url adapter (cfg_url target) = true ->
  extract_items adapter (cfg_url target) target = Ok [] ->
  exists w' evs,
    scrape_target lower lz4_frame_compress registry target_id force region w
    = (Ok [ (py "status", VStr (py "empty"));
            (py "target", VStr (cfg_name target));
            (py "items", VInt 0) ], w')
    /\ w_db w' = w_db w
    /\ w_trace w' = w_trace w ++ evs
    /\ Forall (fun ev => is_write ev = false) evs.
Proof.
  intros Hcfg Hns Had Hval Hex.
  rewrite (scrape_target_until_extraction _ _ _ _ _ _ _ Hcfg Hns Had Hval), Hex.
  eexists _, _. split; [reflexivity|].
  exact (extraction_frame force (cfg_name target) (target_source target) adapter
           (cfg_url target) w w1 Hns).
Qed.

(** C2, as the code has it. When [extract_items] raises, [scrape_target]
    returns no result: the exception leaves it as it was raised. Nothing
    was written and the tables are as they were before the run. *)
Theorem scrape_target_extraction_raises target_id force region w w1 target adapter e :
  get_target_config target_id region w = (Ok target, w) ->
  not_skipped force (cfg_name target) w w1 ->
  get_adapter registry (target_source target) = Ok adapter ->
  validate_url adapter (cfg_url target) = true ->
  extract_items adapter (cfg_url target) target = Raise e ->
  exists w' evs,
    scrape_target lower lz4_frame_compress registry target_id force region w
    = (Raise e, w')
    /\ w_db w' = w_db w
    /\ w_trace w' = w_trace w ++ evs
    /\ Forall (fun ev => is_write ev = false) evs.
Proof.
  intros Hcfg Hns Had Hval Hex.
  rewrite (scrape_target_until_extraction _ _ _ _ _ _ _ Hcfg Hns Had Hval), Hex.
  eexists _, _. split; [reflexivity|].
  exact (extraction_frame force (cfg_name target) (target_source target) adapter
           (cfg_url target) w w1 Hns).
Qed.

(** [repr] of a list of keys, one of them with an apostrophe. *)
Example repr_list_example :
  repr_list [py "example"; py "it's"]
  = py "['example', " ++ [34] ++ py "it's" ++ [34] ++ py "]".
Proof. reflexivity. Qed.

Lemma registry_lookup_absent source :
  ~ In source (map fst registry) -> registry_lookup registry source = None.
Proof.
  unfold registry_lookup. intros Hn.
  destruct (find (fun kv => str_eqb (fst kv) source) registry) as [[k cls]|] eqn:Ef;
    [|reflexivity].
  apply find_some in Ef. destruct Ef as [Hin Hk]. cbn [fst] in Hk.
  apply str_eqb_eq in Hk. subst k. exfalso. apply Hn.
  apply (in_map fst) in Hin. exact Hin.
Qed.

Lemma registry_lookup_present source :
  In source (map fst registry) ->
  exists cls, registry_lookup registry source = Some cls /\ In (source, cls) registry.
Proof.
  unfold registry_lookup. intros Hin.
  destruct (find (fun kv => str_eqb (fst kv) source) registry) as [[k cls]|] eqn:Ef.
  - apply find_some in Ef. destruct Ef as [Hin' Hk]. cbn [fst] in Hk.
    apply str_eqb_eq in Hk. subst k. exists cls. split; [reflexivity | exact Hin'].
  - exfalso. apply in_map_iff in Hin. destruct Hin as ([k cls] & Hk & Hin).
    cbn [fst] in Hk. subst k.
    pose proof (find_none _ _ Ef _ Hin) as Hf. cbn [fst] in Hf.
    rewrite str_eqb_refl in Hf. discriminate.
Qed.

(** C9. For an identifier that is no key of the registry, [get_adapter]
    raises a [ValueError] whose message names the identifier and lists the
    keys of the registry, and a run that comes to resolve such an adapter
    returns status [error] with that message, writing nothing; for a key of
    the registry, [get_adapter] returns the adapter registered under it. *)
Theorem get_adapter_resolution :
  (forall source,
      ~ In source (map fst registry) ->
      get_adapter registry source
      = Raise (Exn ValueError
                 (py "Unknown source: " ++ source ++ py ". Available: "
                  ++ repr_list (map fst registry))))
  /\ (forall target_id force region w w1 target,
        get_target_config target_id region w = (Ok target, w) ->
        not_skipped force (cfg_name target) w w1 ->
        ~ In (target_source target) (map fst registry) ->
        exists w',
          scrape_target lower lz4_frame_compress registry target_id force region w
          = (Ok [ (py "status", VStr (py "error"));
                  (py "target", VStr (cfg_name target));
                  (py "error",
                    VStr (py "Unknown source: " ++ target_source target
                          ++ py ". Available: " ++ repr_list (map fst registry))) ],
             w')
          /\ w_db w' = w_db w
          /\ w_trace w'
             = w_trace w ++ (if force then [] else [Call_source_exists (cfg_name target)])
               ++ [Call_get_adapter (target_source target)])
  /\ (forall source,
        In source (map fst registry) ->
        exists cls, In (source, cls) registry /\ get_adapter registry source = Ok cls).
Proof.
  split; [|split].
  - intros source Hn. unfold get_adapter.
    rewrite (registry_lookup_absent source Hn). reflexivity.
  - intros target_id force region w w1 target Hcfg Hns Hn.
    eexists. split.
    + unfold scrape_target. unfold bind at 1. rewrite Hcfg.
      unfold bind at 1. unfold not_skipped in Hns. rewrite Hns.
      unfold bind at 1. unfold try_except, call. unfold bind at 1.
      unfold get_adapter. rewrite (registry_lookup_absent _ Hn).
      cbv beta iota. unfold is_ValueError. cbn [exn_cls exn_msg].
      unfold ret. reflexivity.
    + apply not_skipped_frame in Hns. destruct Hns as [Hdb Htr].
      cbn [w_db w_trace log]. rewrite Hdb, Htr, <- app_assoc. split; reflexivity.
  - intros source Hin. destruct (registry_lookup_present source Hin) as (cls & Hl & Hin').
    exists cls. split; [exact Hin'|]. unfold get_adapter. rewrite Hl. reflexivity.
Qed.

(** What makes an item fail: its text does not encode, or its insert
    raises. *)
Lemma process_item_outcome source_id adapter_name item w :
  process_item lower lz4_frame_compress source_id adapter_name item w
  = match compress_text lz4_frame_compress (raw_text item) with
    | Raise e => (Raise e, w)
    | Ok compressed_text =>
        insert_item source_id (raw_number item) (raw_title item)
          (fst (categorize_content lower (raw_title item) (raw_text item)))
          (make_summary (raw_text item)) compressed_text
          (snd (categorize_content lower (raw_title item) (raw_text item)))
          (raw_url item) adapter_name w
    end.
Proof.
  unfold process_item.
  destruct (categorize_content lower (raw_title item) (raw_text item)) as [c tags].
  unfold bind at 1.
  destruct (compress_text lz4_frame_compress (raw_text item)); reflexivity.
Qed.

Lemma db_available_for_less n w : db_available_for (S n) w -> db_available_for n w.
Proof. intros [Hurl Hf]. split; [exact Hurl|]. intros i Hi. apply Hf. lia. Qed.

(** With the store up for the whole loop, the items that fail are those
    whose text does not encode. *)
Lemma item_failures_store_up source_id adapter_name items :
  forall w,
    db_available_for (length items) w ->
    item_failures lower lz4_frame_compress source_id adapter_name items w
    = length (filter (fun item => negb (text_encodes lz4_frame_compress item)) items).
Proof.
  induction items as [|item rest IH]; intros w Hav; [reflexivity|].
  cbn [item_failures filter length] in *. rewrite process_item_outcome.
  unfold text_encodes.
  destruct (compress_text lz4_frame_compress (raw_text item)) as [c|e]; cbn [negb length].
  - unfold insert_item. rewrite run_statement by exact (db_available_for_S _ _ Hav).
    apply IH. apply (db_available_for_next _ w); auto.
  - f_equal. apply IH. apply db_available_for_less. exact Hav.
Qed.

(** C6. In a run that comes to the item loop with [n] items of which [k]
    fail (the body of the [try] raises: the text does not encode or the
    insert raises), every failure is caught and counted and the loop goes
    on: the run returns status [success] with [n - k] items and [k]
    errors. *)
Theorem scrape_target_partial_failure
    target_id force region w w1 w2 target adapter items source_id k :
  get_target_config target_id region w = (Ok target, w) ->
  not_skipped force (cfg_name target) w w1 ->
  get_adapter registry (target_source target) = Ok adapter ->
  validate_url adapter (cfg_url target) = true ->
  extract_items adapter (cfg_url target) target = Ok items ->
  items <> [] ->
  insert_source (cfg_name target) (cfg_slug target) (cfg_category target)
    (target_metadata target) (cfg_url target) (target_source target)
    (log_all (adapter_calls (target_source target) adapter (cfg_url target)) w1)
  = (Ok source_id, w2) ->
  item_failures lower lz4_frame_compress source_id (target_source target) items w2 = k ->
  exists w',
    scrape_target lower lz4_frame_compress registry target_id force region w
    = (Ok [ (py "status", VStr (py "success"));
            (py "target", VStr (cfg_name target));
            (py "items", VInt (Z.of_nat (length items) - Z.of_nat k));
            (py "errors", VInt (Z.of_nat k));
            (py "adapter", VStr (target_source target)) ], w')
    /\ (k <= length items)%nat.
Proof.
  intros Hcfg Hns Had Hval Hex Hne Hsrc Hk.
  rewrite (scrape_target_until_extraction _ _ _ _ _ _ _ Hcfg Hns Had Hval), Hex.
  destruct items as [|item rest]; [contradiction|].
  unfold bind at 1. rewrite Hsrc.
  destruct (process_items_counts source_id (target_source target) (item :: rest) 0 0 w2)
    as (w' & Hloop & Hle).
  rewrite Hk in Hloop, Hle.
  exists w'. split; [|exact Hle].
  unfold bind at 1. rewrite Hloop. unfold ret. cbn [fst snd].
  rewrite !Z.add_0_l. reflexivity.
Qed.

Lemma upsert_item_present source_id number title category summary tags full_text
    source_url metadata env db db' :
  upsert_item source_id number title category summary tags full_text source_url
    metadata env db = (db', tt) ->
  exists r, In r (Item db') /\ Item_key r = (source_id, number).
Proof.
  unfold upsert_item.
  destruct (existsb (has_key source_id number) (Item db)) eqn:Ex; intros [= <-]; cbn [Item].
  - apply existsb_exists in Ex. destruct Ex as (x & Hx & Hk).
    exists (overwrite_item title category summary tags full_text metadata (env_now env) x).
    split.
    + apply in_map_iff. exists x. rewrite Hk. split; [reflexivity | exact Hx].
    + apply has_key_iff in Hk. exact Hk.
  - eexists. split; [apply in_or_app; right; left; reflexivity | reflexivity].
Qed.

(** C8. The summary [process_item] makes of an item is the item's text when
    the text has at most 200 characters, and the first 200 characters of the
    text followed by "..." (203 characters in all) when it has more; it is
    the summary passed to [insert_item], and the summary of the row stored
    for the item when the insert goes through. *)
Theorem summary_truncated source_id adapter_name item :
  exists summary,
    ((200 < length (raw_text item))%nat ->
       summary = firstn 200 (raw_text item) ++ py "..."
       /\ length summary = 203%nat)
    /\ ((length (raw_text item) <= 200)%nat -> summary = raw_text item)
    /\ (forall w,
          process_item lower lz4_frame_compress source_id adapter_name item w
          = match compress_text lz4_frame_compress (raw_text item) with
            | Raise e => (Raise e, w)
            | Ok compressed_text =>
                insert_item source_id (raw_number item) (raw_title item)
                  (fst (categorize_content lower (raw_title item) (raw_text item)))
                  summary compressed_text
                  (snd (categorize_content lower (raw_title item) (raw_text item)))
                  (raw_url item) adapter_name w
            end)
    /\ (forall w w',
          process_item lower lz4_frame_compress source_id adapter_name item w
          = (Ok tt, w') ->
          (exists r, In r (Item (w_db w'))
                     /\ Item_key r = (source_id, raw_number item))
          /\ (forall r,
                In r (Item (w_db w')) ->
                Item_key r = (source_id, raw_number item) ->
                Item_summary r = summary)).
Proof.
  exists (make_summary (raw_text item)).
  split; [|split; [|split]].
  - unfold make_summary. intros Hlt.
    destruct (Nat.ltb_spec 200 (length (raw_text item))) as [_ | Hge]; [|lia].
    split; [reflexivity|].
    rewrite length_app, firstn_length_le by lia. reflexivity.
  - unfold make_summary. intros Hle.
    destruct (Nat.ltb_spec 200 (length (raw_text item))) as [Hlt | _]; [lia|].
    reflexivity.
  - apply process_item_outcome.
  - intros w w'. rewrite process_item_outcome.
    destruct (compress_text lz4_frame_compress (raw_text item)) as [c|e]; [|discriminate].
    intros Hins.
    pose proof (run_statement_tables (Call_insert_item source_id (raw_number item))
      (upsert_item source_id (raw_number item) (raw_title item)
         (fst (categorize_content lower (raw_title item) (raw_text item)))
         (make_summary (raw_text item))
         (snd (categorize_content lower (raw_title item) (raw_text item)))
         c (raw_url item) (JObj [(py "adapter", JStr adapter_name)])) w) as Ht.
    unfold insert_item in Hins. rewrite Hins in Ht. destruct Ht as [env Ht].
    symmetry in Ht. split.
    + exact (upsert_item_present _ _ _ _ _ _ _ _ _ _ _ _ Ht).
    + intros r Hin Hkey. apply has_key_iff in Hkey.
      destruct (upsert_item_stored _ _ _ _ _ _ _ _ _ _ _ _ r Ht Hin Hkey)
        as (_ & _ & Hs & _).
      exact Hs.
Qed.

End Run.

(** ** The unique constraints are invariants of a run *)

Lemma upsert_source_constraints name slug category metadata source_url adapter env db :
  constraints_hold db ->
  constraints_hold
    (fst (upsert_source name slug category metadata source_url adapter env db)).
Proof.
  intros [Hs Hi]. unfold upsert_source, select_source_id.
  destruct (find (has_name name) (Source db)) as [r|] eqn:Ef; cbn [option_map fst];
    (split; [|exact Hi]); unfold Source_name_unique in *; cbn [Source].
  - rewrite map_map.
    rewrite (map_ext (fun x => Source_name (if has_name name x
                                           then refresh_source (env_now env) x else x))
               Source_name); [exact Hs|].
    intros x. destruct (has_name name x); reflexivity.
  - rewrite map_app. cbn [map Source_name].
    apply NoDup_app; [exact Hs | repeat constructor; intros [] |].
    intros n Hn [<- | []].
    apply in_map_iff in Hn. destruct Hn as (x & Hx & Hin).
    apply find_none_forall in Ef. rewrite Forall_forall in Ef.
    specialize (Ef x Hin).
    change (Source_name x = name) in Hx.
    apply has_name_iff in Hx. congruence.
Qed.

Lemma upsert_item_constraints source_id number title category summary tags full_text
    source_url metadata env db :
  constraints_hold db ->
  constraints_hold
    (fst (upsert_item source_id number title category summary tags full_text
            source_url metadata env db)).
Proof.
  intros [Hs Hi]. unfold upsert_item.
  destruct (existsb (has_key source_id number) (Item db)) eqn:Ex; cbn [fst];
    (split; [exact Hs|]); unfold Item_key_unique in *; cbn [Item].
  - rewrite map_map.
    rewrite (map_ext (fun x => Item_key (if has_key source_id number x
                                        then overwrite_item title category summary tags
                                               full_text metadata (env_now env) x
                                        else x))
               Item_key); [exact Hi|].
    intros x. destruct (has_key source_id number x); reflexivity.
  - rewrite map_app. cbn [map].
    apply NoDup_app; [exact Hi | repeat constructor; intros [] |].
    intros k Hk [<- | []].
    apply in_map_iff in Hk. destruct Hk as (x & Hx & Hin).
    apply existsb_false_forall in Ex. rewrite Forall_forall in Ex.
    specialize (Ex x Hin).
    change (Item_key x = (source_id, number)) in Hx.
    apply has_key_iff in Hx. congruence.
Qed.

Section Preservation.

Variable P : Database -> Prop.

Lemma preserves_ret {A} (a : A) : preserves P (ret a).
Proof. intros w H. exact H. Qed.

Lemma preserves_raise {A} (e : exn) : preserves P (@raise A e).
Proof. intros w H. exact H. Qed.

Lemma preserves_bind {A B} (m : M A) (k : A -> M B) :
  preserves P m -> (forall a, preserves P (k a)) -> preserves P (bind m k).
Proof.
  intros Hm Hk w H. unfold bind. specialize (Hm w H).
  destruct (m w) as [[a|e] w1]; cbn [snd] in *; [apply Hk; exact Hm | exact Hm].
Qed.

Lemma preserves_try_except {A} (body : M A) catches (handler : exn -> M A) :
  preserves P body -> (forall e, preserves P (handler e)) ->
  preserves P (try_except body catches handler).
Proof.
  intros Hb Hh w H. unfold try_except. specialize (Hb w H).
  destruct (body w) as [[a|e] w1]; cbn [snd] in *; [exact Hb|].
  destruct (catches e); [apply Hh; exact Hb | exact Hb].
Qed.

Lemma preserves_call {A} ev (r : result A) : preserves P (call ev r).
Proof. intros w H. exact H. Qed.

Lemma preserves_lift {A} (r : result A) : preserves P (lift r).
Proof. intros w H. exact H. Qed.

Lemma preserves_get_db_connection : preserves P get_db_connection.
Proof.
  intros w H. unfold get_db_connection.
  destruct (w_DATABASE_URL w) as [[|c url]|]; try exact H.
  destruct (env_fault (w_db_env w (w_db_calls w))) as [[msg|msg]|]; exact H.
Qed.

Lemma preserves_execute {A} conn (stmt : DbEnv -> Database -> Database * A) :
  (forall env db, P db -> P (fst (stmt env db))) ->
  preserves P (execute conn stmt).
Proof.
  intros Hs w H. unfold execute.
  destruct (env_fault conn) as [[msg|msg]|]; try exact H;
    specialize (Hs conn (w_db w) H);
    destruct (stmt conn (w_db w)) as [db' a]; exact Hs.
Qed.

End Preservation.

Create HintDb preserve.

#[local] Hint Resolve preserves_ret preserves_raise preserves_call preserves_lift
  preserves_get_db_connection preserves_bind preserves_try_except preserves_execute
  upsert_source_constraints upsert_item_constraints : preserve.

(** Every function of [core/db.py] keeps the unique constraints. *)
Lemma source_exists_keeps_constraints name :
  preserves constraints_hold (source_exists name).
Proof. unfold source_exists, trace. auto 10 with preserve. Qed.

Lemma get_source_id_keeps_constraints name :
  preserves constraints_hold (get_source_id name).
Proof. unfold get_source_id, trace. auto 10 with preserve. Qed.

Lemma get_item_count_keeps_constraints source_id :
  preserves constraints_hold (get_item_count source_id).
Proof. unfold get_item_count, trace. auto 10 with preserve. Qed.

Lemma insert_source_keeps_constraints name slug category metadata source_url adapter :
  preserves constraints_hold
    (insert_source name slug category metadata source_url adapter).
Proof. unfold insert_source, trace. auto 10 with preserve. Qed.

Lemma insert_item_keeps_constraints source_id number title category summary
    full_text tags source_url adapter :
  preserves constraints_hold
    (insert_item source_id number title category summary full_text tags
       source_url adapter).
Proof. unfold insert_item, trace. auto 10 with preserve. Qed.

#[local] Hint Resolve source_exists_keeps_constraints get_source_id_keeps_constraints
  get_item_count_keeps_constraints insert_source_keeps_constraints
  insert_item_keeps_constraints : preserve.

Section RunInvariant.

Variable lower : pystr -> pystr.
Variable lz4_frame_compress : bytes -> bytes.
Variable registry : list (pystr * BaseAdapter).

Lemma process_items_keep_constraints source_id adapter_name items :
  forall success_count error_count,
    preserves constraints_hold
      (process_items lower lz4_frame_compress source_id adapter_name items
         success_count error_count).
Proof.
  induction items as [|item rest IH]; intros s e; cbn [process_items].
  - apply preserves_ret.
  - apply preserves_bind; [|intros counts; apply IH].
    apply preserves_try_except; [|intros ?; apply preserves_ret].
    apply preserves_bind; [|intros ?; apply preserves_ret].
    unfold process_item.
    destruct (categorize_content lower (raw_title item) (raw_text item)) as [c tags].
    apply preserves_bind; [apply preserves_lift | intros ?].
    apply insert_item_keeps_constraints.
Qed.

(** A run of [scrape_target] that starts with both unique constraints ends
    with both, whatever it returns or raises. *)
Theorem scrape_target_keeps_constraints target_id force region :
  preserves constraints_hold
    (scrape_target lower lz4_frame_compress registry target_id force region).
Proof.
  unfold scrape_target.
  apply preserves_bind.
  { unfold get_target_config, load_config. intros w H.
    unfold bind, ret, raise.
    destruct (w_config w region) as [config|]; [|exact H].
    destruct (find _ (targets config)); exact H. }
  intros target. apply preserves_bind.
  { destruct force; auto with preserve. }
  intros [|].
  - auto 10 with preserve.
  - apply preserves_bind.
    { apply preserves_try_except; [|intros ?; apply preserves_ret].
      apply preserves_bind; [apply preserves_call | intros ?; apply preserves_ret]. }
    intros [adapter | early]; [|apply preserves_ret].
    apply preserves_bind; [apply preserves_call | intros valid].
    destruct (negb valid); [apply preserves_ret|].
    apply preserves_bind; [apply preserves_call | intros [|item rest]];
      [apply preserves_ret|].
    apply preserves_bind; [auto with preserve | intros source_id].
    apply preserves_bind; [apply process_items_keep_constraints | intros ?].
    apply preserves_ret.
Qed.

End RunInvariant.

(** ** Python's [str], further *)

Lemma py_inj s t : py s = py t -> s = t.
Proof.
  unfold py. revert t. induction s as [|a s IH]; intros [|b t]; cbn [list_ascii_of_string map];
    try discriminate; [reflexivity|].
  intros E. inversion E as [[Ha Hs]].
  apply N2Z.inj in Ha.
  assert (a = b)
    by (rewrite <- (ascii_N_embedding a), <- (ascii_N_embedding b), Ha; reflexivity).
  subst b. f_equal. apply IH. exact Hs.
Qed.

Lemma str_of_int_inj n m : str_of_int n = str_of_int m -> n = m.
Proof.
  unfold str_of_int. intros E. apply py_inj in E.
  apply DecimalZ.to_int_inj.
  pose proof (DecimalString.NilEmpty.isi (Z.to_int n)) as Hn.
  pose proof (DecimalString.NilEmpty.isi (Z.to_int m)) as Hm.
  rewrite E in Hn. rewrite Hn in Hm. congruence.
Qed.

Lemma startswith_spec s p : startswith s p = true <-> exists q, s = p ++ q.
Proof.
  revert s. induction p as [|y p IH]; intros s; cbn [startswith].
  - split; [intros _; exists s; reflexivity | reflexivity].
  - destruct s as [|x s].
    + split; [discriminate | intros [q E]; discriminate E].
    + rewrite andb_true_iff, Z.eqb_eq, IH. split.
      * intros [-> [q ->]]. exists q. reflexivity.
      * intros [q E]. inversion E. split; [reflexivity | exists q; reflexivity].
Qed.

Lemma contains_eq s sub :
  contains s sub
  = startswith s sub || match s with [] => false | _ :: s' => contains s' sub end.
Proof. destruct s; reflexivity. Qed.

(** [sub in s] holds exactly when [sub] occurs in [s]. *)
Lemma contains_spec s sub : contains s sub = true <-> exists p q, s = p ++ sub ++ q.
Proof.
  induction s as [|x s IH]; rewrite contains_eq, orb_true_iff, startswith_spec.
  - split.
    + intros [[q E] | E]; [exists [], q; exact E | discriminate E].
    + intros (p & q & E). left. destruct p as [|? ?]; [exists q; exact E | discriminate E].
  - rewrite IH. split.
    + intros [[q E] | (p & q & E)];
        [exists [], q; exact E | exists (x :: p), q; rewrite E; reflexivity].
    + intros (p & q & E). destruct p as [|y p].
      * left. exists q. exact E.
      * right. inversion E. exists p, q. reflexivity.
Qed.

(** What [lstrip] and [rstrip] drop and what they leave. *)
Lemma lstrip_spec drop s :
  exists dropped,
    s = dropped ++ lstrip drop s
    /\ Forall (fun c => drop c = true) dropped
    /\ match lstrip drop s with [] => True | c :: _ => drop c = false end.
Proof.
  induction s as [|c s (d & E & Hd & Hh)]; cbn [lstrip].
  - exists []. repeat split. constructor.
  - destruct (drop c) eqn:Ec.
    + exists (c :: d). cbn [app]. rewrite <- E.
      repeat split; [constructor; assumption | exact Hh].
    + exists []. repeat split; [constructor | exact Ec].
Qed.

Lemma rstrip_spec drop s :
  exists dropped,
    s = rstrip drop s ++ dropped
    /\ Forall (fun c => drop c = true) dropped
    /\ forall init c, rstrip drop s = init ++ [c] -> drop c = false.
Proof.
  unfold rstrip. destruct (lstrip_spec drop (rev s)) as (d & E & Hd & Hh).
  exists (rev d). split; [|split].
  - rewrite <- rev_app_distr, <- E, rev_involutive. reflexivity.
  - apply Forall_rev. exact Hd.
  - intros init c Ei. apply (f_equal (@rev Z)) in Ei.
    rewrite rev_involutive, rev_app_distr in Ei. cbn [rev app] in Ei.
    rewrite Ei in Hh. exact Hh.
Qed.

(** Known answers for the functions of [str], the listing and the report
    of [main]. *)
Example str_of_int_examples :
  map str_of_int [0; 7; 10; 203; -5] = map py ["0"; "7"; "10"; "203"; "-5"]%string.
Proof. reflexivity. Qed.

Example strip_example : strip ([9] ++ py "  a b " ++ [10; 0xA0]) = py "a b".
Proof. reflexivity. Qed.

Example resolve_url_examples :
  map (resolve_url (py "https://example.com/a//"))
      (map py ["https://cdn.test/x"; "/b/c"; "d"; ""; "httpd.html"]%string)
  = map py ["https://cdn.test/x"; "https://example.com/a/b/c"; "https://example.com/a/d";
            "https://example.com/a/"; "httpd.html"]%string.
Proof. reflexivity. Qed.

Example list_targets_example :
  fst (list_targets (ADAPTERS (fun _ => Page_items [])) (py "example")
         (example_world empty_db no_fault))
  = Ok [ [10] ++ py "Example Targets (2 total):" ++ [10];
         py "  + target-a                  [example] Target A";
         py "  + target-b                  [mysite] Target B";
         [10] ++ py "Available adapters: example" ].
Proof. reflexivity. Qed.

Example report_example :
  report (py "target-a")
    [ (py "status", VStr (py "empty")); (py "target", VStr (py "Target A"));
      (py "items", VInt 0) ]
  = (SystemExit 1, [ [10] ++ py "::notice::Scraped Target A: 0 items [unknown]" ]).
Proof. reflexivity. Qed.

(** ** core/compress.py: the compressed form *)

Lemma b64_char_alphabet n : 0 <= n < 64 -> is_base64_char (b64_char n) = true.
Proof. intros Hn. unfold is_base64_char. rewrite (b64_index_char n Hn). reflexivity. Qed.

(** [b64encode] gives groups of four characters of the alphabet, the last
    group padded. *)
Lemma b64encode_shape bs :
  is_bytes bs ->
  Forall (fun ch => is_base64_char ch = true) (b64encode bs)
  /\ exists groups, length (b64encode bs) = (4 * groups)%nat.
Proof.
  unfold is_bytes.
  induction bs as [|a|a b|a b c l IH] using list_ind3; intros Hb.
  - split; [constructor | exists 0%nat; reflexivity].
  - inversion Hb; subst. cbn [b64encode]. split; [|exists 1%nat; reflexivity].
    repeat constructor; try (apply b64_char_alphabet; arith).
  - inversion Hb as [|? ? Ha Hb']; subst. inversion Hb'; subst. cbn [b64encode].
    split; [|exists 1%nat; reflexivity].
    repeat constructor; try (apply b64_char_alphabet; arith).
  - inversion Hb as [|? ? Ha Hb']; subst. inversion Hb' as [|? ? Hb2 Hb'']; subst.
    inversion Hb'' as [|? ? Hc Hl]; subst.
    destruct (IH Hl) as [Hall [n Hn]].
    rewrite b64encode_3. split.
    + repeat (apply Forall_cons; [apply b64_char_alphabet; arith|]). exact Hall.
    + exists (S n). cbn [length]. rewrite Hn. lia.
Qed.

Lemma str_encode_surrogate s :
  Exists (fun c => is_surrogate c = true) s ->
  str_encode s = Raise (Exn UnicodeEncodeError (py "surrogates not allowed")).
Proof.
  induction s as [|c s IH]; intros Hex; [inversion Hex|].
  cbn [str_encode].
  destruct (utf8_encode_char c) as [bs|] eqn:Hc; [|reflexivity].
  inversion Hex as [? ? Hs | ? ? Hs]; subst.
  - apply utf8_encode_char_scalar in Hc. destruct Hc as [_ Hc]. congruence.
  - rewrite (IH Hs). reflexivity.
Qed.

Section CompressedForm.

Variable lz4_frame_compress : bytes -> bytes.
Variable lz4_frame_decompress : bytes -> result bytes.

Hypothesis lz4_frame_bytes :
  forall b, is_bytes b -> is_bytes (lz4_frame_compress b).
Hypothesis lz4_frame_nonempty :
  forall b, lz4_frame_compress b <> [].
Hypothesis lz4_frame_roundtrip :
  forall b, is_bytes b -> lz4_frame_decompress (lz4_frame_compress b) = Ok b.

(** What [compress_text] returns: the base64 of the frame of the UTF-8 of
    the text. *)
Lemma compress_text_value x c :
  compress_text lz4_frame_compress x = Ok c -> x <> [] ->
  exists raw, str_encode x = Ok raw /\ is_bytes raw
              /\ c = b64encode (lz4_frame_compress raw).
Proof.
  intros Hc Hne.
  destruct (str_encode_decode x (compress_text_returns_on_text _ _ _ Hc))
    as (raw & He & Hb & _).
  exists raw. split; [exact He|]. split; [exact Hb|].
  destruct x as [|c0 x]; [contradiction|].
  unfold compress_text in Hc. rewrite He in Hc. cbn [bindR] in Hc.
  rewrite ascii_decode in Hc by (apply b64encode_ascii, lz4_frame_bytes; exact Hb).
  congruence.
Qed.

(** X1. What [compress_text] returns for a text that is not empty is not
    empty, is made of the characters of the base64 alphabet and the padding
    sign only, and has a length that is a multiple of four. *)
Theorem compress_text_base64 x c :
  compress_text lz4_frame_compress x = Ok c -> x <> [] ->
  c <> []
  /\ Forall (fun ch => is_base64_char ch = true) c
  /\ exists groups, length c = (4 * groups)%nat.
Proof.
  intros Hc Hne.
  destruct (compress_text_value x c Hc Hne) as (raw & _ & Hb & ->).
  split.
  - apply b64encode_nonempty, lz4_frame_nonempty.
  - apply b64encode_shape, lz4_frame_bytes. exact Hb.
Qed.

End CompressedForm.

(** X2. On a string that holds a surrogate, [compress_text] raises
    [UnicodeEncodeError]; in the item loop such an item fails before the
    store is called. *)
Theorem compress_text_surrogate lz4_frame_compress x :
  Exists (fun c => is_surrogate c = true) x ->
  compress_text lz4_frame_compress x
  = Raise (Exn UnicodeEncodeError (py "surrogates not allowed"))
  /\ (forall lower source_id adapter_name item w,
         raw_text item = x ->
         process_item lower lz4_frame_compress source_id adapter_name item w
         = (Raise (Exn UnicodeEncodeError (py "surrogates not allowed")), w)).
Proof.
  intros Hex.
  assert (Hc : compress_text lz4_frame_compress x
               = Raise (Exn UnicodeEncodeError (py "surrogates not allowed"))).
  { destruct x as [|c0 x]; [inversion Hex|].
    unfold compress_text. rewrite (str_encode_surrogate _ Hex). reflexivity. }
  split; [exact Hc|].
  intros lower source_id adapter_name item w <-.
  rewrite process_item_outcome, Hc. reflexivity.
Qed.

(** ** core/categorize.py: the default category, the maximum, the tags *)

(** The tags the loop collects: for each category but the default one, in
    the order of the table, the first three of its keywords found. *)
Lemma categorize_loop_tags combined entries :
  forall tags best max,
    snd (categorize_loop entries combined tags best max)
    = tags ++ flat_map (fun entry =>
                          if str_eqb (fst entry) (py "general") then []
                          else firstn 3 (keyword_matches combined (snd entry)))
                       entries.
Proof.
  induction entries as [|[c k] rest IH]; intros tags best max;
    cbn [categorize_loop flat_map fst snd].
  - symmetry. apply app_nil_r.
  - destruct (str_eqb c (py "general")); [apply IH|].
    destruct (keyword_matches combined k) as [|m ms] eqn:Em; [apply IH|].
    destruct (Nat.ltb max (length (m :: ms))); rewrite IH, <- app_assoc; reflexivity.
Qed.

Lemma existsb_str_eqb t l : existsb (str_eqb t) l = true <-> In t l.
Proof.
  rewrite existsb_exists. split.
  - intros (x & Hx & E). apply str_eqb_eq in E. subst x. exact Hx.
  - intros H. exists t. split; [exact H | apply str_eqb_refl].
Qed.

(** [list(set(tags))] holds the same strings, each once. *)
Lemma list_set_spec tags :
  NoDup (list_set tags) /\ (forall t, In t (list_set tags) <-> In t tags)
  /\ (length (list_set tags) <= length tags)%nat.
Proof.
  induction tags as [|t rest (Hn & Hi & Hl)]; cbn [list_set].
  - repeat split; auto. constructor.
  - destruct (existsb (str_eqb t) rest) eqn:E.
    + apply existsb_str_eqb in E. repeat split; [exact Hn | | | cbn [length]; lia].
      * intros H. right. apply Hi. exact H.
      * intros [<- | H]; apply Hi; assumption.
    + assert (Hnot : ~ In t rest).
      { intros H. apply existsb_str_eqb in H. congruence. }
      repeat split.
      * constructor; [rewrite Hi; exact Hnot | exact Hn].
      * intros [<- | H]; [left; reflexivity | right; apply Hi; exact H].
      * intros [<- | H]; [left; reflexivity | right; apply Hi; exact H].
      * cbn [length]. lia.
Qed.

Lemma in_firstn {A} n (x : A) l : In x (firstn n l) -> In x l.
Proof.
  intros H. rewrite <- (firstn_skipn n l). apply in_or_app. left. exact H.
Qed.

Lemma match_count_zero combined k :
  match_count combined k = 0%nat <-> keyword_matches combined k = [].
Proof. unfold match_count. apply length_zero_iff_nil. Qed.

Section CategorizeResult.

Variable lower : pystr -> pystr.
Variable table : list (pystr * list pystr).

(** X4. The category is "general" exactly when no keyword of another
    category occurs in the lowered title and text, and exactly then there is
    no tag. *)
Theorem categorize_default title text :
  let combined := lower (title ++ py " " ++ firstn 2000 text) in
  let nothing_found :=
    forall c k kw, In (c, k) table -> c <> py "general" -> In kw k ->
                   contains combined kw = false in
  (fst (categorize_with lower table title text) = py "general" <-> nothing_found)
  /\ (snd (categorize_with lower table title text) = [] <-> nothing_found).
Proof.
  intros combined nothing_found.
  assert (Hnf : nothing_found <->
                forall c k, In (c, k) table -> c <> py "general" ->
                            keyword_matches combined k = []).
  { unfold nothing_found, keyword_matches. split.
    - intros H c k Hin Hc.
      destruct (filter (fun kw => contains combined kw) k) as [|kw l] eqn:Ef; [reflexivity|].
      assert (Hkw : In kw (filter (fun kw => contains combined kw) k))
        by (rewrite Ef; left; reflexivity).
      apply filter_In in Hkw. destruct Hkw as [Hk Hc'].
      rewrite (H c k kw Hin Hc Hk) in Hc'. discriminate.
    - intros H c k kw Hin Hc Hk.
      destruct (contains combined kw) eqn:Ec; [|reflexivity].
      assert (Hkw : In kw (filter (fun kw => contains combined kw) k))
        by (apply filter_In; split; assumption).
      rewrite (H c k Hin Hc) in Hkw. destruct Hkw. }
  unfold categorize_with. fold combined.
  pose proof (categorize_loop_winner combined table [] (py "general") 0) as Hw.
  pose proof (categorize_loop_tags combined table [] (py "general") 0) as Ht.
  cbn zeta in Hw.
  destruct (categorize_loop table combined [] (py "general") 0) as [b tags].
  cbn [fst snd app] in *. split.
  - rewrite Hnf. split.
    + intros ->. destruct Hw as [[_ Hall] | (l1 & c & k & l2 & _ & Hc & Hb & _)];
        [|congruence].
      intros c k Hin Hc. apply match_count_zero. specialize (Hall c k Hin Hc). lia.
    + intros Hall. destruct Hw as [[Hb _] | (l1 & c & k & l2 & E & Hc & _ & Hlt & _)];
        [exact Hb|].
      exfalso. assert (Hin : In (c, k) table)
        by (rewrite E; apply in_or_app; right; left; reflexivity).
      specialize (Hall c k Hin Hc). apply match_count_zero in Hall. lia.
  - destruct (list_set_spec tags) as (_ & Hi & _).
    assert (Hempty : list_set tags = [] <-> tags = []).
    { split; intros E.
      - destruct tags as [|t l]; [reflexivity|]. exfalso.
        assert (In t (list_set (t :: l))) as H by (apply Hi; left; reflexivity).
        rewrite E in H. destruct H.
      - rewrite E. reflexivity. }
    rewrite Hempty, Hnf, Ht. clear. split.
    + intros E c k Hin Hc.
      destruct (keyword_matches combined k) as [|m ms] eqn:Em; [reflexivity|]. exfalso.
      assert (Hm : In m (flat_map (fun entry =>
                          if str_eqb (fst entry) (py "general") then []
                          else firstn 3 (keyword_matches combined (snd entry))) table)).
      { apply in_flat_map. exists (c, k). split; [exact Hin|]. cbn [fst snd].
        destruct (str_eqb c (py "general")) eqn:Eg; [apply str_eqb_eq in Eg; contradiction|].
        rewrite Em. left. reflexivity. }
      rewrite E in Hm. destruct Hm.
    + intros Hall. induction table as [|[c k] rest IH]; [reflexivity|].
      cbn [flat_map fst snd].
      rewrite IH by (intros c0 k0 Hin; apply Hall; right; exact Hin).
      destruct (str_eqb c (py "general")) eqn:Eg; [reflexivity|].
      rewrite (Hall c k); [reflexivity | left; reflexivity |].
      intros ->. rewrite str_eqb_refl in Eg. discriminate.
Qed.

(** X5. A category other than "general" that is returned is a key of the
    table, at least one of its keywords occurs, and no category has more
    keywords occurring than it has. *)
Theorem categorize_best_is_max title text :
  let combined := lower (title ++ py " " ++ firstn 2000 text) in
  let best := fst (categorize_with lower table title text) in
  best = py "general"
  \/ exists keywords,
       In (best, keywords) table
       /\ (0 < match_count combined keywords)%nat
       /\ forall c k, In (c, k) table -> c <> py "general" ->
                      (match_count combined k <= match_count combined keywords)%nat.
Proof.
  intros combined. unfold categorize_with. fold combined.
  pose proof (categorize_loop_winner combined table [] (py "general") 0) as Hw.
  cbn zeta in Hw.
  destruct (categorize_loop table combined [] (py "general") 0) as [b tags].
  cbn [fst] in *.
  destruct Hw as [[Hb _] | (l1 & c & k & l2 & E & Hc & Hb & Hlt & Hl1 & Hl2)];
    [left; exact Hb | right].
  exists k. subst b. split; [rewrite E; apply in_or_app; right; left; reflexivity|].
  split; [lia|].
  intros c' k' Hin Hc'. rewrite E in Hin. apply in_app_or in Hin.
  destruct Hin as [Hin | [[= <- <-] | Hin]].
  - specialize (Hl1 c' k' Hin Hc'). lia.
  - lia.
  - exact (Hl2 c' k' Hin Hc').
Qed.

(** X6. No tag is returned twice; a string is a tag exactly when it is
    among the first three keywords found of a category other than
    "general"; so every tag occurs in the lowered title and text, and a table
    of [n] categories gives [3 * n] tags at most. *)
Theorem categorize_tags title text :
  let combined := lower (title ++ py " " ++ firstn 2000 text) in
  let tags := snd (categorize_with lower table title text) in
  NoDup tags
  /\ (forall t,
        In t tags <->
        exists c k, In (c, k) table /\ c <> py "general"
                    /\ In t (firstn 3 (keyword_matches combined k)))
  /\ (forall t, In t tags -> contains combined t = true)
  /\ (length tags <= 3 * length table)%nat.
Proof.
  intros combined. unfold categorize_with. fold combined.
  pose proof (categorize_loop_tags combined table [] (py "general") 0) as Ht.
  destruct (categorize_loop table combined [] (py "general") 0) as [b tags].
  cbn [fst snd app] in *.
  destruct (list_set_spec tags) as (Hn & Hi & Hl).
  assert (Hchar : forall t,
            In t (list_set tags) <->
            exists c k, In (c, k) table /\ c <> py "general"
                        /\ In t (firstn 3 (keyword_matches combined k))).
  { intros t. rewrite Hi, Ht, in_flat_map. split.
    - intros ([c k] & Hin & Hk). cbn [fst snd] in Hk.
      destruct (str_eqb c (py "general")) eqn:Eg; [destruct Hk|].
      exists c, k. repeat split; try assumption.
      intros ->. rewrite str_eqb_refl in Eg. discriminate.
    - intros (c & k & Hin & Hc & Hk). exists (c, k). split; [exact Hin|].
      cbn [fst snd].
      destruct (str_eqb c (py "general")) eqn:Eg; [apply str_eqb_eq in Eg; contradiction|].
      exact Hk. }
  split; [exact Hn|]. split; [exact Hchar|]. split.
  - intros t Hin. apply Hchar in Hin. destruct Hin as (c & k & _ & _ & Hk).
    apply in_firstn in Hk. unfold keyword_matches in Hk. apply filter_In in Hk. tauto.
  - eapply Nat.le_trans; [exact Hl|]. rewrite Ht. clear.
    induction table as [|[c k] rest IH]; cbn [flat_map length fst snd]; [lia|].
    rewrite length_app.
    assert (length (if str_eqb c (py "general") then []
                    else firstn 3 (keyword_matches combined k)) <= 3)%nat.
    { destruct (str_eqb c (py "general")); [cbn [length]; lia|]. apply firstn_le_length. }
    lia.
Qed.

(** X7. Of the text only the first 2000 characters are read: what follows
    them has no part in the result. *)
Theorem categorize_reads_prefix title text more :
  (2000 <= length text)%nat ->
  categorize_with lower table title (text ++ more) = categorize_with lower table title text.
Proof.
  intros Hlen. unfold categorize_with.
  rewrite firstn_app.
  replace (2000 - length text)%nat with 0%nat by lia.
  cbn [firstn]. rewrite app_nil_r. reflexivity.
Qed.

End CategorizeResult.

(** ** core/db.py: errors, reads, and what a write adds *)

(** X8. Without [DATABASE_URL], or with an empty one, every function of
    [db.py] raises the [ValueError] of [get_db_connection]: no connection is
    opened and the tables are not touched. *)
Theorem DATABASE_URL_required w :
  w_DATABASE_URL w = None \/ w_DATABASE_URL w = Some [] ->
  let e := Exn ValueError (py "DATABASE_URL environment variable not set") in
  (forall name, source_exists name w = (Raise e, log (Call_source_exists name) w))
  /\ (forall name, get_source_id name w = (Raise e, log (Call_get_source_id name) w))
  /\ (forall name slug category metadata source_url adapter,
        insert_source name slug category metadata source_url adapter w
        = (Raise e, log (Call_insert_source name) w))
  /\ (forall source_id number title category summary full_text tags source_url adapter,
        insert_item source_id number title category summary full_text tags
          source_url adapter w
        = (Raise e, log (Call_insert_item source_id number) w))
  /\ (forall source_id,
        get_item_count source_id w = (Raise e, log (Call_get_item_count source_id) w)).
Proof.
  intros Hurl e.
  assert (Hconn : forall ev, get_db_connection (log ev w) = (Raise e, log ev w)).
  { intros ev. unfold get_db_connection. world_fields.
    destruct Hurl as [-> | ->]; reflexivity. }
  repeat split; intros;
    unfold source_exists, get_source_id, insert_source, insert_item, get_item_count;
    unfold bind at 1; unfold trace, call; unfold bind at 1; rewrite Hconn; reflexivity.
Qed.

(** One call of [db.py], whatever the store meets: a statement that does not
    change the tables leaves them as they were; a call that raises has
    committed nothing. *)
Lemma run_reading_statement {A} ev (query : Database -> A) w :
  w_db (snd ((trace ev ;; conn <- get_db_connection ;;
              execute conn (fun _ db => (db, query db))) w)) = w_db w.
Proof.
  pose proof (run_statement_tables ev (fun _ db => (db, query db)) w) as H.
  destruct ((trace ev ;; conn <- get_db_connection ;;
             execute conn (fun _ db => (db, query db))) w) as [[a|e] w'];
    cbn [snd]; [|exact H].
  destruct H as [env H]. congruence.
Qed.

Lemma source_exists_tables name w : w_db (snd (source_exists name w)) = w_db w.
Proof.
  pose proof (run_reading_statement (Call_source_exists name)
                (select_source_id name) w) as H.
  unfold source_exists. revert H.
  unfold bind, trace, call, get_db_connection, execute, ret. world_fields.
  destruct (w_DATABASE_URL w) as [[|c url]|]; try (intros _; reflexivity).
  destruct (env_fault (w_db_env w (w_db_calls w))) as [[msg|msg]|] eqn:Ef;
    world_fields; rewrite ?Ef; intros H; exact H.
Qed.

(** X9. [source_exists], [get_source_id] and [get_item_count] change no
    table, whatever they return or raise; [insert_source] and [insert_item]
    have changed none when they raise. *)
Theorem tables_change_by_writes_only w :
  (forall name, w_db (snd (source_exists name w)) = w_db w)
  /\ (forall name, w_db (snd (get_source_id name w)) = w_db w)
  /\ (forall source_id, w_db (snd (get_item_count source_id w)) = w_db w)
  /\ (forall name slug category metadata source_url adapter e w',
        insert_source name slug category metadata source_url adapter w = (Raise e, w') ->
        w_db w' = w_db w)
  /\ (forall source_id number title category summary full_text tags source_url adapter
             e w',
        insert_item source_id number title category summary full_text tags
          source_url adapter w = (Raise e, w') ->
        w_db w' = w_db w).
Proof.
  split; [|split; [|split; [|split]]].
  - intros name. apply source_exists_tables.
  - intros name. apply run_reading_statement.
  - intros source_id. apply run_reading_statement.
  - intros name slug category metadata source_url adapter e w' E.
    pose proof (run_statement_tables (Call_insert_source name)
                  (upsert_source name slug category metadata source_url adapter) w) as H.
    unfold insert_source in E. rewrite E in H. exact H.
  - intros source_id number title category summary full_text tags source_url adapter
           e w' E.
    pose proof (run_statement_tables (Call_insert_item source_id number)
                  (upsert_item source_id number title category summary tags full_text
                     source_url (JObj [(py "adapter", JStr adapter)])) w) as H.
    unfold insert_item in E. rewrite E in H. exact H.
Qed.

Lemma select_source_id_absent name db :
  ~ In name (map Source_name (Source db)) -> select_source_id name db = None.
Proof.
  intros Hn. unfold select_source_id.
  destruct (find (has_name name) (Source db)) as [r|] eqn:Ef; [|reflexivity].
  apply find_some in Ef. destruct Ef as [Hin Hr]. apply has_name_iff in Hr.
  exfalso. apply Hn. rewrite <- Hr. apply in_map. exact Hin.
Qed.

(** X10. [insert_source] for a name no Source row has adds one row to the
    table, after the others: it holds the arguments of the call, a new id,
    which is returned, and the time of the call in [createdAt], [updatedAt]
    and [lastScraped]. No other row and no Item row changes. *)
Theorem insert_source_creates w name slug category metadata source_url adapter :
  ~ In name (map Source_name (Source (w_db w))) ->
  db_available w ->
  exists w',
    insert_source name slug category metadata source_url adapter w
    = (Ok (env_uuid (w_db_env w (w_db_calls w))), w')
    /\ Source (w_db w')
       = Source (w_db w)
         ++ [ {| Source_id := env_uuid (w_db_env w (w_db_calls w));
                 Source_createdAt := env_now (w_db_env w (w_db_calls w));
                 Source_updatedAt := env_now (w_db_env w (w_db_calls w));
                 Source_name := name;
                 Source_slug := slug;
                 Source_category := category;
                 Source_metadata := metadata;
                 Source_sourceUrl := source_url;
                 Source_adapter := adapter;
                 Source_lastScraped := env_now (w_db_env w (w_db_calls w)) |} ]
    /\ Item (w_db w') = Item (w_db w).
Proof.
  intros Hn Hav. eexists. split.
  - unfold insert_source. rewrite run_statement by exact Hav.
    unfold upsert_source. rewrite (select_source_id_absent _ _ Hn). cbn [fst snd].
    reflexivity.
  - cbn [w_db set_db Source Item]. split; reflexivity.
Qed.

(** X11. After [insert_source] has returned an id for a name,
    [source_exists] answers [True] for the name and [get_source_id] returns
    that id. *)
Theorem insert_source_then_lookup w w1 name slug category metadata source_url adapter id :
  insert_source name slug category metadata source_url adapter w = (Ok id, w1) ->
  db_available_for 2 w1 ->
  exists w2 w3,
    source_exists name w1 = (Ok true, w2)
    /\ get_source_id name w2 = (Ok (Some id), w3)
    /\ w_db w3 = w_db w1.
Proof.
  intros Hins Hav.
  pose proof (run_statement_tables (Call_insert_source name)
                (upsert_source name slug category metadata source_url adapter) w) as Ht.
  unfold insert_source in Hins. rewrite Hins in Ht. destruct Ht as [env Ht].
  symmetry in Ht. apply upsert_source_select in Ht.
  eexists _, _. split; [|split].
  - rewrite (run_source_exists _ _ (db_available_for_S _ _ Hav)), Ht. reflexivity.
  - unfold get_source_id. rewrite run_statement.
    + cbn [fst snd w_db set_db_calls log]. rewrite Ht. reflexivity.
    + apply (db_available_for_S 0). apply (db_available_for_next _ w1); auto.
  - reflexivity.
Qed.

Lemma count_overwritten id (g : ItemRow -> ItemRow) (p : ItemRow -> bool) l :
  (forall r, Item_sourceId (g r) = Item_sourceId r) ->
  length (filter (fun r => Item_sourceId r =? id) (map (fun r => if p r then g r else r) l))
  = length (filter (fun r => Item_sourceId r =? id) l).
Proof.
  intros Hg. induction l as [|r l IH]; [reflexivity|].
  cbn [map filter].
  replace (Item_sourceId (if p r then g r else r)) with (Item_sourceId r)
    by (destruct (p r); [rewrite Hg|]; reflexivity).
  destruct (Item_sourceId r =? id); cbn [length]; rewrite IH; reflexivity.
Qed.

(** What [upsert_item] does to the count of a source. *)
Lemma upsert_item_count source_id number title category summary tags full_text
    source_url metadata env db id :
  count_items (Some id)
    (fst (upsert_item source_id number title category summary tags full_text
            source_url metadata env db))
  = count_items (Some id) db
    + (if existsb (has_key source_id number) (Item db) then 0
       else if source_id =? id then 1 else 0).
Proof.
  unfold upsert_item, count_items.
  destruct (existsb (has_key source_id number) (Item db)); cbn [fst Item].
  - rewrite count_overwritten by reflexivity. lia.
  - rewrite filter_app, length_app. cbn [filter Item_sourceId].
    destruct (source_id =? id); cbn [length]; lia.
Qed.

(** X12. [insert_item] for a pair [(source_id, number)] that no Item row has
    raises what [get_item_count] returns for [source_id] by one; for a pair
    that a row has it leaves the count as it is. The count of any other
    source stays the same in both cases. *)
Theorem insert_item_count w w1 w2 source_id number title category summary full_text
    tags source_url adapter other n m :
  get_item_count (Some source_id) w = (Ok n, w1) ->
  get_item_count (Some other) w1 = (Ok m, w2) ->
  other <> source_id ->
  db_available_for 3 w2 ->
  exists w3 w4 w5,
    insert_item source_id number title category summary full_text tags
      source_url adapter w2 = (Ok tt, w3)
    /\ get_item_count (Some source_id) w3
       = (Ok (if existsb (has_key source_id number) (Item (w_db w)) then n else n + 1), w4)
    /\ get_item_count (Some other) w4 = (Ok m, w5).
Proof.
  intros Hn Hm Hother Hav.
  assert (Hcount : forall id w0 k w0',
            get_item_count (Some id) w0 = (Ok k, w0') ->
            k = count_items (Some id) (w_db w0) /\ w_db w0' = w_db w0).
  { intros id w0 k w0' E.
    pose proof (run_statement_tables (Call_get_item_count (Some id))
                  (fun _ db => (db, count_items (Some id) db)) w0) as H.
    unfold get_item_count in E. rewrite E in H. destruct H as [env H].
    inversion H. split; reflexivity. }
  destruct (Hcount _ _ _ _ Hn) as [-> Hdb1].
  destruct (Hcount _ _ _ _ Hm) as [-> Hdb2].
  set (w3 := snd (insert_item source_id number title category summary full_text tags
                    source_url adapter w2)).
  assert (Hins : insert_item source_id number title category summary full_text tags
                   source_url adapter w2 = (Ok tt, w3)).
  { unfold w3, insert_item. rewrite run_statement by exact (db_available_for_S _ _ Hav).
    cbn [snd]. f_equal. f_equal.
    destruct (snd (upsert_item _ _ _ _ _ _ _ _ _ _ _)). reflexivity. }
  assert (Hdb3 : w_db w3
                 = fst (upsert_item source_id number title category summary tags full_text
                          source_url (JObj [(py "adapter", JStr adapter)])
                          (w_db_env w2 (w_db_calls w2)) (w_db w2))).
  { unfold w3, insert_item. rewrite run_statement by exact (db_available_for_S _ _ Hav).
    reflexivity. }
  assert (Hav3 : db_available_for 2 w3).
  { apply (db_available_for_next _ w2); try exact Hav;
      unfold w3, insert_item; rewrite run_statement by exact (db_available_for_S _ _ Hav);
      reflexivity. }
  set (w4 := snd (get_item_count (Some source_id) w3)).
  assert (Hav4 : db_available_for 1 w4).
  { apply (db_available_for_next _ w3); try exact Hav3;
      unfold w4, get_item_count; rewrite run_statement by exact (db_available_for_S _ _ Hav3);
      reflexivity. }
  assert (Hdb4 : w_db w4 = w_db w3).
  { unfold w4, get_item_count. rewrite run_statement by exact (db_available_for_S _ _ Hav3).
    reflexivity. }
  exists w3, w4, (snd (get_item_count (Some other) w4)).
  split; [exact Hins|]. split.
  - unfold w4, get_item_count. rewrite run_statement by exact (db_available_for_S _ _ Hav3).
    cbn [fst snd]. f_equal. f_equal.
    rewrite Hdb3, upsert_item_count, Hdb2, Hdb1, Z.eqb_refl.
    destruct (existsb (has_key source_id number) (Item (w_db w))); lia.
  - unfold get_item_count. rewrite run_statement by exact (db_available_for_S _ _ Hav4).
    cbn [fst snd]. f_equal. f_equal.
    rewrite Hdb4, Hdb3, upsert_item_count.
    destruct (Z.eqb_spec source_id other) as [E|_]; [congruence|].
    rewrite Hdb2.
    destruct (existsb (has_key source_id number) (Item (w_db w1))); lia.
Qed.

(** ** adapters/example.py *)

Lemma item_number_inj j k : item_number j = item_number k -> j = k.
Proof.
  unfold item_number. intros E. apply app_inv_head in E.
  apply str_of_int_inj in E. lia.
Qed.

Lemma extract_elements_acc url elements :
  forall i items,
    extract_elements url i elements items = items ++ extract_elements url i elements [].
Proof.
  induction elements as [|element rest IH]; intros i items; cbn [extract_elements].
  - symmetry. apply app_nil_r.
  - destruct (extract_element url i element) as [item| |message]; try apply IH.
    rewrite (IH (S i) (items ++ [item])), (IH (S i) ([] ++ [item])), <- app_assoc.
    reflexivity.
Qed.

(** What an appended item is made of. *)
Lemma extract_element_appended url i element item :
  extract_element url i element = Appended item ->
  raw_number item = item_number i
  /\ (50 < length (raw_text item))%nat
  /\ (exists inner_text, content_el element = Ok (Some inner_text)
                         /\ raw_text item = strip inner_text)
  /\ (exists title, title_el element = Ok title
                    /\ raw_title item = match title with
                                        | Some inner_text => strip inner_text
                                        | None => py "Item " ++ str_of_int (Z.of_nat i + 1)
                                        end)
  /\ (exists link, link_el element = Ok link
                   /\ match link with
                      | Some None => False
                      | Some (Some href) => raw_url item = resolve_url url href
                      | None => raw_url item = resolve_url url url
                      end).
Proof.
  unfold extract_element.
  destruct (title_el element) as [title|e]; [|discriminate].
  destruct (content_el element) as [content|e]; [|discriminate].
  destruct (link_el element) as [link|e]; [|discriminate].
  destruct (negb _ && _) eqn:Elen; [|discriminate].
  apply andb_true_iff in Elen. destruct Elen as [_ Hlen]. apply Nat.ltb_lt in Hlen.
  destruct content as [inner_text|]; [|cbn [length] in Hlen; lia].
  destruct link as [[href|]|]; try discriminate; intros [= <-];
    cbn [raw_number raw_text raw_title raw_url];
    (split; [reflexivity|]); (split; [exact Hlen|]);
    (split; [eexists; split; reflexivity|]);
    (split; [eexists; split; reflexivity|]);
    eexists; (split; [reflexivity|]); reflexivity.
Qed.

(** The items the loop appends, with the positions of their elements. *)
Lemma extract_elements_positions url elements :
  forall i,
    exists positions,
      StronglySorted lt positions
      /\ Forall (fun k => (i <= k < i + length elements)%nat) positions
      /\ Forall2 (fun k item =>
                    exists element,
                      nth_error elements (k - i) = Some element
                      /\ extract_element url k element = Appended item)
           positions (extract_elements url i elements []).
Proof.
  induction elements as [|element rest IH]; intros i.
  - exists []. repeat constructor.
  - destruct (IH (S i)) as (ps & Hs & Hr & Hi).
    assert (Hr' : Forall (fun k => (i <= k < i + length (element :: rest))%nat) ps).
    { revert Hr. apply Forall_impl. cbn [length]. intros k Hk. lia. }
    assert (Hi' : Forall2 (fun k item =>
                    exists element0,
                      nth_error (element :: rest) (k - i) = Some element0
                      /\ extract_element url k element0 = Appended item)
                    ps (extract_elements url (S i) rest [])).
    { clear - Hi Hr. induction Hi as [|k item ps items (el & Hn & He) Hi IHi];
        constructor.
      - inversion Hr; subst. exists el. split; [|exact He].
        replace (k - i)%nat with (S (k - S i)) by lia. exact Hn.
      - apply IHi. inversion Hr; assumption. }
    cbn [extract_elements].
    destruct (extract_element url i element) as [item| |message] eqn:Ee;
      try (exists ps; repeat split; assumption).
    exists (i :: ps). rewrite extract_elements_acc. cbn [app].
    split; [|split].
    + constructor; [exact Hs|]. revert Hr. apply Forall_impl. intros k Hk. lia.
    + constructor; [cbn [length]; lia | exact Hr'].
    + constructor; [|exact Hi'].
      exists element. rewrite Nat.sub_diag. split; [reflexivity | exact Ee].
Qed.

Lemma sorted_numbers_nodup positions :
  StronglySorted lt positions -> NoDup (map item_number positions).
Proof.
  induction 1 as [|k ps Hs IH Hk]; cbn [map]; constructor; [|exact IH].
  intros Hin. apply in_map_iff in Hin. destruct Hin as (j & E & Hj).
  apply item_number_inj in E. subst j.
  rewrite Forall_forall in Hk. specialize (Hk k Hj). lia.
Qed.

(** X13. The items [extract_items] appends keep the order of the elements
    they come from; each is numbered [ITEM-k] by the position [k], counted
    from 1, of its element, so that no two items have the same number; each
    has a text of more than 50 characters; there are no more items than
    elements. *)
Theorem extract_elements_numbers url elements :
  exists positions,
    map raw_number (extract_elements url 0 elements [])
    = map (fun k => py "ITEM-" ++ str_of_int (Z.of_nat k + 1)) positions
    /\ StronglySorted lt positions
    /\ Forall (fun k => (k < length elements)%nat) positions
    /\ NoDup (map raw_number (extract_elements url 0 elements []))
    /\ Forall (fun item => (50 < length (raw_text item))%nat)
         (extract_elements url 0 elements [])
    /\ (length (extract_elements url 0 elements []) <= length elements)%nat.
Proof.
  destruct (extract_elements_positions url elements 0) as (ps & Hs & Hr & Hi).
  assert (Hnum : map raw_number (extract_elements url 0 elements []) = map item_number ps).
  { clear - Hi. induction Hi as [|k item ps items (el & _ & He) _ IH]; [reflexivity|].
    cbn [map]. rewrite IH. f_equal.
    apply extract_element_appended in He. tauto. }
  assert (Hlen : length (extract_elements url 0 elements []) = length ps).
  { apply (f_equal (@length _)) in Hnum. rewrite !length_map in Hnum. exact Hnum. }
  exists ps. split; [exact Hnum|]. split; [exact Hs|]. split; [|split; [|split]].
  - revert Hr. apply Forall_impl. intros k Hk. lia.
  - rewrite Hnum. apply sorted_numbers_nodup. exact Hs.
  - clear - Hi. induction Hi as [|k item ps items (el & _ & He) _ IH]; constructor;
      [|exact IH].
    apply extract_element_appended in He. tauto.
  - rewrite Hlen. clear - Hs Hr.
    assert (Hb : forall ps i n, StronglySorted lt ps ->
                   Forall (fun k => (i <= k < i + n)%nat) ps -> (length ps <= n)%nat).
    { clear. induction ps as [|k ps IH]; intros i n Hs Hr; cbn [length]; [lia|].
      inversion Hs as [|? ? Hs' Hk]; subst. inversion Hr as [|? ? Hk0 Hr']; subst.
      destruct n as [|n]; [lia|].
      assert (length ps <= n)%nat; [|lia].
      apply (IH (S k)); [exact Hs'|].
      rewrite Forall_forall in *. intros j Hj.
      specialize (Hk j Hj). specialize (Hr' j Hj). lia. }
    exact (Hb ps 0%nat _ Hs Hr).
Qed.

Lemma all_slashes dropped :
  Forall (fun c => is_slash c = true) dropped -> dropped = repeat 47 (length dropped).
Proof.
  induction 1 as [|c d Hc _ IH]; [reflexivity|].
  cbn [length repeat]. apply Z.eqb_eq in Hc. subst c. f_equal. exact IH.
Qed.

(** X14. An item URL that starts with "http" is kept as it is. Any other is
    appended to the page URL with exactly one slash between the two: the
    slashes that end the page URL and those that begin the item URL are
    dropped first. *)
Theorem resolve_url_join url item_url :
  (startswith item_url (py "http") = true -> resolve_url url item_url = item_url)
  /\ (startswith item_url (py "http") = false ->
      exists base path n m,
        url = base ++ repeat 47 n
        /\ item_url = repeat 47 m ++ path
        /\ resolve_url url item_url = base ++ [47] ++ path
        /\ (forall init c, base = init ++ [c] -> c <> 47)
        /\ (forall c rest, path = c :: rest -> c <> 47)).
Proof.
  unfold resolve_url. split; intros E; rewrite E; [reflexivity|].
  destruct (rstrip_spec is_slash url) as (d1 & E1 & H1 & Hb).
  destruct (lstrip_spec is_slash item_url) as (d2 & E2 & H2 & Hp).
  exists (rstrip is_slash url), (lstrip is_slash item_url), (length d1), (length d2).
  rewrite <- (all_slashes d1 H1), <- (all_slashes d2 H2).
  split; [exact E1|]. split; [exact E2|]. split; [reflexivity|]. split.
  - intros init c Ei. specialize (Hb init c Ei). unfold is_slash in Hb.
    apply Z.eqb_neq. exact Hb.
  - intros c rest Ep. rewrite Ep in Hp. unfold is_slash in Hp.
    apply Z.eqb_neq. exact Hp.
Qed.

(** X15. An element whose link has no [href] gives no item, however long its
    text is, and the loop goes on with the next element. *)
Theorem extract_element_missing_href url i element :
  link_el element = Ok (Some None) ->
  (forall item, extract_element url i element <> Appended item)
  /\ (forall rest items,
         extract_elements url i (element :: rest) items
         = extract_elements url (S i) rest items).
Proof.
  intros Hl.
  assert (H : forall item, extract_element url i element <> Appended item).
  { intros item E. apply extract_element_appended in E.
    destruct E as (_ & _ & _ & _ & link & El & Hlink).
    rewrite Hl in El. injection El as <-. exact Hlink. }
  split; [exact H|].
  intros rest items. cbn [extract_elements].
  destruct (extract_element url i element) as [item| |message]; try reflexivity.
  exfalso. exact (H item eq_refl).
Qed.

(** ** main.py: configuration errors *)

Lemma find_target_absent target_id (l : list TargetConfig) :
  ~ In target_id (map cfg_id l) ->
  find (fun target => str_eqb (cfg_id target) target_id) l = None.
Proof.
  intros Hn.
  destruct (find (fun target => str_eqb (cfg_id target) target_id) l) as [t|] eqn:Ef;
    [|reflexivity].
  apply find_some in Ef. destruct Ef as [Hin Ht]. apply str_eqb_eq in Ht.
  exfalso. apply Hn. rewrite <- Ht. apply in_map. exact Hin.
Qed.

(** X17. [get_target_config] returns the first target of the region's
    configuration that has the id asked for, entries after it with the same
    id notwithstanding; it changes nothing. *)
Theorem get_target_config_first region w config before target after :
  w_config w region = Some config ->
  targets config = before ++ target :: after ->
  ~ In (cfg_id target) (map cfg_id before) ->
  get_target_config (cfg_id target) region w = (Ok target, w).
Proof.
  intros Hc Ht Hn. unfold get_target_config, bind, load_config. rewrite Hc, Ht.
  rewrite (find_split _ before target after); [reflexivity | | apply str_eqb_refl].
  apply find_none_forall. apply find_target_absent. exact Hn.
Qed.

Section ConfigErrors.

Variable lower : pystr -> pystr.
Variable lz4_frame_compress : bytes -> bytes.
Variable registry : list (pystr * BaseAdapter).


End ConfigErrors.

(** ** main.py: the calls of a run, in their order *)

(** A call of [db.py] records itself, whatever it meets. *)
Lemma db_call_trace {A} ev (stmt : DbEnv -> Database -> Database * A) w :
  w_trace (snd ((trace ev ;; conn <- get_db_connection ;; execute conn stmt) w))
  = w_trace w ++ [ev].
Proof.
  unfold bind, trace, call, get_db_connection, execute. world_fields.
  destruct (w_DATABASE_URL w) as [[|c url]|]; try reflexivity.
  destruct (env_fault (w_db_env w (w_db_calls w))) as [[msg|msg]|] eqn:Ef;
    world_fields; rewrite ?Ef; try reflexivity.
  destruct (stmt (w_db_env w (w_db_calls w)) (w_db w)). reflexivity.
Qed.

Lemma source_exists_trace name w :
  w_trace (snd (source_exists name w)) = w_trace w ++ [Call_source_exists name].
Proof.
  pose proof (db_call_trace (Call_source_exists name)
                (fun _ db => (db, select_source_id name db)) w) as H.
  revert H. unfold source_exists, bind, trace, call, get_db_connection, execute, ret.
  world_fields.
  destruct (w_DATABASE_URL w) as [[|c url]|]; try (intros H; exact H).
  destruct (env_fault (w_db_env w (w_db_calls w))) as [[msg|msg]|] eqn:Ef;
    world_fields; rewrite ?Ef; intros H; exact H.
Qed.

Section Calls.

Variable lower : pystr -> pystr.
Variable lz4_frame_compress : bytes -> bytes.
Variable registry : list (pystr * BaseAdapter).

(** The item loop calls [insert_item] for the items whose text encodes, and
    makes no other call. *)
Lemma process_items_trace source_id adapter_name items :
  forall success_count error_count w,
    w_trace (snd (process_items lower lz4_frame_compress source_id adapter_name items
                    success_count error_count w))
    = w_trace w ++ insert_item_calls lz4_frame_compress source_id items.
Proof.
  unfold insert_item_calls.
  induction items as [|item rest IH]; intros s e w; cbn [process_items filter map].
  - symmetry. apply app_nil_r.
  - unfold bind at 1. unfold try_except. unfold bind at 1.
    rewrite process_item_outcome. unfold text_encodes.
    destruct (compress_text lz4_frame_compress (raw_text item)) as [c|ex].
    + pose proof (db_call_trace (Call_insert_item source_id (raw_number item))
                    (upsert_item source_id (raw_number item) (raw_title item)
                       (fst (categorize_content lower (raw_title item) (raw_text item)))
                       (make_summary (raw_text item))
                       (snd (categorize_content lower (raw_title item) (raw_text item)))
                       c (raw_url item) (JObj [(py "adapter", JStr adapter_name)])) w) as Ht.
      unfold insert_item.
      destruct ((trace (Call_insert_item source_id (raw_number item)) ;;
                 conn <- get_db_connection ;; execute conn _) w) as [[[]|ex] w1];
        cbn [snd] in Ht; unfold ret at 1; cbv beta iota; unfold any_Exception;
        cbn [fst snd map]; rewrite IH, Ht, <- app_assoc; reflexivity.
    + unfold any_Exception, ret at 1. cbv beta iota. cbn [fst snd]. apply IH.
Qed.

(** X19. When the adapter does not accept the URL of the target, the run
    returns status [error] with the message "URL validation failed";
    [extract_items] is not called and nothing is written. *)
Theorem scrape_target_url_rejected target_id force region w w1 target adapter :
  get_target_config target_id region w = (Ok target, w) ->
  not_skipped force (cfg_name target) w w1 ->
  get_adapter registry (target_source target) = Ok adapter ->
  validate_url adapter (cfg_url target) = false ->
  exists w',
    scrape_target lower lz4_frame_compress registry target_id force region w
    = (Ok [ (py "status", VStr (py "error"));
            (py "target", VStr (cfg_name target));
            (py "error", VStr (py "URL validation failed")) ], w')
    /\ w_db w' = w_db w
    /\ w_trace w'
       = w_trace w ++ (if force then [] else [Call_source_exists (cfg_name target)])
         ++ [ Call_get_adapter (target_source target);
              Call_validate_url (SOURCE_NAME adapter) (cfg_url target) ].
Proof.
  intros Hcfg Hns Had Hval. eexists. split.
  - unfold scrape_target. unfold bind at 1. rewrite Hcfg.
    unfold bind at 1. unfold not_skipped in Hns. rewrite Hns.
    unfold bind at 1. unfold try_except, call. unfold bind at 1. rewrite Had.
    unfold ret at 1. cbv beta iota.
    unfold bind at 1. rewrite Hval. cbn [negb]. unfold ret. reflexivity.
  - apply not_skipped_frame in Hns. destruct Hns as [Hdb Htr].
    cbn [w_db w_trace log]. rewrite Hdb, Htr, <- !app_assoc. split; reflexivity.
Qed.

(** X20. The calls of a run come in this order, whatever the run meets:
    first the reads of the store, none of them when [force] is set; then the
    calls on the adapter; then the writes, which begin with the one
    [insert_source] of the run, all others being [insert_item]s. There is a
    write only after [extract_items] has been called. *)
Theorem scrape_target_call_order target_id force region w :
  exists reads on_adapter writes,
    w_trace (snd (scrape_target lower lz4_frame_compress registry target_id force region w))
    = w_trace w ++ reads ++ on_adapter ++ writes
    /\ Forall (fun ev => is_read ev = true) reads
    /\ (force = true -> reads = [])
    /\ Forall (fun ev => is_adapter_call ev = true) on_adapter
    /\ (writes = []
        \/ exists name inserts adapter url,
             writes = Call_insert_source name :: inserts
             /\ Forall (fun ev => is_insert_item ev = true) inserts
             /\ In (Call_extract_items adapter url) on_adapter).
Proof.
  unfold scrape_target. unfold bind at 1.
  destruct (get_target_config target_id region w) as [[target|e] w0] eqn:Hcfg;
    apply get_target_config_world in Hcfg; subst w0; cbn [snd].
  2:{ exists [], [], []. rewrite !app_nil_r. repeat split; auto. }
  (* the skip check *)
  assert (Hcheck :
    exists reads0,
      w_trace (snd ((if force then ret false else source_exists (cfg_name target)) w))
      = w_trace w ++ reads0
      /\ Forall (fun ev => is_read ev = true) reads0
      /\ (force = true -> reads0 = [])).
  { destruct force.
    - exists []. cbn [ret snd]. rewrite app_nil_r. repeat split; auto.
    - exists [Call_source_exists (cfg_name target)]. rewrite source_exists_trace.
      repeat split; [repeat constructor | discriminate]. }
  destruct Hcheck as (reads0 & Htr0 & Hr0 & Hf0).
  unfold bind at 1.
  destruct ((if force then ret false else source_exists (cfg_name target)) w)
    as [[already|e] w1] eqn:Hchk; cbn [snd] in Htr0 |- *.
  2:{ exists reads0, [], []. rewrite !app_nil_r. repeat split; auto. }
  destruct already.
  - (* skipped: force is false *)
    assert (Hforce : force = false).
    { destruct force; [|reflexivity]. unfold ret in Hchk. discriminate Hchk. }
    unfold bind at 1.
    pose proof (db_call_trace (Call_get_source_id (cfg_name target))
                  (fun _ db => (db, select_source_id (cfg_name target) db)) w1) as Ht1.
    unfold get_source_id.
    destruct ((trace (Call_get_source_id (cfg_name target)) ;;
               conn <- get_db_connection ;; execute conn _) w1) as [[existing_id|e] w2];
      cbn [snd] in Ht1 |- *.
    2:{ exists (reads0 ++ [Call_get_source_id (cfg_name target)]), [], [].
        rewrite !app_nil_r, Ht1, Htr0, <- app_assoc.
        repeat split; auto.
        - apply Forall_app. split; [exact Hr0 | repeat constructor].
        - intros ->. discriminate Hforce. }
    unfold bind at 1.
    pose proof (db_call_trace (Call_get_item_count existing_id)
                  (fun _ db => (db, count_items existing_id db)) w2) as Ht2.
    unfold get_item_count.
    destruct ((trace (Call_get_item_count existing_id) ;;
               conn <- get_db_connection ;; execute conn _) w2) as [[existing_count|e] w3];
      cbn [snd] in Ht2 |- *; unfold ret; cbn [snd];
      exists (reads0 ++ [Call_get_source_id (cfg_name target);
                         Call_get_item_count existing_id]), [], [];
      rewrite !app_nil_r, Ht2, Ht1, Htr0, <- !app_assoc;
      (repeat split; auto;
       [ apply Forall_app; split; [exact Hr0 | repeat constructor]
       | intros ->; discriminate Hforce ]).
  - (* the adapter *)
    unfold bind at 1. unfold try_except, call. unfold bind at 1.
    destruct (get_adapter registry (target_source target)) as [adapter|e].
    2:{ destruct (is_ValueError e); unfold ret; cbn [snd];
          exists reads0, [Call_get_adapter (target_source target)], [];
          cbn [w_trace log]; rewrite !app_nil_r, Htr0, <- app_assoc;
          repeat split; auto; repeat constructor. }
    unfold ret at 1. cbv beta iota. unfold bind at 1.
    destruct (negb (validate_url adapter (cfg_url target))).
    { unfold ret. cbn [snd].
      exists reads0, [Call_get_adapter (target_source target);
                      Call_validate_url (SOURCE_NAME adapter) (cfg_url target)], [].
      cbn [w_trace log]. rewrite !app_nil_r, Htr0, <- !app_assoc.
      repeat split; auto; repeat constructor. }
    unfold bind at 1.
    set (w3 := log (Call_extract_items (SOURCE_NAME adapter) (cfg_url target))
                 (log (Call_validate_url (SOURCE_NAME adapter) (cfg_url target))
                    (log (Call_get_adapter (target_source target)) w1))).
    assert (Htr3 : w_trace w3
                   = w_trace w ++ reads0
                     ++ adapter_calls (target_source target) adapter (cfg_url target)).
    { unfold w3. cbn [w_trace log adapter_calls]. rewrite Htr0, <- !app_assoc. reflexivity. }
    assert (Hadapter : Forall (fun ev => is_adapter_call ev = true)
                         (adapter_calls (target_source target) adapter (cfg_url target)))
      by (repeat constructor).
    destruct (extract_items adapter (cfg_url target) target) as [[|item rest]|e].
    + unfold ret. cbn [snd].
      exists reads0, (adapter_calls (target_source target) adapter (cfg_url target)), [].
      rewrite !app_nil_r. repeat split; auto.
    + (* the writes *)
      unfold bind at 1.
      pose proof (db_call_trace (Call_insert_source (cfg_name target))
                    (upsert_source (cfg_name target) (cfg_slug target) (cfg_category target)
                       (target_metadata target) (cfg_url target) (target_source target))
                    w3) as Ht4.
      unfold insert_source.
      destruct ((trace (Call_insert_source (cfg_name target)) ;;
                 conn <- get_db_connection ;; execute conn _) w3) as [[source_id|e] w4];
        cbn [snd] in Ht4 |- *.
      * unfold bind at 1.
        pose proof (process_items_trace source_id (target_source target) (item :: rest)
                      0 0 w4) as Ht5.
        destruct (process_items lower lz4_frame_compress source_id (target_source target)
                    (item :: rest) 0 0 w4) as [[counts|e] w5];
          cbn [snd] in Ht5 |- *; unfold ret; cbn [snd];
          exists reads0, (adapter_calls (target_source target) adapter (cfg_url target)),
                 (Call_insert_source (cfg_name target)
                  :: insert_item_calls lz4_frame_compress source_id (item :: rest));
          rewrite Ht5, Ht4, Htr3, <- !app_assoc;
          (repeat split; auto; right;
           exists (cfg_name target),
                  (insert_item_calls lz4_frame_compress source_id (item :: rest)),
                  (SOURCE_NAME adapter), (cfg_url target);
           repeat split;
           [ unfold insert_item_calls; apply Forall_forall; intros ev Hev;
             apply in_map_iff in Hev; destruct Hev as (x & <- & _); reflexivity
           | right; right; left; reflexivity ]).
      * exists reads0, (adapter_calls (target_source target) adapter (cfg_url target)),
               [Call_insert_source (cfg_name target)].
        rewrite Ht4, Htr3, <- !app_assoc. repeat split; auto. right.
        exists (cfg_name target), [], (SOURCE_NAME adapter), (cfg_url target).
        repeat split; [constructor | right; right; left; reflexivity].
    + cbn [snd].
      exists reads0, (adapter_calls (target_source target) adapter (cfg_url target)), [].
      rewrite !app_nil_r. repeat split; auto.
Qed.

End Calls.

(** ** main.py: store errors outside the item loop, and the calls of the loop *)

Section Escapes.

Variable lower : pystr -> pystr.
Variable lz4_frame_compress : bytes -> bytes.
Variable registry : list (pystr * BaseAdapter).

(** X21. When the store fails the check of an unforced run, the exception
    leaves [scrape_target]: the adapter is not called and nothing is
    written. *)
Theorem scrape_target_check_raises target_id region w w1 target e :
  get_target_config target_id region w = (Ok target, w) ->
  source_exists (cfg_name target) w = (Raise e, w1) ->
  scrape_target lower lz4_frame_compress registry target_id false region w = (Raise e, w1)
  /\ w_db w1 = w_db w
  /\ w_trace w1 = w_trace w ++ [Call_source_exists (cfg_name target)].
Proof.
  intros Hcfg Hse. split; [|split].
  - unfold scrape_target. unfold bind at 1. rewrite Hcfg.
    unfold bind at 1. rewrite Hse. reflexivity.
  - pose proof (source_exists_tables (cfg_name target) w) as H.
    rewrite Hse in H. exact H.
  - pose proof (source_exists_trace (cfg_name target) w) as H.
    rewrite Hse in H. exact H.
Qed.

(** X22. When [insert_source] raises, the exception leaves [scrape_target]:
    the items that were extracted are dropped, [insert_item] is not called
    and the tables are as they were. *)
Theorem scrape_target_insert_source_raises
    target_id force region w w1 w2 target adapter items e :
  get_target_config target_id region w = (Ok target, w) ->
  not_skipped force (cfg_name target) w w1 ->
  get_adapter registry (target_source target) = Ok adapter ->
  validate_url adapter (cfg_url target) = true ->
  extract_items adapter (cfg_url target) target = Ok items ->
  items <> [] ->
  insert_source (cfg_name target) (cfg_slug target) (cfg_category target)
    (target_metadata target) (cfg_url target) (target_source target)
    (log_all (adapter_calls (target_source target) adapter (cfg_url target)) w1)
  = (Raise e, w2) ->
  scrape_target lower lz4_frame_compress registry target_id force region w = (Raise e, w2)
  /\ w_db w2 = w_db w
  /\ w_trace w2
     = w_trace w ++ (if force then [] else [Call_source_exists (cfg_name target)])
       ++ adapter_calls (target_source target) adapter (cfg_url target)
       ++ [Call_insert_source (cfg_name target)].
Proof.
  intros Hcfg Hns Had Hval Hex Hne Hsrc.
  destruct (extraction_frame force (cfg_name target) (target_source target) adapter
              (cfg_url target) w w1 Hns) as (Hdb & Htr & _).
  split; [|split].
  - rewrite (scrape_target_until_extraction _ _ _ _ _ _ _ _ _ _ Hcfg Hns Had Hval), Hex.
    destruct items as [|item rest]; [contradiction|].
    unfold bind at 1. rewrite Hsrc. reflexivity.
  - pose proof (run_statement_tables (Call_insert_source (cfg_name target))
                  (upsert_source (cfg_name target) (cfg_slug target) (cfg_category target)
                     (target_metadata target) (cfg_url target) (target_source target))
                  (log_all (adapter_calls (target_source target) adapter (cfg_url target)) w1))
      as H.
    unfold insert_source in Hsrc. rewrite Hsrc in H. rewrite H. exact Hdb.
  - pose proof (db_call_trace (Call_insert_source (cfg_name target))
                  (upsert_source (cfg_name target) (cfg_slug target) (cfg_category target)
                     (target_metadata target) (cfg_url target) (target_source target))
                  (log_all (adapter_calls (target_source target) adapter (cfg_url target)) w1))
      as H.
    unfold insert_source in Hsrc. rewrite Hsrc in H. cbn [snd] in H.
    rewrite H, Htr, <- !app_assoc. reflexivity.
Qed.

(** X23. In a run that comes to the item loop, [insert_item] is called once
    for each item whose text encodes, in the order of extraction and with
    the id [insert_source] returned, and for no other item; these calls are
    made whether or not the store takes them. *)
Theorem scrape_target_inserts_in_order
    target_id force region w w1 w2 target adapter items source_id :
  get_target_config target_id region w = (Ok target, w) ->
  not_skipped force (cfg_name target) w w1 ->
  get_adapter registry (target_source target) = Ok adapter ->
  validate_url adapter (cfg_url target) = true ->
  extract_items adapter (cfg_url target) target = Ok items ->
  items <> [] ->
  insert_source (cfg_name target) (cfg_slug target) (cfg_category target)
    (target_metadata target) (cfg_url target) (target_source target)
    (log_all (adapter_calls (target_source target) adapter (cfg_url target)) w1)
  = (Ok source_id, w2) ->
  w_trace (snd (scrape_target lower lz4_frame_compress registry target_id force region w))
  = w_trace w ++ (if force then [] else [Call_source_exists (cfg_name target)])
    ++ adapter_calls (target_source target) adapter (cfg_url target)
    ++ Call_insert_source (cfg_name target)
       :: map (fun item => Call_insert_item source_id (raw_number item))
            (filter (fun item =>
                       match compress_text lz4_frame_compress (raw_text item) with
                       | Ok _ => true
                       | Raise _ => false
                       end) items).
Proof.
  intros Hcfg Hns Had Hval Hex Hne Hsrc.
  destruct (extraction_frame force (cfg_name target) (target_source target) adapter
              (cfg_url target) w w1 Hns) as (Hdb & Htr & _).
  rewrite (scrape_target_until_extraction _ _ _ _ _ _ _ _ _ _ Hcfg Hns Had Hval), Hex.
  destruct items as [|item rest]; [contradiction|].
  unfold bind at 1. rewrite Hsrc.
  pose proof (db_call_trace (Call_insert_source (cfg_name target))
                (upsert_source (cfg_name target) (cfg_slug target) (cfg_category target)
                   (target_metadata target) (cfg_url target) (target_source target))
                (log_all (adapter_calls (target_source target) adapter (cfg_url target)) w1))
    as H.
  unfold insert_source in Hsrc. rewrite Hsrc in H. cbn [snd] in H.
  pose proof (process_items_trace lower lz4_frame_compress source_id (target_source target)
                (item :: rest) 0 0 w2) as Hl.
  destruct (process_items_counts lower lz4_frame_compress source_id (target_source target)
              (item :: rest) 0 0 w2) as (w' & Hloop & _).
  unfold bind at 1. rewrite Hloop in Hl |- *. unfold ret. cbn [snd] in Hl |- *.
  rewrite Hl, H, Htr, <- !app_assoc. reflexivity.
Qed.

End Escapes.

(** ** main.py: what a run returns, and how [main] ends *)

(** What a computation returned, read off an equation between outcomes. *)
Lemma returned_eq {A} (a b : A) (w w' : World) : (Ok a, w) = (Ok b, w') -> a = b /\ w = w'.
Proof. intros E. inversion E. split; reflexivity. Qed.

Section Results.

Variable lower : pystr -> pystr.
Variable lz4_frame_compress : bytes -> bytes.
Variable registry : list (pystr * BaseAdapter).

(** The four ways in which [scrape_target] returns. *)
Lemma scrape_target_returned target_id force region w result w' :
  scrape_target lower lz4_frame_compress registry target_id force region w
  = (Ok result, w') ->
  exists target,
    get_target_config target_id region w = (Ok target, w)
    /\ returned_result registry force target result.
Proof.
  unfold scrape_target. unfold bind at 1.
  destruct (get_target_config target_id region w) as [[target|e] w0] eqn:Hcfg;
    [|discriminate].
  pose proof (get_target_config_world _ _ _ _ _ Hcfg) as ->.
  intros Hrun. exists target. split; [reflexivity|].
  unfold returned_result. revert Hrun. unfold bind at 1.
  destruct ((if force then ret false else source_exists (cfg_name target)) w)
    as [[already|e] w1] eqn:Hchk; [|discriminate].
  destruct already.
  - assert (Hforce : force = false).
    { destruct force; [|reflexivity]. unfold ret in Hchk. discriminate Hchk. }
    unfold bind at 1.
    destruct (get_source_id (cfg_name target) w1) as [[existing_id|e] w2]; [|discriminate].
    unfold bind at 1.
    destruct (get_item_count existing_id w2) as [[existing_count|e] w3]; [|discriminate].
    unfold ret. intros [= <- _]. left. exists existing_count.
    split; [exact Hforce | reflexivity].
  - unfold bind at 1. unfold try_except, call. unfold bind at 1.
    destruct (get_adapter registry (target_source target)) as [adapter|e] eqn:Had.
    2:{ destruct (is_ValueError e); [|discriminate].
        unfold ret. intros [= <- _]. right. left. eexists. reflexivity. }
    unfold ret at 1. cbv beta iota. unfold bind at 1.
    destruct (negb (validate_url adapter (cfg_url target))).
    { unfold ret. intros [= <- _]. right. left. eexists. reflexivity. }
    unfold bind at 1.
    destruct (extract_items adapter (cfg_url target) target) as [[|item rest]|e] eqn:Hex;
      [ | | discriminate].
    { unfold ret. intros [= <- _]. right. right. left. reflexivity. }
    unfold bind at 1.
    destruct (insert_source _ _ _ _ _ _ _) as [[source_id|e] w4]; [|discriminate].
    destruct (process_items_counts lower lz4_frame_compress source_id (target_source target)
                (item :: rest) 0 0 w4) as (w5 & Hloop & Hle).
    set (failures := item_failures lower lz4_frame_compress source_id
                       (target_source target) (item :: rest) w4) in *.
    set (n := length (item :: rest)) in *.
    unfold bind at 1. rewrite Hloop. unfold ret. cbn [fst snd].
    intros E. apply returned_eq in E. destruct E as [<- _].
    right. right. right.
    exists adapter, (item :: rest), (0 + (Z.of_nat n - Z.of_nat failures)),
           (0 + Z.of_nat failures).
    split; [reflexivity|]. split; [exact Hex|]. split; [discriminate|].
    split; [lia|]. split; [lia|]. split; [fold n; lia | reflexivity].
Qed.

(** X24. A result [scrape_target] returns is one of four dicts: [skipped]
    with the count of the stored items, in an unforced run only; [error] with
    a message; [empty] with 0 items; [success] with the counts of the items
    stored and failed, which add up to the number of items extracted, and the
    adapter. All of them name the target by the name configured for it. *)
Theorem scrape_target_result target_id force region w result w' :
  scrape_target lower lz4_frame_compress registry target_id force region w
  = (Ok result, w') ->
  exists target,
    get_target_config target_id region w = (Ok target, w)
    /\ ((exists count,
           force = false
           /\ result = [ (py "status", VStr (py "skipped"));
                         (py "target", VStr (cfg_name target));
                         (py "items", VInt count) ])
        \/ (exists message,
              result = [ (py "status", VStr (py "error"));
                         (py "target", VStr (cfg_name target));
                         (py "error", VStr message) ])
        \/ result = [ (py "status", VStr (py "empty"));
                      (py "target", VStr (cfg_name target));
                      (py "items", VInt 0) ]
        \/ (exists adapter items stored failed,
              get_adapter registry (target_source target) = Ok adapter
              /\ extract_items adapter (cfg_url target) target = Ok items
              /\ items <> []
              /\ 0 <= stored /\ 0 <= failed
              /\ stored + failed = Z.of_nat (length items)
              /\ result = [ (py "status", VStr (py "success"));
                            (py "target", VStr (cfg_name target));
                            (py "items", VInt stored);
                            (py "errors", VInt failed);
                            (py "adapter", VStr (target_source target)) ])).
Proof. exact (scrape_target_returned target_id force region w result w'). Qed.

End Results.

Section EntryPoint.

Variable lower : pystr -> pystr.
Variable lz4_frame_compress : bytes -> bytes.
Variable registry : list (pystr * BaseAdapter).
Variable print_help : pystr.
Variable add_file_handler : pystr -> result unit.

(** X25. A run of [main] for a target, its log file set up, ends in
    [sys.exit]: with status 0 when [scrape_target] returns [success] or
    [skipped], with status 1 when it returns [error] or [empty] and when it
    raises, in which case the line "::error::Scraper failed for ..." with the
    message of the exception is printed and no other. *)
Theorem main_exit_status args target w :
  args_list args = false ->
  args_target args = Some target ->
  target <> [] ->
  add_file_handler target = Ok tt ->
  exists code printed,
    main lower lz4_frame_compress registry print_help add_file_handler args w
    = ((SystemExit code, printed),
       snd (scrape_target lower lz4_frame_compress registry target (args_force args)
              (args_region args) w))
    /\ (code = 0 \/ code = 1)
    /\ (code = 0 <->
        exists result status,
          fst (scrape_target lower lz4_frame_compress registry target (args_force args)
                 (args_region args) w) = Ok result
          /\ dict_lookup (py "status") result = Some (VStr status)
          /\ (status = py "success" \/ status = py "skipped"))
    /\ (forall e,
          fst (scrape_target lower lz4_frame_compress registry target (args_force args)
                 (args_region args) w) = Raise e ->
          printed = [py "::error::Scraper failed for " ++ target ++ py ": " ++ exn_msg e]).
Proof.
  intros Hlist Htarget Hne Hlog.
  unfold main. rewrite Hlist, Htarget.
  destruct target as [|c target]; [contradiction|]. rewrite Hlog.
  destruct (scrape_target lower lz4_frame_compress registry (c :: target) (args_force args)
              (args_region args) w) as [[result|e] w'] eqn:Hrun; cbn [fst snd].
  2:{ eexists _, _. split; [reflexivity|]. split; [right; reflexivity|]. split.
      - split; [discriminate | intros (r & s & E & _); discriminate E].
      - intros e0 [= <-]. reflexivity. }
  destruct (scrape_target_returned _ _ _ _ _ _ _ _ _ Hrun) as (tgt & _ & Hshape).
  destruct Hshape as [(count & _ & ->) | [(message & ->) | [-> | Hsucc]]].
  - eexists _, _. split; [reflexivity|]. split; [left; reflexivity|]. split.
    + split; [intros _ | reflexivity].
      eexists _, _. split; [reflexivity|]. split; [reflexivity|]. right. reflexivity.
    + discriminate.
  - eexists _, _. split; [reflexivity|]. split; [right; reflexivity|]. split.
    + split; [discriminate|].
      intros (r & s & [= <-] & [= <-] & [E | E]); discriminate E.
    + discriminate.
  - eexists _, _. split; [reflexivity|]. split; [right; reflexivity|]. split.
    + split; [discriminate|].
      intros (r & s & [= <-] & [= <-] & [E | E]); discriminate E.
    + discriminate.
  - destruct Hsucc as (adapter & items & stored & failed & _ & _ & _ & _ & _ & _ & ->).
    eexists _, _. split; [reflexivity|]. split; [left; reflexivity|]. split.
    + split; [intros _ | reflexivity].
      eexists _, _. split; [reflexivity|]. split; [reflexivity|]. left. reflexivity.
    + discriminate.
Qed.

End EntryPoint.

(** ** main.py: a second run *)

(** Reading the configuration does not depend on the tables, the count of
    connections or the calls recorded. *)
Lemma get_target_config_setting target_id region w w' :
  w_config w' = w_config w -> w_main_dir w' = w_main_dir w ->
  get_target_config target_id region w'
  = (fst (get_target_config target_id region w), w').
Proof.
  intros Hc Hd. unfold get_target_config, bind, load_config, ret, raise.
  rewrite Hc, Hd.
  destruct (w_config w region) as [config|]; [|reflexivity].
  destruct (find _ (targets config)); reflexivity.
Qed.

(** A call of [db.py] leaves the configuration files where they are. *)
Lemma db_call_config {A} ev (stmt : DbEnv -> Database -> Database * A) w :
  same_files w (snd ((trace ev ;; conn <- get_db_connection ;; execute conn stmt) w)).
Proof.
  unfold bind, trace, call, get_db_connection, execute. world_fields.
  destruct (w_DATABASE_URL w) as [[|c url]|]; try (split; reflexivity).
  destruct (env_fault (w_db_env w (w_db_calls w))) as [[msg|msg]|] eqn:Ef;
    world_fields; rewrite ?Ef; try (split; reflexivity).
  destruct (stmt (w_db_env w (w_db_calls w)) (w_db w)). split; reflexivity.
Qed.

(** [insert_item] leaves the Source table alone. *)
Lemma upsert_item_sources source_id number title category summary tags full_text
    source_url metadata env db :
  Source (fst (upsert_item source_id number title category summary tags full_text
                 source_url metadata env db)) = Source db.
Proof.
  unfold upsert_item. destruct (existsb (has_key source_id number) (Item db)); reflexivity.
Qed.

Section Rerun.

Variable lower : pystr -> pystr.
Variable lz4_frame_compress : bytes -> bytes.
Variable registry : list (pystr * BaseAdapter).

(** The item loop keeps what every [insert_item] keeps, and leaves the
    configuration files where they are. *)
Lemma process_items_keep (P : Database -> Prop) source_id adapter_name items :
  (forall number title category summary tags full_text source_url metadata env db,
      P db ->
      P (fst (upsert_item source_id number title category summary tags full_text
                source_url metadata env db))) ->
  forall success_count error_count,
    preserves P (process_items lower lz4_frame_compress source_id adapter_name items
                   success_count error_count).
Proof.
  intros Hup. induction items as [|item rest IH]; intros s e; cbn [process_items].
  - apply preserves_ret.
  - apply preserves_bind; [|intros counts; apply IH].
    apply preserves_try_except; [|intros ?; apply preserves_ret].
    apply preserves_bind; [|intros ?; apply preserves_ret].
    unfold process_item.
    destruct (categorize_content lower (raw_title item) (raw_text item)) as [c tags].
    apply preserves_bind; [apply preserves_lift | intros ?].
    unfold insert_item, trace.
    apply preserves_bind; [apply preserves_call | intros _].
    apply preserves_bind; [apply preserves_get_db_connection | intros conn].
    apply preserves_execute. intros env db. apply Hup.
Qed.

Lemma process_items_config source_id adapter_name items :
  forall success_count error_count w,
    same_files w (snd (process_items lower lz4_frame_compress source_id adapter_name items
                         success_count error_count w)).
Proof.
  induction items as [|item rest IH]; intros s e w; cbn [process_items].
  - split; reflexivity.
  - unfold bind at 1. unfold try_except. unfold bind at 1.
    rewrite process_item_outcome.
    destruct (compress_text lz4_frame_compress (raw_text item)) as [c|ex].
    + pose proof (db_call_config (Call_insert_item source_id (raw_number item))
                    (upsert_item source_id (raw_number item) (raw_title item)
                       (fst (categorize_content lower (raw_title item) (raw_text item)))
                       (make_summary (raw_text item))
                       (snd (categorize_content lower (raw_title item) (raw_text item)))
                       c (raw_url item) (JObj [(py "adapter", JStr adapter_name)])) w) as Hc.
      unfold insert_item.
      destruct ((trace (Call_insert_item source_id (raw_number item)) ;;
                 conn <- get_db_connection ;; execute conn _) w) as [[[]|ex] w1];
        cbn [snd] in Hc; unfold ret at 1; cbv beta iota; unfold any_Exception;
        cbn [fst snd]; destruct Hc as [Hc Hd];
        [ destruct (IH (s + 1) e w1) as [H1 H2] | destruct (IH s (e + 1) w1) as [H1 H2] ];
        split; congruence.
    + unfold any_Exception, ret at 1. cbv beta iota. cbn [fst snd]. apply IH.
Qed.

(** A run for a target whose Source row exists, the store being up. *)
Lemma scrape_target_skip_run target_id region w target id :
  get_target_config target_id region w = (Ok target, w) ->
  select_source_id (cfg_name target) (w_db w) = Some id ->
  db_available_for 3 w ->
  exists w',
    scrape_target lower lz4_frame_compress registry target_id false region w
    = (Ok [ (py "status", VStr (py "skipped"));
            (py "target", VStr (cfg_name target));
            (py "items", VInt (count_items (Some id) (w_db w))) ], w')
    /\ w_db w' = w_db w.
Proof.
  intros Hcfg Hsel Hav.
  set (w1 := set_db_calls (S (w_db_calls w)) (log (Call_source_exists (cfg_name target)) w)).
  assert (Hav1 : db_available_for 2 w1) by (apply (db_available_for_next _ w); auto).
  set (w2 := set_db (w_db w1)
               (set_db_calls (S (w_db_calls w1))
                  (log (Call_get_source_id (cfg_name target)) w1))).
  assert (Hav2 : db_available_for 1 w2) by (apply (db_available_for_next _ w1); auto).
  eexists. split.
  - unfold scrape_target. unfold bind at 1. rewrite Hcfg.
    unfold bind at 1. rewrite (run_source_exists _ w (db_available_for_S _ _ Hav)).
    rewrite Hsel. fold w1.
    unfold bind at 1. unfold get_source_id.
    rewrite (run_statement _ _ w1 (db_available_for_S _ _ Hav1)).
    cbn [fst snd]. fold w2. change (w_db w1) with (w_db w). rewrite Hsel.
    unfold bind at 1. unfold get_item_count.
    rewrite (run_statement _ _ w2 (db_available_for_S _ _ Hav2)).
    cbn [fst snd]. unfold ret. reflexivity.
  - reflexivity.
Qed.

(** X28. After a run that returned [success], a run for the same target
    without [force] is skipped, the store being up: it returns [skipped] with
    the number of Item rows of the target's Source and changes no table. *)
Theorem scrape_target_rerun_skipped target_id force region w w' result :
  scrape_target lower lz4_frame_compress registry target_id force region w
  = (Ok result, w') ->
  dict_lookup (py "status") result = Some (VStr (py "success")) ->
  db_available_for 3 w' ->
  exists target id w'',
    get_target_config target_id region w = (Ok target, w)
    /\ select_source_id (cfg_name target) (w_db w') = Some id
    /\ scrape_target lower lz4_frame_compress registry target_id false region w'
       = (Ok [ (py "status", VStr (py "skipped"));
               (py "target", VStr (cfg_name target));
               (py "items", VInt (count_items (Some id) (w_db w'))) ], w'')
    /\ w_db w'' = w_db w'.
Proof.
  intros Hrun Hst Hav.
  revert Hrun. unfold scrape_target. unfold bind at 1.
  destruct (get_target_config target_id region w) as [[target|e] w0] eqn:Hcfg;
    [|discriminate].
  pose proof (get_target_config_world _ _ _ _ _ Hcfg) as ->.
  unfold bind at 1.
  destruct ((if force then ret false else source_exists (cfg_name target)) w)
    as [[already|e] w1] eqn:Hchk; [|discriminate].
  assert (Hc1 : same_files w w1).
  { destruct force.
    - unfold ret in Hchk. injection Hchk as _ <-. split; reflexivity.
    - revert Hchk. unfold source_exists, bind, trace, call, get_db_connection, execute, ret.
      world_fields.
      destruct (w_DATABASE_URL w) as [[|c url]|]; try discriminate.
      destruct (env_fault (w_db_env w (w_db_calls w))) as [[msg|msg]|] eqn:Ef;
        world_fields; rewrite ?Ef; try discriminate;
        intros [= _ <-]; split; reflexivity. }
  destruct already.
  { unfold bind at 1.
    destruct (get_source_id (cfg_name target) w1) as [[existing_id|e] w2]; [|discriminate].
    unfold bind at 1.
    destruct (get_item_count existing_id w2) as [[existing_count|e] w3]; [|discriminate].
    unfold ret. intros [= <- _]. discriminate Hst. }
  unfold bind at 1. unfold try_except, call. unfold bind at 1.
  destruct (get_adapter registry (target_source target)) as [adapter|e].
  2:{ destruct (is_ValueError e); [|discriminate].
      unfold ret. intros [= <- _]. discriminate Hst. }
  unfold ret at 1. cbv beta iota. unfold bind at 1.
  destruct (negb (validate_url adapter (cfg_url target))).
  { unfold ret. intros [= <- _]. discriminate Hst. }
  unfold bind at 1.
  destruct (extract_items adapter (cfg_url target) target) as [[|item rest]|e];
    [ | | discriminate].
  { unfold ret. intros [= <- _]. discriminate Hst. }
  unfold bind at 1.
  set (w3 := log (Call_extract_items (SOURCE_NAME adapter) (cfg_url target))
               (log (Call_validate_url (SOURCE_NAME adapter) (cfg_url target))
                  (log (Call_get_adapter (target_source target)) w1))).
  pose proof (run_statement_tables (Call_insert_source (cfg_name target))
                (upsert_source (cfg_name target) (cfg_slug target) (cfg_category target)
                   (target_metadata target) (cfg_url target) (target_source target))
                w3) as Ht.
  pose proof (db_call_config (Call_insert_source (cfg_name target))
                (upsert_source (cfg_name target) (cfg_slug target) (cfg_category target)
                   (target_metadata target) (cfg_url target) (target_source target))
                w3) as Hc4.
  unfold insert_source.
  destruct ((trace (Call_insert_source (cfg_name target)) ;;
             conn <- get_db_connection ;; execute conn _) w3) as [[source_id|e] w4];
    [|discriminate].
  cbn [snd] in Hc4. destruct Ht as [env Ht]. symmetry in Ht.
  apply upsert_source_select in Ht.
  pose proof (process_items_keep
                (fun db => select_source_id (cfg_name target) db = Some source_id)
                source_id (target_source target) (item :: rest)) as Hkeep.
  pose proof (process_items_config source_id (target_source target) (item :: rest)
                0 0 w4) as Hc5.
  assert (Hup : forall number title category summary tags full_text source_url metadata
                       env db,
            select_source_id (cfg_name target) db = Some source_id ->
            select_source_id (cfg_name target)
              (fst (upsert_item source_id number title category summary tags full_text
                      source_url metadata env db)) = Some source_id).
  { intros. unfold select_source_id. rewrite upsert_item_sources. assumption. }
  specialize (Hkeep Hup 0 0 w4 Ht).
  destruct (process_items_counts lower lz4_frame_compress source_id (target_source target)
              (item :: rest) 0 0 w4) as (w5 & Hloop & _).
  unfold bind at 1. rewrite Hloop in Hkeep, Hc5 |- *. cbn [snd] in Hkeep, Hc5.
  unfold ret. intros E. apply returned_eq in E. destruct E as [_ <-].
  assert (Hcfg' : get_target_config target_id region w5 = (Ok target, w5)).
  { rewrite (get_target_config_setting target_id region w w5), Hcfg; [reflexivity | |].
    - destruct Hc5 as [-> _]. destruct Hc4 as [-> _]. unfold w3. cbn [w_config log].
      apply Hc1.
    - destruct Hc5 as [_ ->]. destruct Hc4 as [_ ->]. unfold w3. cbn [w_main_dir log].
      apply Hc1. }
  destruct (scrape_target_skip_run target_id region w5 target source_id Hcfg' Hkeep Hav)
    as (w'' & Hskip & Hdb).
  exists target, source_id, w''. repeat split; assumption.
Qed.

End Rerun.

(** ** main.py and core/db.py: what the item loop stores *)

Section Stored.

Variable lower : pystr -> pystr.
Variable lz4_frame_compress : bytes -> bytes.
Variable lz4_frame_decompress : bytes -> result bytes.

Hypothesis lz4_frame_bytes :
  forall b, is_bytes b -> is_bytes (lz4_frame_compress b).
Hypothesis lz4_frame_nonempty :
  forall b, lz4_frame_compress b <> [].
Hypothesis lz4_frame_roundtrip :
  forall b, is_bytes b -> lz4_frame_decompress (lz4_frame_compress b) = Ok b.

(** X3. When the [try] body of the loop goes through for an item, the Item
    table holds a row for the item's number under the source; the row has
    the item's title, its category and tags as [categorize_content] gives
    them, the adapter in its metadata, and a [fullText] that
    [decompress_text] turns back into the item's text. *)
Theorem stored_text_roundtrip source_id adapter_name item w w' :
  process_item lower lz4_frame_compress source_id adapter_name item w = (Ok tt, w') ->
  exists r,
    In r (Item (w_db w'))
    /\ Item_key r = (source_id, raw_number item)
    /\ decompress_text lz4_frame_decompress (Item_fullText r) = Ok (raw_text item)
    /\ Item_title r = raw_title item
    /\ (Item_category r, Item_tags r)
       = categorize_content lower (raw_title item) (raw_text item)
    /\ Item_metadata r = JObj [(py "adapter", JStr adapter_name)].
Proof.
  rewrite process_item_outcome.
  destruct (compress_text lz4_frame_compress (raw_text item)) as [c|e] eqn:Hc;
    [|discriminate].
  intros Hins.
  pose proof (run_statement_tables (Call_insert_item source_id (raw_number item))
    (upsert_item source_id (raw_number item) (raw_title item)
       (fst (categorize_content lower (raw_title item) (raw_text item)))
       (make_summary (raw_text item))
       (snd (categorize_content lower (raw_title item) (raw_text item)))
       c (raw_url item) (JObj [(py "adapter", JStr adapter_name)])) w) as Ht.
  unfold insert_item in Hins. rewrite Hins in Ht. destruct Ht as [env Ht].
  symmetry in Ht.
  destruct (upsert_item_present _ _ _ _ _ _ _ _ _ _ _ _ Ht) as (r & Hin & Hkey).
  pose proof Hkey as Hk. apply has_key_iff in Hk.
  destruct (upsert_item_stored _ _ _ _ _ _ _ _ _ _ _ _ r Ht Hin Hk)
    as (Htitle & Hcat & _ & Htags & Hfull & Hmeta & _).
  exists r. split; [exact Hin|]. split; [exact Hkey|]. split; [|split; [exact Htitle|split]].
  - rewrite Hfull.
    destruct (compress_text_roundtrip_text lz4_frame_compress lz4_frame_decompress
                lz4_frame_bytes lz4_frame_nonempty lz4_frame_roundtrip (raw_text item)
                (compress_text_returns_on_text _ _ _ Hc)) as (c' & Hc' & Hd).
    rewrite Hc in Hc'. injection Hc' as <-. exact Hd.
  - rewrite Hcat, Htags. symmetry. apply surjective_pairing.
  - exact Hmeta.
Qed.



End Stored.

(** ** main.py: [main] without a run, and the constraints *)

Section EntryPointEdges.

Variable lower : pystr -> pystr.
Variable lz4_frame_compress : bytes -> bytes.
Variable registry : list (pystr * BaseAdapter).
Variable print_help : pystr.
Variable add_file_handler : pystr -> result unit.


(** X27. A call of [main] that starts with both unique constraints of the
    schema in force ends with both in force, whatever its arguments are and
    however it ends. *)
Theorem main_keeps_constraints args w :
  constraints_hold (w_db w) ->
  constraints_hold
    (w_db (snd (main lower lz4_frame_compress registry print_help add_file_handler args w))).
Proof.
  intros H. unfold main.
  destruct (args_list args).
  - unfold list_targets, bind, load_config, ret.
    destruct (w_config w (args_region args)); exact H.
  - destruct (args_target args) as [[|c target]|]; try exact H.
    destruct (add_file_handler (c :: target)); [|exact H].
    pose proof (scrape_target_keeps_constraints lower lz4_frame_compress registry
                  (c :: target) (args_force args) (args_region args) w H) as Hrun.
    destruct (scrape_target lower lz4_frame_compress registry (c :: target)
                (args_force args) (args_region args) w) as [[result|e] w'];
      exact Hrun.
Qed.

End EntryPointEdges.

(** ** main.py: what a run does not read *)

Lemma alike_ret {A} (Q : A -> A -> Prop) a a2 : Q a a2 -> alike Q (ret a) (ret a2).
Proof. intros HQ w w2 HR. cbn. auto. Qed.

Lemma alike_call {A} ev (r : result A) : alike eq (call ev r) (call ev r).
Proof.
  intros w w2 (Hdb & Hurl & Henv & Hcalls & Htr). unfold call.
  assert (same_state (log ev w) (log ev w2)).
  { unfold same_state. cbn [log w_db w_DATABASE_URL w_db_env w_db_calls w_trace].
    rewrite Htr. repeat split; assumption || reflexivity. }
  destruct r; auto.
Qed.

Lemma alike_lift {A} (r : result A) : alike eq (lift r) (lift r).
Proof. intros w w2 HR. unfold lift. destruct r; auto. Qed.

Lemma alike_bind {A B} (Q : A -> A -> Prop) (Q' : B -> B -> Prop)
    (m m2 : M A) (k k2 : A -> M B) :
  alike Q m m2 -> (forall a a2, Q a a2 -> alike Q' (k a) (k2 a2)) ->
  alike Q' (bind m k) (bind m2 k2).
Proof.
  intros Hm Hk w w2 HR. unfold bind. specialize (Hm w w2 HR).
  destruct (m w) as [[a|e] w'], (m2 w2) as [[a2|e2] w2']; try contradiction.
  - destruct Hm as [HQ HR']. exact (Hk a a2 HQ w' w2' HR').
  - exact Hm.
Qed.

Lemma alike_try_except {A} (Q : A -> A -> Prop) (body body2 : M A) catches
    (handler handler2 : exn -> M A) :
  alike Q body body2 -> (forall e, alike Q (handler e) (handler2 e)) ->
  alike Q (try_except body catches handler) (try_except body2 catches handler2).
Proof.
  intros Hb Hh w w2 HR. unfold try_except. specialize (Hb w w2 HR).
  destruct (body w) as [[a|e] w'], (body2 w2) as [[a2|e2] w2']; try contradiction.
  - exact Hb.
  - destruct Hb as [<- HR']. destruct (catches e); [exact (Hh e w' w2' HR') | auto].
Qed.

Lemma alike_get_db_connection : alike eq get_db_connection get_db_connection.
Proof.
  intros w w2 HR. pose proof HR as (Hdb & Hurl & Henv & Hcalls & Htr).
  unfold get_db_connection. rewrite Hurl, Henv, Hcalls.
  destruct (w_DATABASE_URL w) as [[|c url]|] eqn:Eu; try (split; [reflexivity | exact HR]).
  assert (same_state (set_db_calls (S (w_db_calls w)) w)
                     (set_db_calls (S (w_db_calls w)) w2))
    by (unfold same_state;
        cbn [set_db_calls w_db w_DATABASE_URL w_db_env w_db_calls w_trace];
        repeat split; congruence).
  destruct (env_fault (w_db_env w (w_db_calls w))) as [[msg|msg]|]; auto.
Qed.

Lemma alike_execute {A} conn (stmt : DbEnv -> Database -> Database * A) :
  alike eq (execute conn stmt) (execute conn stmt).
Proof.
  intros w w2 (Hdb & Hurl & Henv & Hcalls & Htr). unfold execute. rewrite Hdb.
  destruct (env_fault conn) as [[msg|msg]|];
    try (split; [reflexivity | repeat split; assumption]);
    destruct (stmt conn (w_db w)) as [db' a];
    (split; [reflexivity|]); unfold same_state;
    cbn [set_db w_db w_DATABASE_URL w_db_env w_db_calls w_trace];
    repeat split; assumption || reflexivity.
Qed.

Lemma alike_db_call {A} ev (stmt : DbEnv -> Database -> Database * A) :
  alike eq (trace ev ;; conn <- get_db_connection ;; execute conn stmt)
           (trace ev ;; conn <- get_db_connection ;; execute conn stmt).
Proof.
  apply (alike_bind eq); [apply alike_call | intros _ _ _].
  apply (alike_bind eq); [apply alike_get_db_connection | intros conn _ <-].
  apply alike_execute.
Qed.

Lemma bind_returned {A B} (m : M A) (k : A -> M B) w a w' :
  m w = (Ok a, w') -> bind m k w = k a w'.
Proof. intros E. unfold bind. rewrite E. reflexivity. Qed.

Section EnabledFlag.

Variable lower : pystr -> pystr.
Variable lz4_frame_compress : bytes -> bytes.
Variable registry : list (pystr * BaseAdapter).

Lemma alike_process_items source_id adapter_name items :
  forall success_count error_count,
    alike eq
      (process_items lower lz4_frame_compress source_id adapter_name items
         success_count error_count)
      (process_items lower lz4_frame_compress source_id adapter_name items
         success_count error_count).
Proof.
  induction items as [|item rest IH]; intros s e; cbn [process_items].
  - apply alike_ret. reflexivity.
  - apply (alike_bind eq); [|intros counts _ <-; apply IH].
    apply alike_try_except; [|intros ?; apply alike_ret; reflexivity].
    apply (alike_bind eq); [|intros ? ? _; apply alike_ret; reflexivity].
    unfold process_item.
    destruct (categorize_content lower (raw_title item) (raw_text item)) as [c tags].
    apply (alike_bind eq); [apply alike_lift | intros compressed _ <-].
    apply alike_db_call.
Qed.

(** The adapters of the registry do not read the [enabled] entry of the
    target they are given. *)
Hypothesis adapters_ignore_enabled :
  forall source adapter url target enabled,
    In (source, adapter) registry ->
    extract_items adapter url (with_enabled enabled target)
    = extract_items adapter url target.

Lemma get_adapter_registered source adapter :
  get_adapter registry source = Ok adapter -> In (source, adapter) registry.
Proof.
  unfold get_adapter, registry_lookup.
  destruct (find (fun kv => str_eqb (fst kv) source) registry) as [[k cls]|] eqn:Ef;
    [|discriminate].
  cbn [option_map snd]. intros [= <-].
  apply find_some in Ef. destruct Ef as [Hin Hk]. cbn [fst] in Hk.
  apply str_eqb_eq in Hk. subst k. exact Hin.
Qed.

(** X30. [scrape_target] does not read the [enabled] entry of a target: for
    a target that two configurations give with different [enabled] entries
    and no other difference, the runs return or raise the same and make the
    same calls and the same changes to the tables. A target with
    [enabled] false is scraped as any other. *)
Theorem scrape_target_ignores_enabled target_id force region w w2 target enabled :
  same_state w w2 ->
  get_target_config target_id region w = (Ok target, w) ->
  get_target_config target_id region w2 = (Ok (with_enabled enabled target), w2) ->
  fst (scrape_target lower lz4_frame_compress registry target_id force region w2)
  = fst (scrape_target lower lz4_frame_compress registry target_id force region w)
  /\ same_state
       (snd (scrape_target lower lz4_frame_compress registry target_id force region w))
       (snd (scrape_target lower lz4_frame_compress registry target_id force region w2)).
Proof.
  intros HR Hcfg Hcfg2.
  cut (match scrape_target lower lz4_frame_compress registry target_id force region w,
             scrape_target lower lz4_frame_compress registry target_id force region w2 with
       | (Ok a, w'), (Ok a2, w2') => a = a2 /\ same_state w' w2'
       | (Raise e, w'), (Raise e2, w2') => e = e2 /\ same_state w' w2'
       | _, _ => False
       end).
  { destruct (scrape_target _ _ _ _ _ _ w) as [[a|e] w'],
             (scrape_target _ _ _ _ _ _ w2) as [[a2|e2] w2']; intros H;
      try contradiction; destruct H as [<- H]; (split; [reflexivity | exact H]). }
  unfold scrape_target.
  rewrite (bind_returned _ _ _ _ _ Hcfg), (bind_returned _ _ _ _ _ Hcfg2).
  change (target_source (with_enabled enabled target)) with (target_source target).
  change (target_metadata (with_enabled enabled target)) with (target_metadata target).
  cbn [with_enabled cfg_name cfg_slug cfg_category cfg_url].
  clear Hcfg Hcfg2. revert w w2 HR.
  refine (alike_bind eq eq _ _ _ _ _ _).
  { destruct force; [apply alike_ret; reflexivity|].
    unfold source_exists.
    apply (alike_bind eq); [apply alike_call | intros _ _ _].
    apply (alike_bind eq); [apply alike_get_db_connection | intros conn _ <-].
    apply (alike_bind eq); [apply alike_execute | intros row _ <-].
    apply alike_ret. reflexivity. }
  intros already _ <-. destruct already.
  { apply (alike_bind eq); [apply alike_db_call | intros existing_id _ <-].
    apply (alike_bind eq); [apply alike_db_call | intros existing_count _ <-].
    apply alike_ret. reflexivity. }
  apply (alike_bind
           (fun r r2 : BaseAdapter + pydict =>
              r = r2 /\ forall adapter, r = inl adapter ->
                                         In (target_source target, adapter) registry)).
  { intros w w2 HR. unfold try_except, bind, call, ret.
    assert (HR' : same_state (log (Call_get_adapter (target_source target)) w)
                             (log (Call_get_adapter (target_source target)) w2)).
    { destruct HR as (Hdb & Hurl & Henv & Hcalls & Htr). unfold same_state.
      cbn [log w_db w_DATABASE_URL w_db_env w_db_calls w_trace]. rewrite Htr.
      repeat split; assumption. }
    destruct (get_adapter registry (target_source target)) as [adapter|e] eqn:Had.
    - split; [split; [reflexivity|] | exact HR'].
      intros a [= <-]. apply get_adapter_registered. exact Had.
    - destruct (is_ValueError e); (split; [|exact HR']); [|reflexivity].
      split; [reflexivity | discriminate]. }
  intros resolved _ [<- Hreg]. destruct resolved as [adapter | error_result];
    [|apply alike_ret; reflexivity].
  apply (alike_bind eq); [apply alike_call | intros valid _ <-].
  destruct (negb valid); [apply alike_ret; reflexivity|].
  rewrite (adapters_ignore_enabled _ adapter _ _ _ (Hreg adapter eq_refl)).
  apply (alike_bind eq); [apply alike_call | intros items _ <-].
  destruct items as [|item rest]; [apply alike_ret; reflexivity|].
  apply (alike_bind eq); [apply alike_db_call | intros source_id _ <-].
  apply (alike_bind eq); [apply alike_process_items | intros counts _ <-].
  apply alike_ret. reflexivity.
Qed.

End EnabledFlag.

(** ** adapters/example.py in a run *)

Section PageError.

Variable lower : pystr -> pystr.
Variable lz4_frame_compress : bytes -> bytes.
Variable browser : Browser.

(** X16. With the example adapter, a page that fails to load, the browser
    starting and closing as it should, ends the run with status [empty] and
    not with an error: the exception is caught in [extract_items], which
    returns no item. Nothing is written. *)
Theorem scrape_target_page_error target_id force region w w1 target e :
  get_target_config target_id region w = (Ok target, w) ->
  not_skipped force (cfg_name target) w w1 ->
  target_source target = py "example" ->
  contains (cfg_url target) (py "example.com") = true ->
  browser_launch browser = Ok tt ->
  page_goto browser (cfg_url target) = Page_error e ->
  browser_close browser = Ok tt ->
  extract_items (ExampleAdapter (browser_session browser)) (cfg_url target) target = Ok []
  /\ exists w',
       scrape_target lower lz4_frame_compress (ADAPTERS (browser_session browser))
         target_id force region w
       = (Ok [ (py "status", VStr (py "empty"));
               (py "target", VStr (cfg_name target));
               (py "items", VInt 0) ], w')
       /\ w_db w' = w_db w.
Proof.
  intros Hcfg Hns Hsrc Hurl Hlaunch Hgoto Hclose.
  assert (Hex : extract_items (ExampleAdapter (browser_session browser))
                  (cfg_url target) target = Ok []).
  { cbn [extract_items ExampleAdapter]. unfold browser_session.
    rewrite Hlaunch, Hgoto, Hclose. reflexivity. }
  split; [exact Hex|].
  assert (Had : get_adapter (ADAPTERS (browser_session browser)) (target_source target)
                = Ok (ExampleAdapter (browser_session browser)))
    by (rewrite Hsrc; reflexivity).
  rewrite (scrape_target_until_extraction _ _ _ _ _ _ _ _ _ _ Hcfg Hns Had Hurl), Hex.
  eexists. split; [reflexivity|].
  apply (extraction_frame force (cfg_name target) (target_source target)
           (ExampleAdapter (browser_session browser)) (cfg_url target) w w1 Hns).
Qed.

End PageError.

(** ** The statements at work on the example store *)

Lemma example_store_up db faults n :
  (forall i, (i < n)%nat -> faults i = None) ->
  db_available_for n (example_world db faults).
Proof.
  intros Hf. split; [eexists _, _; reflexivity|].
  intros i Hi. cbn [example_world w_db_env w_db_calls example_env env_fault Nat.add].
  apply Hf. exact Hi.
Qed.

Lemma example_store_next db : db_available (example_world db no_fault).
Proof. split; [eexists _, _; reflexivity | reflexivity]. Qed.

Lemma stored_db_names : Source_name_unique stored_db.
Proof.
  unfold Source_name_unique. cbn [stored_db Source map].
  apply NoDup_cons; [intros [] | apply NoDup_nil].
Qed.

Lemma stored_db_keys : Item_key_unique stored_db.
Proof.
  unfold Item_key_unique. cbn [stored_db Item map].
  repeat (apply NoDup_cons;
          [ intros Hin; cbn [In] in Hin;
            repeat (destruct Hin as [Hin | Hin]; [discriminate Hin|]); exact Hin | ]).
  apply NoDup_nil.
Qed.

(** Re-inserting ITEM-3 of "Target A" under a new title: the row is
    overwritten in place and stays the only one of its key. *)
Lemma insert_item_overwrites_witness :
  exists w' l1 l2 r',
    insert_item 1 (py "ITEM-3") (py "New title") (py "news") (py "New summary")
      (py "BCJNGA==") [py "news"] (py "https://example.com/a/3") (py "example")
      (example_world stored_db no_fault) = (Ok tt, w')
    /\ Item stored_db = l1 ++ stored_item 3 :: l2
    /\ Item (w_db w') = l1 ++ r' :: l2
    /\ length (filter (has_key 1 (py "ITEM-3")) (Item (w_db w'))) = 1%nat
    /\ Item_title (stored_item 3) = py "Old title"
    /\ Item_title r' = py "New title"
    /\ Item_id r' = 103
    /\ Item_sourceUrl r' = py "https://example.com/a/old".
Proof.
  destruct (insert_item_overwrites (example_world stored_db no_fault)
              1 (py "ITEM-3") (py "New title") (py "news") (py "New summary")
              (py "BCJNGA==") [py "news"] (py "https://example.com/a/3") (py "example")
              (stored_item 3) stored_db_keys)
    as (w' & l1 & l2 & r' & Hrun & Hold & Hnew & Hcount & Htitle & _ & _ & _ & _ & _ & _
        & Hid & _ & Hurl & _).
  - cbn [example_world w_db stored_db Item map In]. auto.
  - reflexivity.
  - apply example_store_next.
  - exists w', l1, l2, r'. repeat split; assumption.
Defined.

(** A second [insert_source] for "Target A" with another slug: the id is the
    one of the stored row, and only the two timestamps move. *)
Lemma insert_source_idempotent_witness :
  exists w' r',
    insert_source (py "Target A") (py "another-slug") (py "news") JNull
      (py "https://example.com/elsewhere") (py "mysite")
      (example_world stored_db no_fault) = (Ok 1, w')
    /\ Source (w_db w') = [r']
    /\ Source_slug r' = py "target-a"
    /\ Source_adapter r' = py "example"
    /\ Source_lastScraped r' = 1700000000
    /\ Source_updatedAt r' = 1700000000
    /\ Source_createdAt r' = 1600000000.
Proof.
  destruct (insert_source_idempotent (example_world stored_db no_fault)
              (py "Target A") (py "another-slug") (py "news") JNull
              (py "https://example.com/elsewhere") (py "mysite")
              stored_source stored_db_names)
    as (w' & l1 & l2 & r' & Hrun & Hold & Hnew & _ & _ & _ & Hc & Hslug & _ & _ & _
        & Had & Hls & Hup & _).
  - left. reflexivity.
  - reflexivity.
  - apply example_store_next.
  - exists w', r'. split; [exact Hrun|].
    destruct l1 as [|x l1]; [|destruct l1; discriminate Hold].
    destruct l2; [|discriminate Hold].
    repeat split; assumption.
Defined.

(** "Target A" is stored with five items: without [force] the run is skipped
    and reports them. *)
Lemma scrape_target_skips_witness :
  exists w',
    scrape_target ascii_lower stored_frame_compress (ADAPTERS (fun _ => Page_items ten_items))
      (py "target-a") false (py "example") (example_world stored_db no_fault)
    = (Ok [ (py "status", VStr (py "skipped"));
            (py "target", VStr (py "Target A"));
            (py "items", VInt 5) ], w')
    /\ w_db w' = stored_db
    /\ w_trace w' = [ Call_source_exists (py "Target A");
                      Call_get_source_id (py "Target A");
                      Call_get_item_count (Some 1) ].
Proof.
  destruct (scrape_target_skips ascii_lower stored_frame_compress
              (ADAPTERS (fun _ => Page_items ten_items))
              (py "target-a") (py "example") (example_world stored_db no_fault)
              example_target 1)
    as (w' & Hrun & Hdb & Htr & _).
  - reflexivity.
  - reflexivity.
  - apply example_store_up. reflexivity.
  - exists w'. repeat split; assumption.
Defined.

(** The example adapter finds nothing at the URL of "Target A". *)
Lemma scrape_target_empty_witness :
  exists w' evs,
    scrape_target ascii_lower stored_frame_compress (ADAPTERS (fun _ => Page_items []))
      (py "target-a") false (py "example") (example_world empty_db no_fault)
    = (Ok [ (py "status", VStr (py "empty"));
            (py "target", VStr (py "Target A"));
            (py "items", VInt 0) ], w')
    /\ w_db w' = empty_db
    /\ w_trace w' = evs
    /\ Forall (fun ev => is_write ev = false) evs.
Proof.
  destruct (scrape_target_empty ascii_lower stored_frame_compress
              (ADAPTERS (fun _ => Page_items []))
              (py "target-a") false (py "example") (example_world empty_db no_fault)
              (snd (source_exists (py "Target A") (example_world empty_db no_fault)))
              example_target (ExampleAdapter (fun _ => Page_items [])))
    as (w' & evs & Hrun & Hdb & Htr & Hw); try reflexivity.
  exists w', evs. repeat split; assumption.
Defined.

(** The browser of the example adapter does not start: the exception leaves
    [scrape_target], and no result with status [error] is returned. *)
Lemma scrape_target_extraction_escapes :
  extract_items (ExampleAdapter (fun _ => Browser_fails browser_down))
    (cfg_url example_target) example_target = Raise browser_down
  /\ fst (scrape_target ascii_lower stored_frame_compress
            (ADAPTERS (fun _ => Browser_fails browser_down))
            (py "target-a") true (py "example") (example_world empty_db no_fault))
     = Raise browser_down
  /\ (forall result w',
         scrape_target ascii_lower stored_frame_compress
           (ADAPTERS (fun _ => Browser_fails browser_down))
           (py "target-a") true (py "example") (example_world empty_db no_fault)
         <> (Ok result, w')).
Proof.
  split; [reflexivity|]. split; [reflexivity|].
  intros result w' E. apply (f_equal fst) in E. discriminate E.
Qed.

Lemma scrape_target_extraction_raises_witness :
  exists w' evs,
    scrape_target ascii_lower stored_frame_compress
      (ADAPTERS (fun _ => Browser_fails browser_down))
      (py "target-a") true (py "example") (example_world stored_db no_fault)
    = (Raise browser_down, w')
    /\ w_db w' = stored_db
    /\ w_trace w' = evs
    /\ Forall (fun ev => is_write ev = false) evs.
Proof.
  destruct (scrape_target_extraction_raises ascii_lower stored_frame_compress
              (ADAPTERS (fun _ => Browser_fails browser_down))
              (py "target-a") true (py "example") (example_world stored_db no_fault)
              (example_world stored_db no_fault)
              example_target (ExampleAdapter (fun _ => Browser_fails browser_down)) browser_down)
    as (w' & evs & Hrun & Hdb & Htr & Hw); try reflexivity.
  exists w', evs. repeat split; assumption.
Defined.

(** "Target B" names the adapter "mysite", which is not registered. *)
Lemma get_adapter_resolution_witness :
  get_adapter (ADAPTERS (fun _ => Page_items [])) (py "mysite")
  = Raise (Exn ValueError (py "Unknown source: mysite. Available: ['example']"))
  /\ (exists w',
         scrape_target ascii_lower stored_frame_compress (ADAPTERS (fun _ => Page_items []))
           (py "target-b") true (py "example") (example_world stored_db no_fault)
         = (Ok [ (py "status", VStr (py "error"));
                 (py "target", VStr (py "Target B"));
                 (py "error",
                   VStr (py "Unknown source: mysite. Available: ['example']")) ], w')
         /\ w_db w' = stored_db)
  /\ (exists cls,
         In (py "example", cls) (ADAPTERS (fun _ => Page_items []))
         /\ get_adapter (ADAPTERS (fun _ => Page_items [])) (py "example") = Ok cls).
Proof.
  destruct (get_adapter_resolution ascii_lower stored_frame_compress
              (ADAPTERS (fun _ => Page_items []))) as (Habsent & Hrun & Hpresent).
  assert (Hn : ~ In (py "mysite") (map fst (ADAPTERS (fun _ => Page_items []))))
    by (intros [E | []]; discriminate E).
  split; [exact (Habsent (py "mysite") Hn)|]. split.
  - destruct (Hrun (py "target-b") true (py "example")
                (example_world stored_db no_fault) (example_world stored_db no_fault)
                mysite_target eq_refl eq_refl Hn) as (w' & Hr & Hdb & _).
    exists w'. split; assumption.
  - apply Hpresent. left. reflexivity.
Defined.

(** Ten items, the store failing on the insert of the seventh: nine
    succeed, one error, status [success]. *)
Lemma scrape_target_partial_failure_witness :
  exists w',
    scrape_target ascii_lower stored_frame_compress (ADAPTERS (fun _ => Page_items ten_items))
      (py "target-a") true (py "example") (example_world empty_db (fault_at 7))
    = (Ok [ (py "status", VStr (py "success"));
            (py "target", VStr (py "Target A"));
            (py "items", VInt 9);
            (py "errors", VInt 1);
            (py "adapter", VStr (py "example")) ], w')
    /\ (1 <= 10)%nat.
Proof.
  refine (scrape_target_partial_failure ascii_lower stored_frame_compress
            (ADAPTERS (fun _ => Page_items ten_items))
            (py "target-a") true (py "example")
            (example_world empty_db (fault_at 7))
            (example_world empty_db (fault_at 7))
            (snd (insert_source (py "Target A") (py "target-a") (py "docs") (JObj [])
                    (py "https://example.com/a") (py "example")
                    (log_all (adapter_calls (py "example")
                                (ExampleAdapter (fun _ => Page_items ten_items))
                                (py "https://example.com/a"))
                       (example_world empty_db (fault_at 7)))))
            example_target (ExampleAdapter (fun _ => Page_items ten_items)) ten_items 1000 1%nat
            eq_refl eq_refl eq_refl eq_refl eq_refl _ _ _).
  - discriminate.
  - vm_compute. reflexivity.
  - vm_compute. reflexivity.
Defined.

(** A text of 250 characters is stored with a summary of its first 200 and
    the marker; a text of 200 characters is its own summary. *)
Lemma summary_truncated_witness :
  (forall r,
      In r (Item (w_db (snd (process_item ascii_lower stored_frame_compress 1 (py "example")
                               (example_item (repeat 97 250) "1")
                               (example_world empty_db no_fault))))) ->
      Item_key r = (1, py "ITEM-1") ->
      Item_summary r = repeat 97 200 ++ py "...")
  /\ (forall r,
      In r (Item (w_db (snd (process_item ascii_lower stored_frame_compress 1 (py "example")
                               (example_item (repeat 97 200) "1")
                               (example_world empty_db no_fault))))) ->
      Item_key r = (1, py "ITEM-1") ->
      Item_summary r = repeat 97 200).
Proof.
  split; intros r Hin Hkey.
  - destruct (summary_truncated ascii_lower stored_frame_compress 1 (py "example")
                (example_item (repeat 97 250) "1"))
      as (summary & Hlong & _ & _ & Hstored).
    rewrite (proj2 (Hstored (example_world empty_db no_fault) _ eq_refl) r Hin Hkey).
    apply Hlong. vm_compute. lia.
  - destruct (summary_truncated ascii_lower stored_frame_compress 1 (py "example")
                (example_item (repeat 97 200) "1"))
      as (summary & _ & Hshort & _ & Hstored).
    rewrite (proj2 (Hstored (example_world empty_db no_fault) _ eq_refl) r Hin Hkey).
    apply Hshort. vm_compute. lia.
Defined.

(** ** The further statements at work on the examples *)

(** A world of the examples whose store has no fault is up for any number
    of connections. *)
Lemma no_fault_up w n :
  (exists c url, w_DATABASE_URL w = Some (c :: url)) ->
  w_db_env w = example_env no_fault ->
  db_available_for n w.
Proof. intros Hurl Henv. split; [exact Hurl|]. intros i _. rewrite Henv. reflexivity. Qed.



(** The items of the example page: the second element has too short a
    text, the third a link without [href], the fifth fails. *)
Example extract_elements_example :
  extract_elements (py "https://example.com/a/") 0 example_elements []
  = [ {| raw_number := py "ITEM-1"; raw_title := py "First";
         raw_text := repeat 97 60; raw_url := py "https://example.com/a/first" |};
      {| raw_number := py "ITEM-4"; raw_title := py "Item 4";
         raw_text := repeat 97 60; raw_url := py "https://example.com/a/a/fourth" |};
      {| raw_number := py "ITEM-6"; raw_title := py "Sixth";
         raw_text := repeat 97 60; raw_url := py "https://example.com/a/" |} ].
Proof. vm_compute. reflexivity. Qed.

(** The euro sign compresses to three groups of base64. *)
Lemma compress_text_base64_witness :
  compress_text stored_frame_compress [0x20AC] = Ok (py "BCJNGOKCrA==")
  /\ Forall (fun ch => is_base64_char ch = true) (py "BCJNGOKCrA==")
  /\ exists groups, length (py "BCJNGOKCrA==") = (4 * groups)%nat.
Proof.
  split; [reflexivity|].
  apply (compress_text_base64 stored_frame_compress stored_frame_bytes
           stored_frame_nonempty [0x20AC] (py "BCJNGOKCrA==")).
  - reflexivity.
  - discriminate.
Defined.

(** An item with a lone surrogate in its text fails without a call. *)
Lemma compress_text_surrogate_witness :
  process_item ascii_lower stored_frame_compress 1 (py "example")
    (example_item [104; 0xD800] "1") (example_world empty_db no_fault)
  = (Raise (Exn UnicodeEncodeError (py "surrogates not allowed")),
     example_world empty_db no_fault).
Proof.
  assert (Hex : Exists (fun c => is_surrogate c = true) [104; 0xD800])
    by (right; left; reflexivity).
  apply (proj2 (compress_text_surrogate stored_frame_compress [104; 0xD800] Hex)).
  reflexivity.
Defined.

(** Keywords after the first 2000 characters of the text are not seen. *)
Lemma categorize_reads_prefix_witness :
  categorize_with ascii_lower CATEGORY_KEYWORDS (py "Notes")
    (repeat 97 2000 ++ py " pricing plan")
  = categorize_with ascii_lower CATEGORY_KEYWORDS (py "Notes") (repeat 97 2000).
Proof.
  apply categorize_reads_prefix. rewrite repeat_length. apply le_n.
Defined.

Lemma DATABASE_URL_required_witness :
  source_exists (py "Target A") (without_DATABASE_URL (example_world stored_db no_fault))
  = (Raise (Exn ValueError (py "DATABASE_URL environment variable not set")),
     log (Call_source_exists (py "Target A"))
       (without_DATABASE_URL (example_world stored_db no_fault))).
Proof.
  apply (proj1 (DATABASE_URL_required
                  (without_DATABASE_URL (example_world stored_db no_fault))
                  (or_introl eq_refl))).
Defined.

(** "Target B" is new to the example store: its row is added after the one
    of "Target A". *)
Lemma insert_source_creates_witness :
  exists w' r,
    insert_source (py "Target B") (py "target-b") (py "news") (JObj [])
      (py "https://mysite.test/b") (py "mysite") (example_world stored_db no_fault)
    = (Ok 1000, w')
    /\ Source (w_db w') = [stored_source; r]
    /\ Source_name r = py "Target B"
    /\ Source_createdAt r = 1700000000
    /\ Item (w_db w') = Item stored_db.
Proof.
  destruct (insert_source_creates (example_world stored_db no_fault)
              (py "Target B") (py "target-b") (py "news") (JObj [])
              (py "https://mysite.test/b") (py "mysite"))
    as (w' & Hrun & Hsrc & Hitem).
  - intros [E | []]. discriminate E.
  - apply example_store_next.
  - exists w'. eexists. split; [exact Hrun|]. split; [exact Hsrc|].
    split; [reflexivity|]. split; [reflexivity | exact Hitem].
Defined.

Lemma insert_source_then_lookup_witness :
  exists w2 w3,
    source_exists (py "Target A")
      (snd (insert_source (py "Target A") (py "target-a") (py "docs") (JObj [])
              (py "https://example.com/a") (py "example")
              (example_world empty_db no_fault)))
    = (Ok true, w2)
    /\ get_source_id (py "Target A") w2 = (Ok (Some 1000), w3).
Proof.
  destruct (insert_source_then_lookup (example_world empty_db no_fault)
              (snd (insert_source (py "Target A") (py "target-a") (py "docs") (JObj [])
                      (py "https://example.com/a") (py "example")
                      (example_world empty_db no_fault)))
              (py "Target A") (py "target-a") (py "docs") (JObj [])
              (py "https://example.com/a") (py "example") 1000)
    as (w2 & w3 & Hex & Hid & _).
  - reflexivity.
  - apply no_fault_up; [eexists _, _; reflexivity | reflexivity].
  - exists w2, w3. split; assumption.
Defined.

(** The example store holds five items of source 1: a sixth number makes
    six; source 2 has none before and after. *)
Lemma insert_item_count_witness :
  exists w3 w4 w5,
    insert_item 1 (py "ITEM-6") (py "Title") (py "news") (py "Summary") (py "BCJNGA==")
      [] (py "https://example.com/a/6") (py "example")
      (snd (get_item_count (Some 2)
              (snd (get_item_count (Some 1) (example_world stored_db no_fault)))))
    = (Ok tt, w3)
    /\ get_item_count (Some 1) w3 = (Ok 6, w4)
    /\ get_item_count (Some 2) w4 = (Ok 0, w5).
Proof.
  apply (insert_item_count (example_world stored_db no_fault)
           (snd (get_item_count (Some 1) (example_world stored_db no_fault)))
           (snd (get_item_count (Some 2)
                   (snd (get_item_count (Some 1) (example_world stored_db no_fault)))))
           1 (py "ITEM-6") (py "Title") (py "news") (py "Summary") (py "BCJNGA==")
           [] (py "https://example.com/a/6") (py "example") 2 5 0).
  - reflexivity.
  - reflexivity.
  - discriminate.
  - apply no_fault_up; [eexists _, _; reflexivity | reflexivity].
Defined.

(** The third element of the example page is passed by. *)
Lemma extract_element_missing_href_witness :
  extract_elements (py "https://example.com/a/") 2 (skipn 2 example_elements) []
  = extract_elements (py "https://example.com/a/") 3 (skipn 3 example_elements) [].
Proof.
  apply (proj2 (extract_element_missing_href (py "https://example.com/a/") 2
                  (example_element (Some "No href"%string) 60 (Some None)) eq_refl)).
Defined.

(** The page of "Target A" times out: the run is [empty]. *)
Lemma scrape_target_page_error_witness :
  exists w',
    scrape_target ascii_lower stored_frame_compress
      (ADAPTERS (browser_session (example_browser (Page_error page_timeout))))
      (py "target-a") true (py "example") (example_world stored_db no_fault)
    = (Ok [ (py "status", VStr (py "empty"));
            (py "target", VStr (py "Target A"));
            (py "items", VInt 0) ], w')
    /\ w_db w' = stored_db.
Proof.
  apply (scrape_target_page_error ascii_lower stored_frame_compress
           (example_browser (Page_error page_timeout))
           (py "target-a") true (py "example") (example_world stored_db no_fault)
           (example_world stored_db no_fault) example_target page_timeout);
    reflexivity.
Defined.

(** Two targets have the id "target-a": the first one is returned. *)
Lemma get_target_config_first_witness :
  get_target_config (py "target-a") (py "example")
    (with_config (example_region wider_config) (example_world empty_db no_fault))
  = (Ok example_target,
     with_config (example_region wider_config) (example_world empty_db no_fault)).
Proof.
  apply (get_target_config_first (py "example")
           (with_config (example_region wider_config) (example_world empty_db no_fault))
           wider_config [mysite_target] example_target
           [other_site_target; shadowed_target]).
  - reflexivity.
  - reflexivity.
  - intros [E | []]. discriminate E.
Defined.

(** "Target C" is not on example.com. *)
Lemma scrape_target_url_rejected_witness :
  exists w',
    scrape_target ascii_lower stored_frame_compress (ADAPTERS (fun _ => Page_items ten_items))
      (py "target-c") true (py "example")
      (with_config (example_region wider_config) (example_world empty_db no_fault))
    = (Ok [ (py "status", VStr (py "error"));
            (py "target", VStr (py "Target C"));
            (py "error", VStr (py "URL validation failed")) ], w')
    /\ w_db w' = empty_db
    /\ w_trace w' = [ Call_get_adapter (py "example");
                      Call_validate_url (py "example") (py "https://other.test/c") ].
Proof.
  apply (scrape_target_url_rejected ascii_lower stored_frame_compress
           (ADAPTERS (fun _ => Page_items ten_items))
           (py "target-c") true (py "example")
           (with_config (example_region wider_config) (example_world empty_db no_fault))
           (with_config (example_region wider_config) (example_world empty_db no_fault))
           other_site_target (ExampleAdapter (fun _ => Page_items ten_items)));
    reflexivity.
Defined.

(** The store is down when an unforced run asks for "Target A". *)
Lemma scrape_target_check_raises_witness :
  fst (scrape_target ascii_lower stored_frame_compress
         (ADAPTERS (fun _ => Page_items ten_items))
         (py "target-a") false (py "example") (example_world stored_db (fault_at 0)))
  = Raise (Exn Psycopg2Error (py "server closed the connection")).
Proof.
  rewrite (proj1 (scrape_target_check_raises ascii_lower stored_frame_compress
                    (ADAPTERS (fun _ => Page_items ten_items))
                    (py "target-a") (py "example") (example_world stored_db (fault_at 0))
                    (snd (source_exists (py "Target A")
                            (example_world stored_db (fault_at 0))))
                    example_target
                    (Exn Psycopg2Error (py "server closed the connection"))
                    eq_refl eq_refl)).
  reflexivity.
Defined.

(** The store is down when a forced run comes to [insert_source]: the ten
    items are dropped. *)
Lemma scrape_target_insert_source_raises_witness :
  exists w',
    scrape_target ascii_lower stored_frame_compress
      (ADAPTERS (fun _ => Page_items ten_items))
      (py "target-a") true (py "example") (example_world empty_db (fault_at 0))
    = (Raise (Exn Psycopg2Error (py "server closed the connection")), w')
    /\ w_db w' = empty_db
    /\ w_trace w' = [ Call_get_adapter (py "example");
                      Call_validate_url (py "example") (py "https://example.com/a");
                      Call_extract_items (py "example") (py "https://example.com/a");
                      Call_insert_source (py "Target A") ].
Proof.
  eexists.
  apply (scrape_target_insert_source_raises ascii_lower stored_frame_compress
           (ADAPTERS (fun _ => Page_items ten_items))
           (py "target-a") true (py "example") (example_world empty_db (fault_at 0))
           (example_world empty_db (fault_at 0)) _
           example_target (ExampleAdapter (fun _ => Page_items ten_items)) ten_items
           (Exn Psycopg2Error (py "server closed the connection")));
    try reflexivity.
  discriminate.
Defined.

(** Of three items the second does not encode: [insert_item] is called
    for the first and the third. *)
Lemma scrape_target_inserts_in_order_witness :
  w_trace (snd (scrape_target ascii_lower stored_frame_compress
                  (ADAPTERS (fun _ => Page_items three_items))
                  (py "target-a") true (py "example") (example_world empty_db no_fault)))
  = [ Call_get_adapter (py "example");
      Call_validate_url (py "example") (py "https://example.com/a");
      Call_extract_items (py "example") (py "https://example.com/a");
      Call_insert_source (py "Target A");
      Call_insert_item 1000 (py "ITEM-1");
      Call_insert_item 1000 (py "ITEM-3") ].
Proof.
  apply (scrape_target_inserts_in_order ascii_lower stored_frame_compress
           (ADAPTERS (fun _ => Page_items three_items))
           (py "target-a") true (py "example") (example_world empty_db no_fault)
           (example_world empty_db no_fault)
           (snd (insert_source (py "Target A") (py "target-a") (py "docs") (JObj [])
                   (py "https://example.com/a") (py "example")
                   (log_all (adapter_calls (py "example")
                               (ExampleAdapter (fun _ => Page_items three_items))
                               (py "https://example.com/a"))
                      (example_world empty_db no_fault))))
           example_target (ExampleAdapter (fun _ => Page_items three_items)) three_items
           1000);
    try reflexivity.
  discriminate.
Defined.

(** The runs of the examples, evaluated. *)
Lemma skipped_run_example :
  scrape_target ascii_lower stored_frame_compress
    (ADAPTERS (fun _ => Page_items ten_items))
    (py "target-a") false (py "example") (example_world stored_db no_fault)
  = (Ok [ (py "status", VStr (py "skipped"));
          (py "target", VStr (py "Target A"));
          (py "items", VInt 5) ],
     snd (scrape_target ascii_lower stored_frame_compress
            (ADAPTERS (fun _ => Page_items ten_items))
            (py "target-a") false (py "example") (example_world stored_db no_fault))).
Proof. vm_compute. reflexivity. Qed.

Lemma forced_run_example :
  let w' := snd (scrape_target ascii_lower stored_frame_compress
                   (ADAPTERS (fun _ => Page_items ten_items))
                   (py "target-a") true (py "example")
                   (example_world empty_db no_fault)) in
  scrape_target ascii_lower stored_frame_compress
    (ADAPTERS (fun _ => Page_items ten_items))
    (py "target-a") true (py "example") (example_world empty_db no_fault)
  = (Ok [ (py "status", VStr (py "success"));
          (py "target", VStr (py "Target A"));
          (py "items", VInt 10);
          (py "errors", VInt 0);
          (py "adapter", VStr (py "example")) ], w')
  /\ w_DATABASE_URL w' = Some (py "postgresql://localhost/scraper")
  /\ w_db_env w' = example_env no_fault
  /\ select_source_id (py "Target A") (w_db w') = Some 1000
  /\ count_items (Some 1000) (w_db w') = 10.
Proof. vm_compute. repeat split. Qed.

(** The result of the skipped run of "Target A" names the target. *)
Lemma scrape_target_result_witness :
  exists target,
    get_target_config (py "target-a") (py "example") (example_world stored_db no_fault)
    = (Ok target, example_world stored_db no_fault)
    /\ cfg_name target = py "Target A".
Proof.
  destruct (scrape_target_result ascii_lower stored_frame_compress
              (ADAPTERS (fun _ => Page_items ten_items))
              (py "target-a") false (py "example") (example_world stored_db no_fault)
              _ _ skipped_run_example) as (target & Hcfg & Hshape).
  exists target. split; [exact Hcfg|].
  destruct Hshape
    as [(count & _ & E)
       | [(message & E) | [E | (a & i & s & f & _ & _ & _ & _ & _ & _ & E)]]];
    try discriminate E.
  injection E as E _. symmetry. exact E.
Defined.

(** A forced run for "Target A" in which the store takes the source and
    fails every item: [main] exits with status 0. *)
Lemma main_exit_status_witness :
  exists printed w',
    main ascii_lower stored_frame_compress (ADAPTERS (fun _ => Page_items ten_items))
      (py "usage: main.py") (fun _ => Ok tt) (example_args true false)
      (example_world empty_db (fault_from 1))
    = ((SystemExit 0, printed), w')
    /\ fst (scrape_target ascii_lower stored_frame_compress
              (ADAPTERS (fun _ => Page_items ten_items))
              (py "target-a") true (py "example") (example_world empty_db (fault_from 1)))
       = Ok [ (py "status", VStr (py "success"));
              (py "target", VStr (py "Target A"));
              (py "items", VInt 0);
              (py "errors", VInt 10);
              (py "adapter", VStr (py "example")) ].
Proof.
  destruct (main_exit_status ascii_lower stored_frame_compress
              (ADAPTERS (fun _ => Page_items ten_items))
              (py "usage: main.py") (fun _ => Ok tt) (example_args true false)
              (py "target-a") (example_world empty_db (fault_from 1)))
    as (code & printed & Hmain & _ & Hcode & _); try reflexivity; [discriminate|].
  assert (Hrun : fst (scrape_target ascii_lower stored_frame_compress
                        (ADAPTERS (fun _ => Page_items ten_items))
                        (py "target-a") true (py "example")
                        (example_world empty_db (fault_from 1)))
                 = Ok [ (py "status", VStr (py "success"));
                        (py "target", VStr (py "Target A"));
                        (py "items", VInt 0);
                        (py "errors", VInt 10);
                        (py "adapter", VStr (py "example")) ])
    by (vm_compute; reflexivity).
  assert (Hzero : code = 0).
  { apply Hcode. eexists _, _. split; [exact Hrun|]. split; [reflexivity|].
    left. reflexivity. }
  subst code. eexists _, _. split; [exact Hmain | exact Hrun].
Defined.

(** After the forced run that stored ten items of "Target A", an unforced
    run is skipped and reports the ten. *)
Lemma scrape_target_rerun_skipped_witness :
  exists w'',
    scrape_target ascii_lower stored_frame_compress
      (ADAPTERS (fun _ => Page_items ten_items))
      (py "target-a") false (py "example")
      (snd (scrape_target ascii_lower stored_frame_compress
              (ADAPTERS (fun _ => Page_items ten_items))
              (py "target-a") true (py "example") (example_world empty_db no_fault)))
    = (Ok [ (py "status", VStr (py "skipped"));
            (py "target", VStr (py "Target A"));
            (py "items", VInt 10) ], w'').
Proof.
  destruct forced_run_example as (Hrun1 & Hurl & Henv & Hsel1 & Hcount).
  destruct (scrape_target_rerun_skipped ascii_lower stored_frame_compress
              (ADAPTERS (fun _ => Page_items ten_items))
              (py "target-a") true (py "example") (example_world empty_db no_fault)
              _ _ Hrun1)
    as (target & id & w'' & Hcfg & Hsel & Hrun & _).
  - reflexivity.
  - apply no_fault_up; [eexists _, _; exact Hurl | exact Henv].
  - exists w''.
    assert (Ht : target = example_target)
      by (vm_compute in Hcfg; injection Hcfg as <-; reflexivity).
    subst target. change (cfg_name example_target) with (py "Target A") in Hsel, Hrun.
    rewrite Hsel1 in Hsel. injection Hsel as <-.
    rewrite Hrun.
    exact (f_equal (fun n => (Ok [ (py "status", VStr (py "skipped"));
                                   (py "target", VStr (py "Target A"));
                                   (py "items", VInt n) ], w'')) Hcount).
Defined.

Lemma stored_item_example :
  process_item ascii_lower stored_frame_compress 1 (py "example")
    (example_item [0x20AC; 0x1F600; 0xE9; 65] "1") (example_world empty_db no_fault)
  = (Ok tt,
     snd (process_item ascii_lower stored_frame_compress 1 (py "example")
            (example_item [0x20AC; 0x1F600; 0xE9; 65] "1")
            (example_world empty_db no_fault))).
Proof. vm_compute. reflexivity. Qed.

(** The row stored for an item with a text in three scripts gives the text
    back. *)
Lemma stored_text_roundtrip_witness :
  exists r,
    In r (Item (w_db (snd (process_item ascii_lower stored_frame_compress 1 (py "example")
                             (example_item [0x20AC; 0x1F600; 0xE9; 65] "1")
                             (example_world empty_db no_fault)))))
    /\ Item_key r = (1, py "ITEM-1")
    /\ decompress_text stored_frame_decompress (Item_fullText r)
       = Ok [0x20AC; 0x1F600; 0xE9; 65].
Proof.
  destruct (stored_text_roundtrip ascii_lower stored_frame_compress stored_frame_decompress
              stored_frame_bytes stored_frame_nonempty stored_frame_roundtrip
              1 (py "example") (example_item [0x20AC; 0x1F600; 0xE9; 65] "1")
              (example_world empty_db no_fault) _ stored_item_example)
    as (r & Hin & Hkey & Hd & _).
  exists r. repeat split; assumption.
Defined.


(** "Target A" disabled in the configuration is scraped as before. *)
Lemma scrape_target_ignores_enabled_witness :
  get_target_config (py "target-a") (py "example")
    (with_config (example_region disabled_config) (example_world empty_db no_fault))
  = (Ok (with_enabled (Some false) example_target),
     with_config (example_region disabled_config) (example_world empty_db no_fault))
  /\ fst (scrape_target ascii_lower stored_frame_compress
            (ADAPTERS (fun _ => Page_items ten_items))
            (py "target-a") true (py "example")
            (with_config (example_region disabled_config)
               (example_world empty_db no_fault)))
     = Ok [ (py "status", VStr (py "success"));
            (py "target", VStr (py "Target A"));
            (py "items", VInt 10);
            (py "errors", VInt 0);
            (py "adapter", VStr (py "example")) ].
Proof.
  split; [reflexivity|].
  rewrite (proj1 (scrape_target_ignores_enabled ascii_lower stored_frame_compress
                    (ADAPTERS (fun _ => Page_items ten_items))
                    (fun source adapter url target enabled Hin =>
                       match Hin with
                       | or_introl E =>
                           match E in _ = p
                                 return extract_items (snd p) url (with_enabled enabled target)
                                        = extract_items (snd p) url target
                           with eq_refl => eq_refl end
                       | or_intror F => match F with end
                       end)
                    (py "target-a") true (py "example")
                    (example_world empty_db no_fault)
                    (with_config (example_region disabled_config)
                       (example_world empty_db no_fault))
                    example_target (Some false)
                    (conj eq_refl (conj eq_refl (conj eq_refl (conj eq_refl eq_refl))))
                    eq_refl eq_refl)).
  vm_compute. reflexivity.
Defined.

(** Whatever the forced run for "Target A" does to the example store, the
    unique constraints hold after it. *)
Lemma main_keeps_constraints_witness :
  constraints_hold
    (w_db (snd (main ascii_lower stored_frame_compress
                  (ADAPTERS (fun _ => Page_items ten_items))
                  (py "usage: main.py") (fun _ => Ok tt) (example_args true false)
                  (example_world stored_db (fault_at 7))))).
Proof.
  apply main_keeps_constraints. split; [exact stored_db_names | exact stored_db_keys].
Defined.
